(** * The lazy server-connection state machine of the classic protocol

    A shallow embedding of [router/src/routing/src/classic_lazy_connect.cc]:
    the three query-result handlers of its anonymous namespace, the
    statement builders, and [LazyConnector::process] with one function per
    stage.

    Conventions of the embedding:
    - the connection object the C++ reaches through [connection()] and the
      members of [LazyConnector] are two records, threaded explicitly;
    - what a stage function does to the outside world (pushing a
      sub-processor, calling the error callback, sending to the client,
      arming the retry timer) is returned as a list of [Effect]s;
    - results of calls into code outside this file (the pool, the
      router-require enforcement, the frame sender, the clock) come in
      through an [Oracle];
    - the tracer and the trace spans only record what happened and never
      feed back into a decision, so they are left out. *)

From Stdlib Require Import String Ascii List ZArith NArith Bool Arith Lia.
From Stdlib Require Import DecimalString.
Import ListNotations.

Local Open Scope string_scope.
Local Open Scope list_scope.

(** ** Strings, as [std::string] is used here *)

Definition nl : ascii := ascii_of_nat 10.
Definition dquote : ascii := ascii_of_nat 34.
Definition squote : ascii := ascii_of_nat 39.
Definition backtick : ascii := ascii_of_nat 96.
Definition backslash : ascii := ascii_of_nat 92.
Definition semicolon : ascii := ascii_of_nat 59.
Definition space : ascii := ascii_of_nat 32.

(** [s.empty()] *)
Definition empty (s : string) : bool :=
  match s with
  | EmptyString => true
  | String _ _ => false
  end.

(** [s.find(c)]: the index of the first [c], [None] for [npos]. *)
Fixpoint find (c : ascii) (s : string) : option nat :=
  match s with
  | EmptyString => None
  | String a r =>
      if Ascii.eqb a c then Some 0
      else match find c r with
           | Some i => Some (S i)
           | None => None
           end
  end.

(** [s.erase(0, n)]: drops the first [n] characters (all of them when the
    string is shorter). *)
Fixpoint erase (n : nat) (s : string) : string :=
  match n, s with
  | 0, _ => s
  | S _, EmptyString => EmptyString
  | S n', String _ r => erase n' r
  end.

(** [s.resize(n)]: keeps the first [n] characters, padding with NUL when
    the string is shorter. *)
Fixpoint resize (n : nat) (s : string) : string :=
  match n, s with
  | 0, _ => EmptyString
  | S n', EmptyString => String zero (resize n' EmptyString)
  | S n', String a r => String a (resize n' r)
  end.

(** [s[0] == c] on a string known to be non-empty. *)
Definition front_is (c : ascii) (s : string) : bool :=
  match s with
  | EmptyString => false
  | String a _ => Ascii.eqb a c
  end.

(** [std::quoted(s, delim)] written to a stream: the delimiter, the text
    with every delimiter and backslash preceded by a backslash, the
    delimiter. *)
Fixpoint quoted_body (delim : ascii) (s : string) : string :=
  match s with
  | EmptyString => EmptyString
  | String a r =>
      if Ascii.eqb a delim || Ascii.eqb a backslash
      then String backslash (String a (quoted_body delim r))
      else String a (quoted_body delim r)
  end.

Definition quoted (delim : ascii) (s : string) : string :=
  String delim (quoted_body delim s ++ String delim EmptyString).

(** [std::to_string] of a signed 64-bit count. *)
Definition to_string_Z (z : Z) : string := NilZero.string_of_int (Z.to_int z).

(** ** Protocol values *)

(** [classic_protocol::message::server::Error] *)
Record Error := mkError {
  error_code : N;
  message : string;
  sql_state : string
}.

(** [Value]: a nullable string; [Value(std::nullopt)] is [None]. *)
Definition Value := option string.

Definition is_null (v : Value) : bool :=
  match v with
  | None => true
  | Some _ => false
  end.

(** [classic_protocol::message::server::Row]: the fields of one row. *)
Definition Row := list (option string).

(** ** The system-variable store *)

(** Modelled from the spec: [ExecutionContext::SystemVariables] is
    declared in a header that is not part of this file; the spec gives it
    as an ordered mapping from name to nullable scalar with lookup by
    name.  It is kept here as an association list in key order. *)
Definition SystemVariables := list (string * Value).

(** Modelled from the spec: [find(name)], an optional that is empty when
    the name is absent. *)
Fixpoint sv_find (name : string) (vars : SystemVariables) : option Value :=
  match vars with
  | [] => None
  | (k, v) :: rest => if String.eqb k name then Some v else sv_find name rest
  end.

(** Modelled from the spec: [get(name)], the stored value, and the NULL
    value when the name is absent; [set_session_var_if_not_set] relies on
    exactly this to detect a variable that is not set. *)
Definition sv_get (name : string) (vars : SystemVariables) : Value :=
  match sv_find name vars with
  | Some v => v
  | None => None
  end.

(** Modelled from the spec: [set(name, value)], insert or overwrite,
    keeping the keys in order. *)
Fixpoint sv_set (name : string) (v : Value) (vars : SystemVariables)
  : SystemVariables :=
  match vars with
  | [] => [(name, v)]
  | (k, w) :: rest =>
      match String.compare name k with
      | Lt => (name, v) :: (k, w) :: rest
      | Eq => (name, v) :: rest
      | Gt => (k, w) :: sv_set name v rest
      end
  end.

(** ** The connection, as far as this file reads and writes it *)

(** [mysqlrouter::ServerMode], declared in [mysqlrouter/datatypes.h].
    This file compares against [ReadOnly] and [ReadWrite] only;
    [Unavailable] is the enumeration's remaining value. *)
Inductive ServerMode := ReadWrite | ReadOnly | Unavailable.

Definition ServerMode_eqb (a b : ServerMode) : bool :=
  match a, b with
  | ReadWrite, ReadWrite | ReadOnly, ReadOnly | Unavailable, Unavailable => true
  | _, _ => false
  end.

Record Context := {
  connection_sharing : bool;
  router_require_enforce : bool
}.

Record ClientProtocol := {
  c_username : string;
  c_sent_attributes : string;
  c_schema : string;
  c_multi_statements : bool;   (* client_capabilities().test(multi_statements) *)
  c_password : option string;
  c_status_flags : N
}.

Record ServerProtocol := {
  s_server_greeting : bool;    (* server_greeting().has_value() *)
  s_username : string;
  s_sent_attributes : string;
  s_schema : string;
  s_multi_statements : bool;
  s_seq_id : N
}.

Record Connection := {
  context : Context;
  client_protocol : ClientProtocol;
  server_protocol : ServerProtocol;
  server_protocol_present : bool;        (* server_protocol() != nullptr *)
  server_conn_is_open : bool;
  authenticated : bool;
  client_greeting_sent : bool;
  greeting_from_router : bool;
  connection_sharing_possible : bool;
  expected_server_mode : ServerMode;
  wait_for_my_writes : bool;
  wait_for_my_writes_timeout : Z;        (* seconds *)
  gtid_at_least_executed : string;
  trx_characteristics : option string;
  system_variables : SystemVariables;
  some_state_changed : bool
}.

(** ** The processor *)

Inductive Stage :=
| Connect | Connected | Authenticated
| FetchUserAttrs | FetchUserAttrsDone | SendAuthOk
| SetSchema | SetSchemaDone
| SetServerOption | SetServerOptionDone
| SetVars | SetVarsDone
| FetchSysVars | FetchSysVarsDone
| SetTrxCharacteristics | SetTrxCharacteristicsDone
| WaitGtidExecuted | WaitGtidExecutedDone
| PoolOrClose | FallbackToWrite
| Done.

Definition Stage_eq_dec (a b : Stage) : {a = b} + {a <> b}.
Proof. decide equality. Defined.

Definition Stage_eqb (a b : Stage) : bool :=
  if Stage_eq_dec a b then true else false.

(** The members of [LazyConnector].  [on_error_] is a [std::function];
    the model keeps whether it holds a target, and records its calls as
    effects. *)
Record LazyConnector := {
  stage : Stage;
  failed : option Error;
  already_fallback_ : bool;
  retry_connect_ : bool;
  trx_stmt_ : string;
  in_handshake_ : bool;
  on_error_ : bool;
  required_connection_attributes_fetcher_result_ : bool   (* has a value *)
}.

Record State := {
  lc : LazyConnector;
  conn : Connection
}.

(** [Processor::Result] *)
Inductive Result := Again | Suspend | SendToClient | ResultDone.

(** The handlers this file hands to [QuerySender]. *)
Inductive Handler :=
| FailedQueryHandler (stmt : string)
| IsTrueHandler (on_cond_fail_error : Error)
| SelectSessionVariablesHandler.

(** The two shapes of error callback this file hands to a sub-processor:
    the lambda that only forwards to [on_error_], and the one given to
    [ServerGreetor], which may ask for a retry instead. *)
Inductive ErrorCallback := ForwardOnError | GreetorOnError.

Inductive SetOption := MYSQL_OPTION_MULTI_STATEMENTS_ON | MYSQL_OPTION_MULTI_STATEMENTS_OFF.

Inductive SubProcessor :=
| ConnectProcessor (on_error : ErrorCallback)
| ResetConnectionSender
| ChangeUserSender (in_handshake : bool) (on_error : ErrorCallback)
| ServerGreetor (in_handshake : bool) (on_error : ErrorCallback)
| QuerySender (stmt : string) (handler : Handler)
| SetOptionSender (opt : SetOption)
| InitSchemaSender (schema : string)
| QuitSender
| RouterRequireFetcher.

Inductive Effect :=
| CallOnError (err : Error)          (* on_error_(err) *)
| BadFunctionCall                    (* on_error_(err) on an empty std::function *)
| PushProcessor (p : SubProcessor)   (* connection()->push_processor(...) *)
| ConnectTimerStart                  (* expires_after(kConnectRetryInterval); async_wait(resume) *)
| PoolServerConnection               (* pool_server_connection() *)
| RouterRequireEnforce               (* RouterRequire::enforce(...) *)
| SendOk (status_flags : N).         (* ClassicFrame::send_msg<Ok>(...) *)

(** What one call of [process] needs from code outside this file. *)
Record Oracle := {
  pool_res : N + bool;          (* pool_server_connection(): error code, or still_open *)
  pool_leaves_open : bool;      (* server_conn().is_open() once it has returned *)
  pool_leaves_protocol : option ServerProtocol;
                                (* server_protocol() once it has returned,
                                   [None] for nullptr *)
  enforce_res : bool;           (* RouterRequire::enforce(...) succeeded *)
  send_res : option N           (* send_msg: an error code, or success *)
}.

(** The result of one stage function: the new state, what it did, and
    the [stdx::expected<Result, std::error_code>] it returns. *)
Record Outcome := {
  next : State;
  effects : list Effect;
  result : Result + N
}.

(** *** Setters *)

Definition set_stage (st : Stage) (l : LazyConnector) : LazyConnector :=
  {| stage := st; failed := failed l; already_fallback_ := already_fallback_ l;
     retry_connect_ := retry_connect_ l; trx_stmt_ := trx_stmt_ l;
     in_handshake_ := in_handshake_ l; on_error_ := on_error_ l;
     required_connection_attributes_fetcher_result_ :=
       required_connection_attributes_fetcher_result_ l |}.

Definition set_failed (e : option Error) (l : LazyConnector) : LazyConnector :=
  {| stage := stage l; failed := e; already_fallback_ := already_fallback_ l;
     retry_connect_ := retry_connect_ l; trx_stmt_ := trx_stmt_ l;
     in_handshake_ := in_handshake_ l; on_error_ := on_error_ l;
     required_connection_attributes_fetcher_result_ :=
       required_connection_attributes_fetcher_result_ l |}.

Definition set_already_fallback (b : bool) (l : LazyConnector) : LazyConnector :=
  {| stage := stage l; failed := failed l; already_fallback_ := b;
     retry_connect_ := retry_connect_ l; trx_stmt_ := trx_stmt_ l;
     in_handshake_ := in_handshake_ l; on_error_ := on_error_ l;
     required_connection_attributes_fetcher_result_ :=
       required_connection_attributes_fetcher_result_ l |}.

Definition set_retry_connect (b : bool) (l : LazyConnector) : LazyConnector :=
  {| stage := stage l; failed := failed l; already_fallback_ := already_fallback_ l;
     retry_connect_ := b; trx_stmt_ := trx_stmt_ l;
     in_handshake_ := in_handshake_ l; on_error_ := on_error_ l;
     required_connection_attributes_fetcher_result_ :=
       required_connection_attributes_fetcher_result_ l |}.

Definition set_trx_stmt (t : string) (l : LazyConnector) : LazyConnector :=
  {| stage := stage l; failed := failed l; already_fallback_ := already_fallback_ l;
     retry_connect_ := retry_connect_ l; trx_stmt_ := t;
     in_handshake_ := in_handshake_ l; on_error_ := on_error_ l;
     required_connection_attributes_fetcher_result_ :=
       required_connection_attributes_fetcher_result_ l |}.

Definition set_authenticated (b : bool) (c : Connection) : Connection :=
  {| context := context c; client_protocol := client_protocol c;
     server_protocol := server_protocol c;
     server_protocol_present := server_protocol_present c;
     server_conn_is_open := server_conn_is_open c; authenticated := b;
     client_greeting_sent := client_greeting_sent c;
     greeting_from_router := greeting_from_router c;
     connection_sharing_possible := connection_sharing_possible c;
     expected_server_mode := expected_server_mode c;
     wait_for_my_writes := wait_for_my_writes c;
     wait_for_my_writes_timeout := wait_for_my_writes_timeout c;
     gtid_at_least_executed := gtid_at_least_executed c;
     trx_characteristics := trx_characteristics c;
     system_variables := system_variables c;
     some_state_changed := some_state_changed c |}.

Definition set_client_greeting_sent (b : bool) (c : Connection) : Connection :=
  {| context := context c; client_protocol := client_protocol c;
     server_protocol := server_protocol c;
     server_protocol_present := server_protocol_present c;
     server_conn_is_open := server_conn_is_open c; authenticated := authenticated c;
     client_greeting_sent := b;
     greeting_from_router := greeting_from_router c;
     connection_sharing_possible := connection_sharing_possible c;
     expected_server_mode := expected_server_mode c;
     wait_for_my_writes := wait_for_my_writes c;
     wait_for_my_writes_timeout := wait_for_my_writes_timeout c;
     gtid_at_least_executed := gtid_at_least_executed c;
     trx_characteristics := trx_characteristics c;
     system_variables := system_variables c;
     some_state_changed := some_state_changed c |}.

Definition set_expected_server_mode (m : ServerMode) (c : Connection) : Connection :=
  {| context := context c; client_protocol := client_protocol c;
     server_protocol := server_protocol c;
     server_protocol_present := server_protocol_present c;
     server_conn_is_open := server_conn_is_open c; authenticated := authenticated c;
     client_greeting_sent := client_greeting_sent c;
     greeting_from_router := greeting_from_router c;
     connection_sharing_possible := connection_sharing_possible c;
     expected_server_mode := m;
     wait_for_my_writes := wait_for_my_writes c;
     wait_for_my_writes_timeout := wait_for_my_writes_timeout c;
     gtid_at_least_executed := gtid_at_least_executed c;
     trx_characteristics := trx_characteristics c;
     system_variables := system_variables c;
     some_state_changed := some_state_changed c |}.

Definition set_system_variables (v : SystemVariables) (c : Connection) : Connection :=
  {| context := context c; client_protocol := client_protocol c;
     server_protocol := server_protocol c;
     server_protocol_present := server_protocol_present c;
     server_conn_is_open := server_conn_is_open c; authenticated := authenticated c;
     client_greeting_sent := client_greeting_sent c;
     greeting_from_router := greeting_from_router c;
     connection_sharing_possible := connection_sharing_possible c;
     expected_server_mode := expected_server_mode c;
     wait_for_my_writes := wait_for_my_writes c;
     wait_for_my_writes_timeout := wait_for_my_writes_timeout c;
     gtid_at_least_executed := gtid_at_least_executed c;
     trx_characteristics := trx_characteristics c;
     system_variables := v;
     some_state_changed := some_state_changed c |}.

Definition set_some_state_changed (b : bool) (c : Connection) : Connection :=
  {| context := context c; client_protocol := client_protocol c;
     server_protocol := server_protocol c;
     server_protocol_present := server_protocol_present c;
     server_conn_is_open := server_conn_is_open c; authenticated := authenticated c;
     client_greeting_sent := client_greeting_sent c;
     greeting_from_router := greeting_from_router c;
     connection_sharing_possible := connection_sharing_possible c;
     expected_server_mode := expected_server_mode c;
     wait_for_my_writes := wait_for_my_writes c;
     wait_for_my_writes_timeout := wait_for_my_writes_timeout c;
     gtid_at_least_executed := gtid_at_least_executed c;
     trx_characteristics := trx_characteristics c;
     system_variables := system_variables c;
     some_state_changed := b |}.

(** The server side of the connection: whether it is open, and its
    protocol state, [None] when [server_protocol()] is a null pointer
    (the fields of the state last seen are kept, unread). *)
Definition set_server_side (is_open : bool) (protocol : option ServerProtocol)
    (c : Connection) : Connection :=
  {| context := context c; client_protocol := client_protocol c;
     server_protocol :=
       match protocol with Some p => p | None => server_protocol c end;
     server_protocol_present :=
       match protocol with Some _ => true | None => false end;
     server_conn_is_open := is_open; authenticated := authenticated c;
     client_greeting_sent := client_greeting_sent c;
     greeting_from_router := greeting_from_router c;
     connection_sharing_possible := connection_sharing_possible c;
     expected_server_mode := expected_server_mode c;
     wait_for_my_writes := wait_for_my_writes c;
     wait_for_my_writes_timeout := wait_for_my_writes_timeout c;
     gtid_at_least_executed := gtid_at_least_executed c;
     trx_characteristics := trx_characteristics c;
     system_variables := system_variables c;
     some_state_changed := some_state_changed c |}.

Definition set_seq_id (n : N) (c : Connection) : Connection :=
  {| context := context c; client_protocol := client_protocol c;
     server_protocol :=
       {| s_server_greeting := s_server_greeting (server_protocol c);
          s_username := s_username (server_protocol c);
          s_sent_attributes := s_sent_attributes (server_protocol c);
          s_schema := s_schema (server_protocol c);
          s_multi_statements := s_multi_statements (server_protocol c);
          s_seq_id := n |};
     server_protocol_present := server_protocol_present c;
     server_conn_is_open := server_conn_is_open c; authenticated := authenticated c;
     client_greeting_sent := client_greeting_sent c;
     greeting_from_router := greeting_from_router c;
     connection_sharing_possible := connection_sharing_possible c;
     expected_server_mode := expected_server_mode c;
     wait_for_my_writes := wait_for_my_writes c;
     wait_for_my_writes_timeout := wait_for_my_writes_timeout c;
     gtid_at_least_executed := gtid_at_least_executed c;
     trx_characteristics := trx_characteristics c;
     system_variables := system_variables c;
     some_state_changed := some_state_changed c |}.

(** [stage(st)], [failed(e)] and the connection setters, on the pair. *)
Definition with_lc (f : LazyConnector -> LazyConnector) (s : State) : State :=
  {| lc := f (lc s); conn := conn s |}.

Definition with_conn (f : Connection -> Connection) (s : State) : State :=
  {| lc := lc s; conn := f (conn s) |}.

(** ** The query-result handlers *)

(** What [QuerySender] reports to its handler. *)
Inductive HandlerEvent :=
| OnColumnCount (count : N)
| OnColumn
| OnRow (row : Row)
| OnRowEnd
| OnOk
| OnError (err : Error).

(** The events of a resultset with [count] columns and the given rows. *)
Definition resultset (count : N) (rows : list Row) : list HandlerEvent :=
  OnColumnCount count :: repeat OnColumn (N.to_nat count)
    ++ map OnRow rows ++ [OnRowEnd].

(** [++row_count_] on a [uint64_t]. *)
Definition uint64_succ (n : N) : N := ((n + 1) mod 2 ^ 64)%N.

Definition HY000 (msg : string) : Error := mkError 0 msg "HY000".

(** [processor_.failed(err)] *)
Definition processor_failed (err : Error) (l : LazyConnector) : LazyConnector :=
  set_failed (Some err) l.

(** *** [FailedQueryHandler] *)

Definition FailedQueryHandler_on_error (err : Error) (l : LazyConnector)
  : LazyConnector :=
  processor_failed err l.

(** *** [IsTrueHandler] *)

Record IsTrue := {
  row_count_ : N;
  on_condition_fail_error_ : Error
}.

Definition IsTrue_on_column_count (count : N) (h : IsTrue) (l : LazyConnector)
  : IsTrue * LazyConnector :=
  if negb (count =? 1)%N
  then (h, processor_failed (HY000 "Too many columns") l)
  else (h, l).

Definition IsTrue_on_row (row : Row) (h : IsTrue) (l : LazyConnector)
  : IsTrue * LazyConnector :=
  let h' := {| row_count_ := uint64_succ (row_count_ h);
               on_condition_fail_error_ := on_condition_fail_error_ h |} in
  match row with
  | [] => (h', processor_failed (HY000 "No fields") l)
  | fld :: _ =>
      match fld with
      | None => (h', processor_failed (HY000 "Expected integer, got NULL") l)
      | Some v =>
          if negb (String.eqb v "1")
          then (h', processor_failed (on_condition_fail_error_ h) l)
          else (h', l)
      end
  end.

Definition IsTrue_on_row_end (h : IsTrue) (l : LazyConnector)
  : IsTrue * LazyConnector :=
  if negb (row_count_ h =? 1)%N
  then (h, processor_failed (HY000 "Too many rows") l)
  else (h, l).

Definition IsTrue_on_error (err : Error) (h : IsTrue) (l : LazyConnector)
  : IsTrue * LazyConnector :=
  (h, processor_failed err l).

(** [on_column] and [on_ok] are not overridden: the base handler's do
    nothing. *)
Definition IsTrue_handle (ev : HandlerEvent) (h : IsTrue) (l : LazyConnector)
  : IsTrue * LazyConnector :=
  match ev with
  | OnColumnCount count => IsTrue_on_column_count count h l
  | OnColumn => (h, l)
  | OnRow row => IsTrue_on_row row h l
  | OnRowEnd => IsTrue_on_row_end h l
  | OnOk => (h, l)
  | OnError err => IsTrue_on_error err h l
  end.

Fixpoint IsTrue_run (evs : list HandlerEvent) (h : IsTrue) (l : LazyConnector)
  : IsTrue * LazyConnector :=
  match evs with
  | [] => (h, l)
  | ev :: rest =>
      let '(h', l') := IsTrue_handle ev h l in IsTrue_run rest h' l'
  end.

(** The handler as constructed: [row_count_{}]. *)
Definition IsTrue_new (on_cond_fail_error : Error) : IsTrue :=
  {| row_count_ := 0; on_condition_fail_error_ := on_cond_fail_error |}.

(** *** [SelectSessionVariablesHandler] *)

Record SelectSessionVariables := {
  col_count_ : N;
  something_failed_ : bool;
  session_variables_ : list (string * Value)   (* the deque, front first *)
}.

Definition SelectSessionVariables_new : SelectSessionVariables :=
  {| col_count_ := 0; something_failed_ := false; session_variables_ := [] |}.

Definition SSV_on_column_count (count : N) (h : SelectSessionVariables)
  : SelectSessionVariables :=
  {| col_count_ := count;
     something_failed_ := if negb (count =? 2)%N then true else something_failed_ h;
     session_variables_ := session_variables_ h |}.

(** [on_row] reads [row[0]] and [row[1]] without a bounds check; a row
    too short for that is undefined behaviour, [None] here. *)
Definition SSV_on_row (row : Row) (h : SelectSessionVariables)
  : option SelectSessionVariables :=
  if something_failed_ h then Some h
  else
    match row with
    | [] => None
    | None :: _ =>
        Some {| col_count_ := col_count_ h; something_failed_ := true;
                session_variables_ := session_variables_ h |}
    | Some key :: [] => None
    | Some key :: val :: _ =>
        Some {| col_count_ := col_count_ h;
                something_failed_ := something_failed_ h;
                session_variables_ := session_variables_ h ++ [(key, val)] |}
    end.

(** The loop of [on_row_end]: pops the deque front to back, storing each
    pair. *)
Fixpoint move_session_variables (q : list (string * Value)) (vars : SystemVariables)
  : SystemVariables :=
  match q with
  | [] => vars
  | (name, v) :: rest => move_session_variables rest (sv_set name v vars)
  end.

Definition SSV_on_row_end (h : SelectSessionVariables) (c : Connection)
  : SelectSessionVariables * Connection :=
  if something_failed_ h
  then (h, set_some_state_changed true c)
  else
    ({| col_count_ := col_count_ h; something_failed_ := something_failed_ h;
        session_variables_ := [] |},
     set_system_variables
       (move_session_variables (session_variables_ h) (system_variables c)) c).

Definition SSV_on_ok (h : SelectSessionVariables) (c : Connection)
  : SelectSessionVariables * Connection :=
  (h, set_some_state_changed true c).

Definition SSV_on_error (err : Error) (h : SelectSessionVariables) (c : Connection)
  : SelectSessionVariables * Connection :=
  (h, set_some_state_changed true c).

(** The handler holds the connection only; the processor rides along
    untouched so that a theorem can say so. *)
Definition SSV_handle (ev : HandlerEvent) (h : SelectSessionVariables) (s : State)
  : option (SelectSessionVariables * State) :=
  match ev with
  | OnColumnCount count => Some (SSV_on_column_count count h, s)
  | OnColumn => Some (h, s)
  | OnRow row =>
      match SSV_on_row row h with
      | Some h' => Some (h', s)
      | None => None
      end
  | OnRowEnd =>
      let '(h', c') := SSV_on_row_end h (conn s) in
      Some (h', {| lc := lc s; conn := c' |})
  | OnOk =>
      let '(h', c') := SSV_on_ok h (conn s) in
      Some (h', {| lc := lc s; conn := c' |})
  | OnError err =>
      let '(h', c') := SSV_on_error err h (conn s) in
      Some (h', {| lc := lc s; conn := c' |})
  end.

Fixpoint SSV_run (evs : list HandlerEvent) (h : SelectSessionVariables) (s : State)
  : option (SelectSessionVariables * State) :=
  match evs with
  | [] => Some (h, s)
  | ev :: rest =>
      match SSV_handle ev h s with
      | Some (h', s') => SSV_run rest h' s'
      | None => None
      end
  end.

(** The statements handed to [QuerySender], in the order pushed. *)
Fixpoint queries_sent (effs : list Effect) : list string :=
  match effs with
  | [] => []
  | PushProcessor (QuerySender stmt _) :: rest => stmt :: queries_sent rest
  | _ :: rest => queries_sent rest
  end.

(** The errors handed to [on_error_], in order. *)
Fixpoint on_error_calls (effs : list Effect) : list Error :=
  match effs with
  | [] => []
  | CallOnError err :: rest => err :: on_error_calls rest
  | _ :: rest => on_error_calls rest
  end.

(** ** What the handlers and builders amount to *)

(** The error an [IsTrueHandler] row raises, if any. *)
Definition IsTrue_row_error (on_cond_fail_error : Error) (row : Row) : option Error :=
  match row with
  | [] => Some (HY000 "No fields")
  | None :: _ => Some (HY000 "Expected integer, got NULL")
  | Some v :: _ => if String.eqb v "1" then None else Some on_cond_fail_error
  end.

(** The failure an [IsTrueHandler] leaves after a whole resultset, by
    cause; [None] when it has nothing to complain about. *)
Definition IsTrue_verdict (on_cond_fail_error : Error) (count : N) (rows : list Row)
  : option Error :=
  match rows with
  | [row] =>
      match IsTrue_row_error on_cond_fail_error row with
      | Some e => Some e
      | None => if (count =? 1)%N then None else Some (HY000 "Too many columns")
      end
  | _ => Some (HY000 "Too many rows")
  end.

(** The row [SelectSessionVariablesHandler] expects for a captured pair:
    the name, the value, and whatever fields follow. *)
Definition pair_row (extra : Row) (p : string * Value) : Row :=
  Some (fst p) :: snd p :: extra.

(** The value the last of the pairs gives a name, if any does. *)
Fixpoint last_binding (name : string) (pairs : list (string * Value)) : option Value :=
  match pairs with
  | [] => None
  | (k, v) :: rest =>
      match last_binding name rest with
      | Some w => Some w
      | None => if String.eqb k name then Some v else None
      end
  end.

(** The statement [set_trx_characteristics] sends for a remembered text:
    the part before the first semicolon, or all of it. *)
Definition trx_first (t : string) : string :=
  match find semicolon t with
  | None => t
  | Some semi_pos => resize semi_pos t
  end.

(** One leading space less. *)
Definition skip_space (t : string) : string :=
  if front_is space t then erase 1 t else t.

(** What [set_trx_characteristics] leaves remembered: nothing, or the
    text after the first semicolon and one space. *)
Definition trx_rest (t : string) : string :=
  match find semicolon t with
  | None => EmptyString
  | Some semi_pos => skip_space (erase (semi_pos + 1) t)
  end.

(** The statements a remembered text is replayed as. *)
Fixpoint trx_pieces_upto (fuel : nat) (t : string) : list string :=
  match fuel with
  | 0 => []
  | S fuel' =>
      if empty t then [] else trx_first t :: trx_pieces_upto fuel' (trx_rest t)
  end.

Definition trx_pieces (t : string) : list string :=
  trx_pieces_upto (String.length t) t.

(** Where the replay of [t0] stands when [sent] has been sent. *)
Definition trx_progress (t0 : string) (s : State) (sent : list string) : Prop :=
  match stage (lc s) with
  | SetTrxCharacteristics | SetTrxCharacteristicsDone =>
      sent ++ trx_pieces (trx_stmt_ (lc s)) = trx_pieces t0
  | FetchUserAttrs | FetchUserAttrsDone | SendAuthOk | Done =>
      sent = trx_pieces t0
  | _ => False
  end.

(** A bound on the calls of [process] the replay still needs. *)
Definition trx_measure (s : State) : nat :=
  match stage (lc s) with
  | SetTrxCharacteristics => 2 * String.length (trx_stmt_ (lc s)) + 1
  | SetTrxCharacteristicsDone => 2 * String.length (trx_stmt_ (lc s)) + 2
  | _ => 0
  end.

(** The defaults [set_vars] injects when session trackers are needed. *)
Definition tracker_defaults : list (string * Value) :=
  [("session_track_gtids", Some "OWN_GTID");
   ("session_track_transaction_info", Some "CHARACTERISTICS");
   ("session_track_state_change", Some "ON")]%string.

(** The three parts of the statement [set_vars] builds, as name and
    value pairs: the leading session_track_system_variables assignment,
    the entries of the store that are replayed, and the injected
    defaults. *)
Definition leading_assignment (sysvars : SystemVariables) (need_session_trackers : bool)
  : list (string * Value) :=
  let var := sv_get "session_track_system_variables" sysvars in
  if need_session_trackers
  then [("session_track_system_variables"%string,
         if is_null var then Some "*"%string else var)]
  else if is_null var then []
  else [("session_track_system_variables"%string, var)].

Definition replayed (sysvars : SystemVariables) : list (string * Value) :=
  filter (fun var =>
            negb (String.eqb (fst var) "session_track_system_variables")
            && negb (String.eqb (fst var) "statement_id"))
         sysvars.

Definition injected (sysvars : SystemVariables) (need_session_trackers : bool)
  : list (string * Value) :=
  if need_session_trackers
  then filter (fun d => is_null (sv_get (fst d) sysvars)) tracker_defaults
  else [].

Definition set_vars_assignments (sysvars : SystemVariables)
    (need_session_trackers : bool) : list (string * Value) :=
  leading_assignment sysvars need_session_trackers
    ++ replayed sysvars ++ injected sysvars need_session_trackers.

(** The assignments to one name, in order. *)
Definition assignments_to (name : string) (l : list (string * Value))
  : list (string * Value) :=
  filter (fun a => String.eqb (fst a) name) l.

(** The sub-processors pushed, in order. *)
Fixpoint pushes (effs : list Effect) : list SubProcessor :=
  match effs with
  | [] => []
  | PushProcessor p :: rest => p :: pushes rest
  | _ :: rest => pushes rest
  end.

(** The stages one call of [process] can lead to from a stage. *)
Definition next_stages (st : Stage) : list Stage :=
  match st with
  | Connect => [Connected; Done]
  | Connected => [Authenticated; Done]
  | Authenticated => [SetVars; Connect; Done]
  | SetVars => [SetVarsDone; SetServerOption]
  | SetVarsDone => [SetServerOption]
  | SetServerOption => [SetServerOptionDone; FetchSysVars]
  | SetServerOptionDone => [FetchSysVars; Done]
  | FetchSysVars => [FetchSysVarsDone; SetSchema]
  | FetchSysVarsDone => [SetSchema]
  | SetSchema => [SetSchemaDone; WaitGtidExecuted]
  | SetSchemaDone => [WaitGtidExecuted; Done]
  | WaitGtidExecuted => [WaitGtidExecutedDone; SetTrxCharacteristics]
  | WaitGtidExecutedDone => [SetTrxCharacteristics; PoolOrClose]
  | SetTrxCharacteristics => [SetTrxCharacteristicsDone; FetchUserAttrs]
  | SetTrxCharacteristicsDone => [SetTrxCharacteristics; FetchUserAttrs]
  | FetchUserAttrs => [FetchUserAttrsDone; SendAuthOk]
  | FetchUserAttrsDone => [SendAuthOk; Done]
  | SendAuthOk => [Done; SendAuthOk]
  | PoolOrClose => [FallbackToWrite]
  | FallbackToWrite => [Connect; Done]
  | Done => [Done]
  end.

(** A bound on the calls of [process] that lead from a stage past
    [Connected] to [Done], when no retry and no fallback is taken and
    no call fails: the stages still ahead, and two calls for each
    character of the remembered transaction statement.  [Connect] and
    [Connected] get no bound: [connected] is where the statement is
    remembered. *)
Definition calls_to_Done (s : State) : nat :=
  let n := String.length (trx_stmt_ (lc s)) in
  match stage (lc s) with
  | Done => 0
  | SendAuthOk => 1
  | FetchUserAttrsDone => 2
  | FetchUserAttrs => 3
  | FallbackToWrite => 1
  | PoolOrClose => 2
  | SetTrxCharacteristics => 2 * n + 4
  | SetTrxCharacteristicsDone => 2 * n + 5
  | WaitGtidExecutedDone => 2 * n + 5
  | WaitGtidExecuted => 2 * n + 6
  | SetSchemaDone => 2 * n + 7
  | SetSchema => 2 * n + 8
  | FetchSysVarsDone => 2 * n + 9
  | FetchSysVars => 2 * n + 10
  | SetServerOptionDone => 2 * n + 11
  | SetServerOption => 2 * n + 12
  | SetVarsDone => 2 * n + 13
  | SetVars => 2 * n + 14
  | Authenticated => 2 * n + 15
  | Connected | Connect => 0
  end.

(** The three variables [fetch_sys_vars] expects to know. *)
Definition expected_sys_vars : list string :=
  ["collation_connection"; "character_set_client"; "sql_mode"]%string.

(** Those of them the store does not hold. *)
Definition missing_sys_vars (vars : SystemVariables) : list string :=
  filter (fun name => match sv_find name vars with
                      | None => true
                      | Some _ => false
                      end) expected_sys_vars.

(** The SELECT that fetches one variable, and the UNION of several. *)
Definition select_sys_var (name : string) : string :=
  ("SELECT " ++ quoted squote name ++ ", @@SESSION." ++ quoted backtick name)%string.

Fixpoint union_of (selects : list string) : string :=
  match selects with
  | [] => EmptyString
  | [q] => q
  | q :: rest => (q ++ " UNION " ++ union_of rest)%string
  end.

(** Every row has as many fields as the resultset announced. *)
Definition rows_match (count : N) (rows : list Row) : Prop :=
  Forall (fun row => N.of_nat (length row) = count) rows.

(** ** The stage functions *)

Definition again (s : State) (effs : list Effect) : Outcome :=
  {| next := s; effects := effs; result := inl Again |}.

(** [on_error_(err)] *)
Definition call_on_error (err : Error) (s : State) : list Effect :=
  if on_error_ (lc s) then [CallOnError err] else [BadFunctionCall].

(** What the lambda given to [ServerGreetor] asks of the outside:
    [connect_error_is_transient(err)] and whether the clock is still
    before [started_ + connect_retry_timeout()]. *)
Record CallbackOracle := {
  connect_error_is_transient : bool;
  before_connect_retry_deadline : bool
}.

(** The bodies of the error lambdas, run when a sub-processor calls
    them. *)
Definition invoke_error_callback (cb : ErrorCallback) (co : CallbackOracle)
    (err : Error) (s : State) : State * list Effect :=
  match cb with
  | ForwardOnError => (s, call_on_error err s)
  | GreetorOnError =>
      if connect_error_is_transient co
         && (match c_password (client_protocol (conn s)) with
             | Some _ => true
             | None => false
             end
             || negb (s_server_greeting (server_protocol (conn s))))
         && before_connect_retry_deadline co
      then (with_lc (set_retry_connect true) s, [])
      else (s, call_on_error err s)
  end.

Definition sstv : string := "session_track_system_variables".
Definition statement_id : string := "statement_id".
Definition comma_break : string := String "," (String nl "    ").

Definition access_denied : Error := mkError 1045 "Access denied" "28000".
Definition wait_timed_out : Error := HY000 "wait_for_my_writes timed out".

Section Machine.

(** [Value::to_string()], the SQL text of a value; it is defined
    outside this file. *)
Variable to_string : Value -> string.

Definition set_session_var (q key : string) (val : Value) : string :=
  ((if empty q then "SET " else q ++ comma_break)
     ++ ("@@SESSION." ++ key ++ " = " ++ to_string val))%string.

Definition set_session_var_if_not_set (q : string) (sysvars : SystemVariables)
    (key : string) (value : Value) : string :=
  if is_null (sv_get key sysvars) then set_session_var q key value else q.

Definition set_session_var_or_value (q : string) (sysvars : SystemVariables)
    (key : string) (default_value : Value) : string :=
  let value := sv_get key sysvars in
  if is_null value
  then set_session_var q key default_value
  else set_session_var q key value.

(** The body of the [for] over the store. *)
Definition set_vars_each (q : string) (var : string * Value) : string :=
  if String.eqb (fst var) sstv then q
  else if String.eqb (fst var) statement_id then q
  else set_session_var q (fst var) (snd var).

(** The statement [set_vars] builds. *)
Definition set_vars_stmt (sysvars : SystemVariables) (need_session_trackers : bool)
  : string :=
  let stmt := EmptyString in
  let stmt :=
    if need_session_trackers
    then set_session_var_or_value stmt sysvars sstv (Some "*"%string)
    else
      let var := sv_get sstv sysvars in
      if negb (is_null var) then set_session_var stmt sstv var else stmt in
  let stmt := fold_left set_vars_each sysvars stmt in
  if need_session_trackers
  then
    let stmt := set_session_var_if_not_set stmt sysvars
                  "session_track_gtids" (Some "OWN_GTID"%string) in
    let stmt := set_session_var_if_not_set stmt sysvars
                  "session_track_transaction_info" (Some "CHARACTERISTICS"%string) in
    set_session_var_if_not_set stmt sysvars
      "session_track_state_change" (Some "ON"%string)
  else stmt.

Definition connect (s : State) : Outcome :=
  if negb (server_conn_is_open (conn s))
  then again (with_lc (set_stage Connected) s)
             [PushProcessor (ConnectProcessor ForwardOnError)]
  else again (with_lc (set_stage Done) s) [].

Definition connected (s : State) : Outcome :=
  if negb (server_conn_is_open (conn s))
  then again (with_lc (set_stage Done) s) []
  else
    let s :=
      match trx_characteristics (conn s) with
      | Some characteristics => with_lc (set_trx_stmt characteristics) s
      | None => s
      end in
    if s_server_greeting (server_protocol (conn s))
    then
      let s := with_conn (set_client_greeting_sent true) s in
      if negb (in_handshake_ (lc s))
         && (String.eqb (c_username (client_protocol (conn s)))
                        (s_username (server_protocol (conn s)))
             && String.eqb (c_sent_attributes (client_protocol (conn s)))
                           (s_sent_attributes (server_protocol (conn s))))
      then
        again (with_lc (set_stage Authenticated)
                 (with_conn (set_authenticated true) s))
              [PushProcessor ResetConnectionSender]
      else
        again (with_lc (set_stage Authenticated) s)
              [PushProcessor (ChangeUserSender (in_handshake_ (lc s)) ForwardOnError)]
    else
      again (with_lc (set_stage Authenticated) s)
            [PushProcessor (ServerGreetor (in_handshake_ (lc s)) GreetorOnError)].

(** [LazyConnector::authenticated]; the plain name is the connection's
    flag. *)
Definition do_authenticated (s : State) : Outcome :=
  if negb (authenticated (conn s)) || negb (server_conn_is_open (conn s))
  then
    if retry_connect_ (lc s)
    then {| next := with_lc (set_stage Connect) (with_lc (set_retry_connect false) s);
            effects := [ConnectTimerStart];
            result := inl Suspend |}
    else again (with_lc (set_stage Done) s) []
  else again (with_lc (set_stage SetVars) s) [].

Definition set_vars (s : State) : Outcome :=
  let sysvars := system_variables (conn s) in
  let need_session_trackers :=
    connection_sharing (context (conn s)) && greeting_from_router (conn s) in
  let stmt := set_vars_stmt sysvars need_session_trackers in
  if negb (empty stmt)
  then again (with_lc (set_stage SetVarsDone) s)
             [PushProcessor (QuerySender stmt (FailedQueryHandler stmt))]
  else again (with_lc (set_stage SetServerOption) s) [].

Definition set_vars_done (s : State) : Outcome :=
  again (with_lc (set_stage SetServerOption) s) [].

Definition set_server_option (s : State) : Outcome :=
  let client_has_multi_statements := c_multi_statements (client_protocol (conn s)) in
  let server_has_multi_statements := s_multi_statements (server_protocol (conn s)) in
  if Bool.eqb client_has_multi_statements server_has_multi_statements
  then again (with_lc (set_stage FetchSysVars) s) []
  else again (with_lc (set_stage SetServerOptionDone) s)
             [PushProcessor
                (SetOptionSender (if client_has_multi_statements
                                  then MYSQL_OPTION_MULTI_STATEMENTS_ON
                                  else MYSQL_OPTION_MULTI_STATEMENTS_OFF))].

Definition set_server_option_done (s : State) : Outcome :=
  match failed (lc s) with
  | Some _ => again (with_lc (set_stage Done) s) []
  | None => again (with_lc (set_stage FetchSysVars) s) []
  end.

(** One turn of the loop over the three expected variables. *)
Definition fetch_sys_vars_each (sys_vars : SystemVariables) (oss expected_var : string)
  : string :=
  match sv_find expected_var sys_vars with
  | Some _ => oss
  | None =>
      ((if negb (empty oss) then oss ++ " UNION " else oss)
         ++ "SELECT " ++ quoted squote expected_var
         ++ ", @@SESSION." ++ quoted backtick expected_var)%string
  end.

Definition fetch_sys_vars_query (s : State) : string :=
  if connection_sharing_possible (conn s)
  then fold_left (fetch_sys_vars_each (system_variables (conn s)))
         ["collation_connection"; "character_set_client"; "sql_mode"]%string
         EmptyString
  else EmptyString.

Definition fetch_sys_vars (s : State) : Outcome :=
  let oss := fetch_sys_vars_query s in
  if negb (empty oss)
  then again (with_lc (set_stage FetchSysVarsDone) s)
             [PushProcessor (QuerySender oss SelectSessionVariablesHandler)]
  else again (with_lc (set_stage SetSchema) s) [].

Definition fetch_sys_vars_done (s : State) : Outcome :=
  again (with_lc (set_stage SetSchema) s) [].

Definition set_schema (s : State) : Outcome :=
  let client_schema := c_schema (client_protocol (conn s)) in
  let server_schema := s_schema (server_protocol (conn s)) in
  if negb (empty client_schema) && negb (String.eqb client_schema server_schema)
  then again (with_lc (set_stage SetSchemaDone) s)
             [PushProcessor (InitSchemaSender client_schema)]
  else again (with_lc (set_stage WaitGtidExecuted) s) [].

Definition set_schema_done (s : State) : Outcome :=
  match failed (lc s) with
  | Some _ => again (with_lc (set_stage Done) s) []
  | None => again (with_lc (set_stage WaitGtidExecuted) s) []
  end.

(** The text [wait_gtid_executed] writes to its stream. *)
Definition wait_gtid_query (gtid_executed : string) (max_replication_lag : Z)
  : string :=
  if (max_replication_lag =? 0)%Z
  then ("SELECT GTID_SUBSET(" ++ quoted dquote gtid_executed
          ++ ", @@GLOBAL.gtid_executed)")%string
  else ("SELECT NOT WAIT_FOR_EXECUTED_GTID_SET(" ++ quoted dquote gtid_executed
          ++ ", " ++ to_string_Z max_replication_lag ++ ")")%string.

Definition wait_gtid_executed (s : State) : Outcome :=
  let s := with_lc (set_stage SetTrxCharacteristics) s in
  if wait_for_my_writes (conn s)
     && ServerMode_eqb (expected_server_mode (conn s)) ReadOnly
  then
    let gtid_executed := gtid_at_least_executed (conn s) in
    if negb (empty gtid_executed)
    then again (with_lc (set_stage WaitGtidExecutedDone) s)
               [PushProcessor
                  (QuerySender
                     (wait_gtid_query gtid_executed
                        (wait_for_my_writes_timeout (conn s)))
                     (IsTrueHandler wait_timed_out))]
    else again s []
  else again s [].

Definition wait_gtid_executed_done (s : State) : Outcome :=
  match failed (lc s) with
  | Some _ => again (with_lc (set_stage PoolOrClose) s) []
  | None => again (with_lc (set_stage SetTrxCharacteristics) s) []
  end.

(** [pool_server_connection()] is defined outside this file, and hands
    the server side of the connection to the pool: besides its result,
    the oracle gives the server side it leaves behind. *)
Definition pool_or_close (o : Oracle) (s : State) : Outcome :=
  let s := with_lc (set_stage FallbackToWrite) s in
  let s := with_conn (set_server_side (pool_leaves_open o)
                        (pool_leaves_protocol o)) s in
  match pool_res o with
  | inl ec => {| next := s; effects := [PoolServerConnection]; result := inr ec |}
  | inr still_open =>
      if still_open
      then again s [PoolServerConnection]
      else again s [PoolServerConnection; PushProcessor QuitSender]
  end.

Definition fallback_to_write (s : State) : Outcome :=
  if already_fallback_ (lc s)
     || ServerMode_eqb (expected_server_mode (conn s)) ReadWrite
  then again (with_lc (set_stage Done) s) []
  else
    let s := with_conn (set_expected_server_mode ReadWrite) s in
    let s := with_lc (set_already_fallback true) s in
    let s := with_lc (set_failed None) s in
    again (with_lc (set_stage Connect) s) [].

Definition set_trx_characteristics (s : State) : Outcome :=
  if empty (trx_stmt_ (lc s))
  then again (with_lc (set_stage FetchUserAttrs) s) []
  else
    let s := with_lc (set_stage SetTrxCharacteristicsDone) s in
    let trx_stmt := trx_stmt_ (lc s) in
    match find semicolon (trx_stmt_ (lc s)) with
    | None =>
        again (with_lc (set_trx_stmt EmptyString) s)
              [PushProcessor (QuerySender trx_stmt (FailedQueryHandler trx_stmt))]
    | Some semi_pos =>
        let rest := erase (semi_pos + 1) (trx_stmt_ (lc s)) in
        let rest :=
          if negb (empty rest) && front_is space rest then erase 1 rest else rest in
        let trx_stmt := resize semi_pos trx_stmt in
        again (with_lc (set_trx_stmt rest) s)
              [PushProcessor (QuerySender trx_stmt (FailedQueryHandler trx_stmt))]
    end.

Definition set_trx_characteristics_done (s : State) : Outcome :=
  again (with_lc (set_stage (if empty (trx_stmt_ (lc s))
                             then FetchUserAttrs
                             else SetTrxCharacteristics)) s) [].

Definition fetch_user_attrs (s : State) : Outcome :=
  if negb (router_require_enforce (context (conn s)))
  then again (with_lc (set_stage SendAuthOk) s) []
  else again (with_lc (set_stage FetchUserAttrsDone) s)
             [PushProcessor RouterRequireFetcher].

Definition fetch_user_attrs_done (o : Oracle) (s : State) : Outcome :=
  if negb (required_connection_attributes_fetcher_result_ (lc s))
  then again (with_lc (set_stage Done)
                (with_lc (set_failed (Some access_denied)) s)) []
  else if negb (enforce_res o)
  then again (with_lc (set_stage Done)
                (with_lc (set_failed (Some access_denied)) s))
             [RouterRequireEnforce]
  else again (with_lc (set_stage SendAuthOk) s) [RouterRequireEnforce].

Definition send_auth_ok (o : Oracle) (s : State) : Outcome :=
  if negb (in_handshake_ (lc s))
  then again (with_lc (set_stage Done) s) []
  else
    match send_res o with
    | Some ec =>
        {| next := s;
           effects := [SendOk (c_status_flags (client_protocol (conn s)))];
           result := inr ec |}
    | None =>
        {| next := with_lc (set_stage Done) s;
           effects := [SendOk (c_status_flags (client_protocol (conn s)))];
           result := inl SendToClient |}
    end.

(** The reset of the server's sequence id in [Stage::Done], under its
    test [server_protocol() != nullptr]. *)
Definition reset_seq_id (s : State) : State :=
  if server_protocol_present (conn s)
  then with_conn (set_seq_id 255) s
  else s.

(** The [Stage::Done] case of [process]. *)
Definition done (s : State) : Outcome :=
  match failed (lc s) with
  | Some err =>
      {| next := reset_seq_id (with_conn (set_authenticated false) s);
         effects := if on_error_ (lc s) then [CallOnError err] else [];
         result := inl ResultDone |}
  | None =>
      {| next := reset_seq_id s;
         effects := [];
         result := inl ResultDone |}
  end.

Definition process (o : Oracle) (s : State) : Outcome :=
  match stage (lc s) with
  | Connect => connect s
  | Connected => connected s
  | Authenticated => do_authenticated s
  | FetchUserAttrs => fetch_user_attrs s
  | FetchUserAttrsDone => fetch_user_attrs_done o s
  | SendAuthOk => send_auth_ok o s
  | SetSchema => set_schema s
  | SetSchemaDone => set_schema_done s
  | SetServerOption => set_server_option s
  | SetServerOptionDone => set_server_option_done s
  | SetVars => set_vars s
  | SetVarsDone => set_vars_done s
  | FetchSysVars => fetch_sys_vars s
  | FetchSysVarsDone => fetch_sys_vars_done s
  | SetTrxCharacteristics => set_trx_characteristics s
  | SetTrxCharacteristicsDone => set_trx_characteristics_done s
  | WaitGtidExecuted => wait_gtid_executed s
  | WaitGtidExecutedDone => wait_gtid_executed_done s
  | PoolOrClose => pool_or_close o s
  | FallbackToWrite => fallback_to_write s
  | Done => done s
  end.

(** The statement a sequence of [set_session_var] calls builds from
    the empty string. *)
Definition render (assignments : list (string * Value)) : string :=
  fold_left (fun q a => set_session_var q (fst a) (snd a)) assignments
    EmptyString.

(** The text of a statement of assignments, written out: SET before
    the first assignment, and a comma, a line feed and four spaces
    before each later one. *)
Definition assignment_text (a : string * Value) : string :=
  ("@@SESSION." ++ fst a ++ " = " ++ to_string (snd a))%string.

Fixpoint more_assignments_text (l : list (string * Value)) : string :=
  match l with
  | [] => EmptyString
  | a :: rest =>
      (String "," (String (ascii_of_nat 10) "    ")
         ++ assignment_text a ++ more_assignments_text rest)%string
  end.

Definition statement_text (l : list (string * Value)) : string :=
  match l with
  | [] => EmptyString
  | a :: rest => ("SET " ++ assignment_text a ++ more_assignments_text rest)%string
  end.

(** *** Runs *)

(** What can happen to the state between two looks at it: the
    connection calls [process]; a sub-processor calls the error
    callback it was given; or a pushed sub-processor (with its handler)
    runs and leaves the state as [s']. *)
Inductive Move :=
| Process (o : Oracle)
| Callback (cb : ErrorCallback) (co : CallbackOracle) (err : Error)
| SubProcessorRan (s' : State).

(** What a sub-processor step leaves alone.  The stage, the fallback
    flag, the remembered transaction statement, the handshake flag and
    the callback are private members of [LazyConnector] that no
    sub-processor or handler is handed.  The expected server mode
    belongs to the connection: this file writes it in
    [fallback_to_write] only, and the sub-processors pushed here are
    taken to leave it as it is.  Everything else, the failure state
    included, is theirs to change. *)
Definition sub_processor_frame (s s' : State) : Prop :=
  stage (lc s') = stage (lc s)
  /\ already_fallback_ (lc s') = already_fallback_ (lc s)
  /\ trx_stmt_ (lc s') = trx_stmt_ (lc s)
  /\ in_handshake_ (lc s') = in_handshake_ (lc s)
  /\ on_error_ (lc s') = on_error_ (lc s)
  /\ expected_server_mode (conn s') = expected_server_mode (conn s).

Definition allowed (s : State) (m : Move) : Prop :=
  match m with
  | SubProcessorRan s' => sub_processor_frame s s'
  | _ => True
  end.

Definition step (s : State) (m : Move) : State * list Effect :=
  match m with
  | Process o => (next (process o s), effects (process o s))
  | Callback cb co err => invoke_error_callback cb co err s
  | SubProcessorRan s' => (s', [])
  end.

Fixpoint run (s : State) (ms : list Move) : State :=
  match ms with
  | [] => s
  | m :: rest => run (fst (step s m)) rest
  end.

Fixpoint run_allowed (s : State) (ms : list Move) : Prop :=
  match ms with
  | [] => True
  | m :: rest => allowed s m /\ run_allowed (fst (step s m)) rest
  end.

(** Every effect of a run, with the stage the machine was in when it
    happened. *)
Fixpoint run_log (s : State) (ms : list Move) : list (Stage * Effect) :=
  match ms with
  | [] => []
  | m :: rest =>
      map (pair (stage (lc s))) (snd (step s m)) ++ run_log (fst (step s m)) rest
  end.

(** The move is the fallback firing: [process] called in
    [FallbackToWrite] and leaving the stage at [Connect]. *)
Definition fallback_fires (s : State) (m : Move) : bool :=
  match m with
  | Process o =>
      Stage_eqb (stage (lc s)) FallbackToWrite
      && Stage_eqb (stage (lc (next (process o s)))) Connect
  | _ => false
  end.

(** How often the fallback fires in a run. *)
Fixpoint fallbacks (s : State) (ms : list Move) : nat :=
  match ms with
  | [] => 0
  | m :: rest =>
      (if fallback_fires s m then 1 else 0) + fallbacks (fst (step s m)) rest
  end.

(** [P before after] holds at every firing of the fallback in a run. *)
Fixpoint at_every_fallback (P : State -> State -> Prop) (s : State) (ms : list Move)
  : Prop :=
  match ms with
  | [] => True
  | m :: rest =>
      (fallback_fires s m = true -> P s (fst (step s m)))
      /\ at_every_fallback P (fst (step s m)) rest
  end.

(** How many of the moves are calls of [process]. *)
Fixpoint process_calls (ms : list Move) : nat :=
  match ms with
  | [] => 0
  | Process _ :: rest => S (process_calls rest)
  | _ :: rest => process_calls rest
  end.

(** While the machine waits for the GTID query, pools the connection
    or decides on the fallback, the connection asks for a read-only
    server. *)
Definition waiting_on_read_only (s : State) : Prop :=
  stage (lc s) = WaitGtidExecutedDone
  \/ stage (lc s) = PoolOrClose
  \/ stage (lc s) = FallbackToWrite ->
  expected_server_mode (conn s) = ReadOnly.

(** What a firing of the fallback does. *)
Definition fallback_restart (before after : State) : Prop :=
  already_fallback_ (lc before) = false
  /\ expected_server_mode (conn before) = ReadOnly
  /\ failed (lc after) = None
  /\ expected_server_mode (conn after) = ReadWrite
  /\ already_fallback_ (lc after) = true
  /\ stage (lc after) = Connect.

(** The statements a run hands to [QuerySender], in order. *)
Definition run_queries (s : State) (ms : list Move) : list string :=
  queries_sent (map snd (run_log s ms)).

(** The sub-processors a run pushes, in order. *)
Definition run_pushes (s : State) (ms : list Move) : list SubProcessor :=
  pushes (map snd (run_log s ms)).

(** The call neither suspends for a connect retry nor returns an
    error. *)
Definition goes_on (r : Result + N) : bool :=
  match r with
  | inl Suspend => false
  | inl _ => true
  | inr _ => false
  end.

(** No call of [process] in the run retries, falls back or fails. *)
Fixpoint straight (s : State) (ms : list Move) : Prop :=
  match ms with
  | [] => True
  | m :: rest =>
      match m with
      | Process o =>
          goes_on (result (process o s)) = true
          /\ fallback_fires s m = false
      | _ => True
      end
      /\ straight (fst (step s m)) rest
  end.

(** Nothing of the client's session needs replaying on this
    connection: no SET statement, the same multi-statement option, no
    system variable to fetch, no GTID to wait for, no transaction
    statement, no attribute enforcement, outside a handshake and with
    no failure stored. *)
Definition nothing_to_replay (s : State) : Prop :=
  server_conn_is_open (conn s) = true
  /\ failed (lc s) = None
  /\ in_handshake_ (lc s) = false
  /\ empty (set_vars_stmt (system_variables (conn s))
              (connection_sharing (context (conn s))
               && greeting_from_router (conn s))) = true
  /\ c_multi_statements (client_protocol (conn s))
     = s_multi_statements (server_protocol (conn s))
  /\ empty (fetch_sys_vars_query s) = true
  /\ wait_for_my_writes (conn s)
     && ServerMode_eqb (expected_server_mode (conn s)) ReadOnly
     && negb (empty (gtid_at_least_executed (conn s))) = false
  /\ trx_characteristics (conn s) = None
  /\ trx_stmt_ (lc s) = EmptyString
  /\ router_require_enforce (context (conn s)) = false.

End Machine.

(** ** Sample data *)

Definition sample_to_string (v : Value) : string :=
  match v with
  | None => "NULL"
  | Some t => quoted squote t
  end.

Definition sample_lc : LazyConnector :=
  {| stage := Connect; failed := None; already_fallback_ := false;
     retry_connect_ := false; trx_stmt_ := EmptyString; in_handshake_ := false;
     on_error_ := true;
     required_connection_attributes_fetcher_result_ := true |}.

Definition sample_client : ClientProtocol :=
  {| c_username := "app"; c_sent_attributes := "_client_name=libmysql";
     c_schema := "shop"; c_multi_statements := false; c_password := Some "secret"%string;
     c_status_flags := 2 |}.

Definition sample_server : ServerProtocol :=
  {| s_server_greeting := true; s_username := "app";
     s_sent_attributes := "_client_name=libmysql";
     s_schema := "inventory"; s_multi_statements := false; s_seq_id := 0 |}.

Definition sample_conn : Connection :=
  {| context := {| connection_sharing := true; router_require_enforce := false |};
     client_protocol := sample_client; server_protocol := sample_server;
     server_protocol_present := true;
     server_conn_is_open := true; authenticated := true;
     client_greeting_sent := true; greeting_from_router := true;
     connection_sharing_possible := true; expected_server_mode := ReadOnly;
     wait_for_my_writes := true; wait_for_my_writes_timeout := 0;
     gtid_at_least_executed := "3E11FA47-71CA-11E1-9E33-C80AA9429562:1-5";
     trx_characteristics := None; system_variables := [];
     some_state_changed := false |}.

Definition sample_state : State := {| lc := sample_lc; conn := sample_conn |}.

Definition sample_oracle : Oracle :=
  {| pool_res := inr true; pool_leaves_open := false;
     pool_leaves_protocol := None; enforce_res := true; send_res := None |}.

(** The connection as [sample_conn], with the server side closed. *)
Definition closed_conn : Connection :=
  {| context := context sample_conn;
     client_protocol := sample_client; server_protocol := sample_server;
     server_protocol_present := true;
     server_conn_is_open := false; authenticated := true;
     client_greeting_sent := true; greeting_from_router := true;
     connection_sharing_possible := true; expected_server_mode := ReadOnly;
     wait_for_my_writes := true; wait_for_my_writes_timeout := 0;
     gtid_at_least_executed := gtid_at_least_executed sample_conn;
     trx_characteristics := None; system_variables := [];
     some_state_changed := false |}.

(** A processor in the given stage, otherwise as [sample_lc]. *)
Definition lc_in (st : Stage) : LazyConnector := set_stage st sample_lc.

(** The start of a reconciliation whose server side is closed. *)
Definition fallback_start : State := {| lc := sample_lc; conn := closed_conn |}.

(** A reconciliation on a read-only target whose GTID wait reports a
    timeout: connect, reset the pooled connection, replay, wait, then
    pool the connection and fall back. *)
Definition fallback_run : list Move :=
  [ Process sample_oracle;
    SubProcessorRan {| lc := lc_in Connected; conn := sample_conn |};
    Process sample_oracle; Process sample_oracle; Process sample_oracle;
    Process sample_oracle; Process sample_oracle; Process sample_oracle;
    Process sample_oracle; Process sample_oracle; Process sample_oracle;
    Process sample_oracle;
    SubProcessorRan
      {| lc := set_failed (Some wait_timed_out) (lc_in WaitGtidExecutedDone);
         conn := sample_conn |};
    Process sample_oracle; Process sample_oracle; Process sample_oracle ].

Definition connect_refused : Error := mkError 2003 "Can't connect to remote MySQL server" "HY000".

Definition sample_callback_oracle : CallbackOracle :=
  {| connect_error_is_transient := false; before_connect_retry_deadline := false |}.

(** A reconciliation whose connect fails: the connect sub-processor
    calls the callback it was given, the server side stays closed. *)
Definition connect_fails_run : list Move :=
  [ Process sample_oracle;
    Callback ForwardOnError sample_callback_oracle connect_refused;
    Process sample_oracle;
    Process sample_oracle ].

(** The machine about to replay the remembered statement [t]. *)
Definition replay_start (t : string) : State :=
  {| lc := set_trx_stmt t (lc_in SetTrxCharacteristics); conn := sample_conn |}.

Definition isolation_then_start : string :=
  "SET TRANSACTION ISOLATION LEVEL SERIALIZABLE; START TRANSACTION READ ONLY;".

(** The replay of [isolation_then_start] with the first query failing. *)
Definition replay_run : list Move :=
  [ Process sample_oracle;
    SubProcessorRan
      {| lc := set_failed (Some access_denied)
                 (set_trx_stmt "START TRANSACTION READ ONLY;"
                    (lc_in SetTrxCharacteristicsDone));
         conn := sample_conn |};
    Process sample_oracle; Process sample_oracle; Process sample_oracle ].

(** A store with a NULL session_track_system_variables and sharing
    switched off. *)
Definition null_tracking_state : State :=
  {| lc := lc_in SetVars;
     conn :=
       set_system_variables [("session_track_system_variables"%string, None)]
         {| context := {| connection_sharing := false; router_require_enforce := false |};
            client_protocol := sample_client; server_protocol := sample_server;
            server_protocol_present := true;
            server_conn_is_open := true; authenticated := true;
            client_greeting_sent := true; greeting_from_router := true;
            connection_sharing_possible := false; expected_server_mode := ReadWrite;
            wait_for_my_writes := false; wait_for_my_writes_timeout := 0;
            gtid_at_least_executed := EmptyString;
            trx_characteristics := None; system_variables := [];
            some_state_changed := false |} |}.

Definition sample_vars : SystemVariables :=
  [("autocommit", Some "1"); ("session_track_gtids", Some "ALL_GTIDS");
   ("sql_mode", None); ("statement_id", Some "7")]%string.

Definition set_vars_state : State :=
  {| lc := lc_in SetVars; conn := set_system_variables sample_vars sample_conn |}.

(** The statement that replays [sample_vars] with session trackers. *)
Definition sample_set_text : string :=
  "SET @@SESSION.session_track_system_variables = '*',
    @@SESSION.autocommit = '1',
    @@SESSION.session_track_gtids = 'ALL_GTIDS',
    @@SESSION.sql_mode = NULL,
    @@SESSION.session_track_transaction_info = 'CHARACTERISTICS',
    @@SESSION.session_track_state_change = 'ON'"%string.

(** A store whose only entry is a NULL session_track_gtids, on a
    connection that needs the session trackers. *)
Definition null_gtids_vars : SystemVariables :=
  [("session_track_gtids"%string, None)].

Definition null_gtids_state : State :=
  {| lc := lc_in SetVars;
     conn := set_system_variables null_gtids_vars sample_conn |}.

(** The statement that replays [null_gtids_vars] with session
    trackers. *)
Definition null_gtids_set_text : string :=
  "SET @@SESSION.session_track_system_variables = '*',
    @@SESSION.session_track_gtids = NULL,
    @@SESSION.session_track_gtids = 'OWN_GTID',
    @@SESSION.session_track_transaction_info = 'CHARACTERISTICS',
    @@SESSION.session_track_state_change = 'ON'"%string.

(** A pooled connection on which nothing needs replaying but the
    schema. *)
Definition quiet_state : State :=
  {| lc := lc_in Connected; conn := conn null_tracking_state |}.

(** An oracle whose attribute enforcement fails. *)
Definition denying_oracle : Oracle :=
  {| pool_res := inr true; pool_leaves_open := false;
     pool_leaves_protocol := None; enforce_res := false; send_res := None |}.

(** A machine in [Done] that is called again, with a late callback in
    between. *)
Definition after_Done_run : list Move :=
  [ Process sample_oracle;
    Callback ForwardOnError sample_callback_oracle connect_refused;
    Process sample_oracle ].

(** Two well-formed rows of two fields, the second with a NULL name. *)
Definition two_field_rows : list Row :=
  [[Some "sql_mode"; None]; [None; Some "utf8mb4"]]%string.

(** * Properties *)

(** [reset_seq_id] touches the server's sequence id and nothing else. *)
Lemma reset_seq_id_lc (s : State) : lc (reset_seq_id s) = lc s.
Proof.
  unfold reset_seq_id. destruct (server_protocol_present (conn s)); reflexivity.
Qed.

Lemma reset_seq_id_seq_id (s : State) :
  s_seq_id (server_protocol (conn (reset_seq_id s))) =
  if server_protocol_present (conn s) then 255%N
  else s_seq_id (server_protocol (conn s)).
Proof.
  unfold reset_seq_id. destruct (server_protocol_present (conn s)); reflexivity.
Qed.

(** ** [IsTrueHandler] *)

Lemma failed_processor_failed err l : failed (processor_failed err l) = Some err.
Proof. reflexivity. Qed.

Lemma IsTrue_run_app evs1 evs2 h l :
  IsTrue_run (evs1 ++ evs2) h l
  = IsTrue_run evs2 (fst (IsTrue_run evs1 h l)) (snd (IsTrue_run evs1 h l)).
Proof.
  revert h l. induction evs1 as [|ev evs1 IH]; intros h l; simpl.
  - reflexivity.
  - destruct (IsTrue_handle ev h l) as [h' l']. apply IH.
Qed.

Lemma IsTrue_run_columns n h l : IsTrue_run (repeat OnColumn n) h l = (h, l).
Proof. induction n as [|n IH]; simpl; [reflexivity | exact IH]. Qed.

Lemma IsTrue_on_row_count row h l :
  row_count_ (fst (IsTrue_on_row row h l)) = uint64_succ (row_count_ h)
  /\ on_condition_fail_error_ (fst (IsTrue_on_row row h l))
     = on_condition_fail_error_ h.
Proof.
  unfold IsTrue_on_row.
  destruct row as [|[v|] row]; simpl; auto.
  destruct (negb (v =? "1")%string); auto.
Qed.

Lemma IsTrue_on_row_failed row h l :
  failed (snd (IsTrue_on_row row h l))
  = match IsTrue_row_error (on_condition_fail_error_ h) row with
    | Some e => Some e
    | None => failed l
    end.
Proof.
  unfold IsTrue_on_row, IsTrue_row_error.
  destruct row as [|[v|] row]; simpl; try reflexivity.
  destruct (v =? "1")%string; reflexivity.
Qed.

Lemma IsTrue_rows_count rows : forall h l,
  (row_count_ h + N.of_nat (length rows) < 2 ^ 64)%N ->
  row_count_ (fst (IsTrue_run (map OnRow rows) h l))
  = (row_count_ h + N.of_nat (length rows))%N.
Proof.
  induction rows as [|row rows IH]; intros h l Hlt; simpl.
  - lia.
  - destruct (IsTrue_on_row row h l) as [h' l'] eqn:E.
    pose proof (IsTrue_on_row_count row h l) as [Hc _].
    rewrite E in Hc. simpl in Hc.
    assert (Hs : row_count_ h' = (row_count_ h + 1)%N).
    { rewrite Hc. unfold uint64_succ. apply N.mod_small.
      simpl length in Hlt. lia. }
    rewrite IH; simpl length in *; lia.
Qed.

Lemma IsTrue_resultset_failed e count rows l :
  (N.of_nat (length rows) < 2 ^ 64)%N ->
  failed (snd (IsTrue_run (resultset count rows) (IsTrue_new e) l))
  = match IsTrue_verdict e count rows with
    | Some err => Some err
    | None => failed l
    end.
Proof.
  intros Hlt. unfold resultset.
  cbn [IsTrue_run IsTrue_handle].
  destruct (IsTrue_on_column_count count (IsTrue_new e) l) as [h0 l0] eqn:E0.
  assert (Hh0 : h0 = IsTrue_new e).
  { unfold IsTrue_on_column_count in E0.
    destruct (negb (count =? 1)%N); inversion E0; reflexivity. }
  assert (Hl0 : failed l0 = if (count =? 1)%N then failed l
                            else Some (HY000 "Too many columns")).
  { unfold IsTrue_on_column_count in E0.
    destruct (count =? 1)%N; inversion E0; reflexivity. }
  subst h0. clear E0.
  rewrite IsTrue_run_app, IsTrue_run_columns. cbn [fst snd].
  rewrite IsTrue_run_app.
  pose proof (IsTrue_rows_count rows (IsTrue_new e) l0) as Hcount.
  cbn [row_count_ IsTrue_new] in Hcount.
  specialize (Hcount ltac:(lia)).
  destruct rows as [|row [|row' rows]].
  - reflexivity.
  - cbn [map IsTrue_run IsTrue_handle fst snd] in *.
    pose proof (IsTrue_on_row_failed row (IsTrue_new e) l0) as Hf.
    destruct (IsTrue_on_row row (IsTrue_new e) l0) as [h1 l1].
    cbn [fst snd] in *. unfold IsTrue_on_row_end.
    rewrite Hcount. cbn [negb N.eqb length N.of_nat N.add Pos.eqb Pos.of_succ_nat].
    cbn [snd]. rewrite Hf. cbn [on_condition_fail_error_ IsTrue_new].
    unfold IsTrue_verdict.
    destruct (IsTrue_row_error e row); [reflexivity|].
    rewrite Hl0. destruct (count =? 1)%N; reflexivity.
  - set (rs := row :: row' :: rows) in *.
    destruct (IsTrue_run (map OnRow rs) (IsTrue_new e) l0) as [h1 l1].
    cbn [fst snd IsTrue_run IsTrue_handle] in *. unfold IsTrue_on_row_end.
    replace (row_count_ h1 =? 1)%N with false.
    + reflexivity.
    + symmetry. apply N.eqb_neq. rewrite Hcount. subst rs. simpl length. lia.
Qed.

Lemma IsTrue_verdict_None e count rows :
  IsTrue_verdict e count rows = None
  <-> count = 1%N /\ exists rest, rows = [Some "1"%string :: rest].
Proof.
  unfold IsTrue_verdict, IsTrue_row_error. split.
  - destruct rows as [|row [|row' rows]]; try discriminate.
    destruct row as [|[v|] rest]; try discriminate.
    destruct (v =? "1")%string eqn:Ev; try discriminate.
    destruct (count =? 1)%N eqn:Ec; try discriminate.
    intros _. apply String.eqb_eq in Ev. apply N.eqb_eq in Ec. subst.
    split; [reflexivity | eexists; reflexivity].
  - intros [-> [rest ->]]. reflexivity.
Qed.

(** C3, as amended.  After a whole resultset, and for fewer than 2^64
    rows, [IsTrueHandler] leaves a machine that had not failed unfailed
    exactly when there is one column and one row whose first field is
    the text 1.  Every other shape sets the failure: Too many rows when
    the number of rows is not one, be it zero or several; otherwise, for
    the single row, No fields, Expected integer got NULL, or the
    caller's error for a value other than 1; and Too many columns when
    that row is fine and the column count is not one. *)
Theorem IsTrueHandler_resultset (e : Error) (count : N) (rows : list Row)
    (l : LazyConnector) :
  (N.of_nat (length rows) < 2 ^ 64)%N ->
  failed l = None ->
  let l' := snd (IsTrue_run (resultset count rows) (IsTrue_new e) l) in
  (failed l' = None
   <-> count = 1%N /\ exists rest, rows = [Some "1"%string :: rest])
  /\ (length rows <> 1 -> failed l' = Some (HY000 "Too many rows"))
  /\ (rows = [[]] -> failed l' = Some (HY000 "No fields"))
  /\ (forall rest, rows = [None :: rest] ->
        failed l' = Some (HY000 "Expected integer, got NULL"))
  /\ (forall v rest, rows = [Some v :: rest] -> v <> "1"%string ->
        failed l' = Some e)
  /\ (forall rest, rows = [Some "1"%string :: rest] -> count <> 1%N ->
        failed l' = Some (HY000 "Too many columns")).
Proof.
  intros Hlt Hl l'.
  assert (H : failed l' = IsTrue_verdict e count rows).
  { subst l'. rewrite IsTrue_resultset_failed by exact Hlt.
    rewrite Hl. destruct (IsTrue_verdict e count rows); reflexivity. }
  rewrite H. clear H l' Hl Hlt.
  split; [apply IsTrue_verdict_None|].
  repeat split.
  - intros Hn. destruct rows as [|row [|row' rows]]; try reflexivity.
    simpl in Hn. congruence.
  - intros ->. reflexivity.
  - intros rest ->. reflexivity.
  - intros v rest -> Hv. unfold IsTrue_verdict, IsTrue_row_error.
    apply String.eqb_neq in Hv. rewrite Hv. reflexivity.
  - intros rest -> Hc. unfold IsTrue_verdict, IsTrue_row_error.
    simpl. apply N.eqb_neq in Hc. rewrite Hc. reflexivity.
Qed.

(** ** [SelectSessionVariablesHandler] *)

Lemma SSV_run_app evs1 evs2 h s :
  SSV_run (evs1 ++ evs2) h s
  = match SSV_run evs1 h s with
    | Some (h', s') => SSV_run evs2 h' s'
    | None => None
    end.
Proof.
  revert h s. induction evs1 as [|ev evs1 IH]; intros h s; simpl.
  - reflexivity.
  - destruct (SSV_handle ev h s) as [[h' s']|]; [apply IH | reflexivity].
Qed.

Lemma SSV_run_columns n h s : SSV_run (repeat OnColumn n) h s = Some (h, s).
Proof. induction n as [|n IH]; simpl; [reflexivity | exact IH]. Qed.

Lemma SSV_run_rows_skipped rows h s :
  something_failed_ h = true ->
  SSV_run (map OnRow rows) h s = Some (h, s).
Proof.
  intros Hf. induction rows as [|row rows IH]; simpl.
  - reflexivity.
  - unfold SSV_on_row. rewrite Hf. exact IH.
Qed.

Lemma SSV_run_rows_captured extra pairs : forall h s,
  something_failed_ h = false ->
  SSV_run (map OnRow (map (pair_row extra) pairs)) h s
  = Some ({| col_count_ := col_count_ h; something_failed_ := false;
             session_variables_ := session_variables_ h ++ pairs |}, s).
Proof.
  induction pairs as [|[k v] pairs IH]; intros h s Hf; simpl.
  - rewrite app_nil_r. destruct h; simpl in *; subst; reflexivity.
  - unfold SSV_on_row. rewrite Hf. simpl.
    rewrite IH by reflexivity. simpl.
    rewrite <- app_assoc. reflexivity.
Qed.

(** The processor is out of the handler's reach. *)
Lemma SSV_run_lc evs : forall h s h' s',
  SSV_run evs h s = Some (h', s') -> lc s' = lc s.
Proof.
  induction evs as [|ev evs IH]; intros h s h' s' H; simpl in H.
  - inversion H; reflexivity.
  - destruct (SSV_handle ev h s) as [[h1 s1]|] eqn:E; [|discriminate].
    apply IH in H. rewrite H.
    destruct ev; simpl in E.
    + inversion E; reflexivity.
    + inversion E; reflexivity.
    + destruct (SSV_on_row row h); inversion E; reflexivity.
    + destruct (SSV_on_row_end h (conn s)). inversion E; reflexivity.
    + inversion E; reflexivity.
    + inversion E; reflexivity.
Qed.

Lemma compare_refl_Eq (a : string) : String.compare a a = Eq.
Proof.
  destruct (String.compare a a) eqn:E; [reflexivity| |];
    pose proof (String.compare_antisym a a) as H; rewrite E in H;
    discriminate.
Qed.

Lemma sv_find_set_same name v vars : sv_find name (sv_set name v vars) = Some v.
Proof.
  induction vars as [|[k w] vars IH]; simpl.
  - rewrite String.eqb_refl. reflexivity.
  - destruct (String.compare name k) eqn:E; simpl.
    + rewrite String.eqb_refl. reflexivity.
    + rewrite String.eqb_refl. reflexivity.
    + destruct (String.eqb k name) eqn:Ek; [|exact IH].
      apply String.eqb_eq in Ek. subst k.
      rewrite compare_refl_Eq in E. discriminate.
Qed.

Lemma sv_find_set_other name name' v vars :
  name' <> name -> sv_find name' (sv_set name v vars) = sv_find name' vars.
Proof.
  intros Hn. induction vars as [|[k w] vars IH]; simpl.
  - destruct (String.eqb name name') eqn:E; [|reflexivity].
    apply String.eqb_eq in E. congruence.
  - destruct (String.compare name k) eqn:E; simpl.
    + apply String.compare_eq_iff in E. subst k.
      destruct (String.eqb name name') eqn:E'; [|reflexivity].
      apply String.eqb_eq in E'. congruence.
    + destruct (String.eqb name name') eqn:E'; [|reflexivity].
      apply String.eqb_eq in E'. congruence.
    + rewrite IH. reflexivity.
Qed.

Lemma sv_find_move name pairs : forall vars,
  sv_find name (move_session_variables pairs vars)
  = match last_binding name pairs with
    | Some v => Some v
    | None => sv_find name vars
    end.
Proof.
  induction pairs as [|[k v] pairs IH]; intros vars; simpl.
  - reflexivity.
  - rewrite IH. destruct (last_binding name pairs); [reflexivity|].
    destruct (String.eqb k name) eqn:E.
    + apply String.eqb_eq in E. subst k. apply sv_find_set_same.
    + apply String.eqb_neq in E. apply sv_find_set_other. congruence.
Qed.

(** C8.  [SelectSessionVariablesHandler] cannot reach the processor,
    so whatever it is fed leaves the failure state as it was.  A column
    count other than 2, a row whose name is NULL, an OK and an error
    each only set [some_state_changed]; the store keeps its content and
    the pairs captured so far are never stored.  A clean resultset of
    name and value rows ends with every captured pair stored, a later
    pair for a name overwriting an earlier one, and the flag as it
    was. *)
Theorem SelectSessionVariablesHandler_degrades (s : State) :
  (forall evs h h' s', SSV_run evs h s = Some (h', s') -> lc s' = lc s)
  /\ (forall count rows, count <> 2%N ->
        exists h',
          SSV_run (resultset count rows) SelectSessionVariables_new s
          = Some (h', with_conn (set_some_state_changed true) s))
  /\ (forall extra pairs rest more,
        exists h',
          SSV_run (resultset 2 (map (pair_row extra) pairs
                                  ++ (None :: rest) :: more))
                  SelectSessionVariables_new s
          = Some (h', with_conn (set_some_state_changed true) s))
  /\ (forall h, SSV_run [OnOk] h s
                = Some (h, with_conn (set_some_state_changed true) s))
  /\ (forall err h, SSV_run [OnError err] h s
                    = Some (h, with_conn (set_some_state_changed true) s))
  /\ (forall extra pairs,
        exists h',
          SSV_run (resultset 2 (map (pair_row extra) pairs))
                  SelectSessionVariables_new s
          = Some (h', with_conn
                        (set_system_variables
                           (move_session_variables pairs
                              (system_variables (conn s)))) s)
          /\ session_variables_ h' = [])
  /\ (forall pairs name,
        sv_find name (move_session_variables pairs (system_variables (conn s)))
        = match last_binding name pairs with
          | Some v => Some v
          | None => sv_find name (system_variables (conn s))
          end).
Proof.
  refine (conj _ (conj _ (conj _ (conj _ (conj _ (conj _ _)))))).
  - intros evs h h' s' H. exact (SSV_run_lc evs h s h' s' H).
  - intros count rows Hc. unfold resultset.
    cbn [SSV_run SSV_handle].
    rewrite SSV_run_app, SSV_run_columns, SSV_run_app.
    assert (Hf : something_failed_
                   (SSV_on_column_count count SelectSessionVariables_new) = true).
    { unfold SSV_on_column_count. simpl.
      apply N.eqb_neq in Hc. rewrite Hc. reflexivity. }
    rewrite SSV_run_rows_skipped by exact Hf.
    cbn [SSV_run SSV_handle]. unfold SSV_on_row_end. rewrite Hf.
    eexists. reflexivity.
  - intros extra pairs rest more. unfold resultset.
    cbn [SSV_run SSV_handle].
    rewrite SSV_run_app, SSV_run_columns, SSV_run_app, map_app, SSV_run_app.
    rewrite SSV_run_rows_captured by reflexivity.
    cbn [map SSV_run SSV_handle SSV_on_row something_failed_].
    rewrite SSV_run_rows_skipped by reflexivity.
    cbn [SSV_run SSV_handle]. unfold SSV_on_row_end. cbn [something_failed_].
    eexists. reflexivity.
  - intros h. reflexivity.
  - intros err h. reflexivity.
  - intros extra pairs. unfold resultset.
    cbn [SSV_run SSV_handle].
    rewrite SSV_run_app, SSV_run_columns, SSV_run_app.
    rewrite SSV_run_rows_captured by reflexivity.
    cbn [SSV_run SSV_handle]. unfold SSV_on_row_end. cbn [something_failed_].
    eexists. split; reflexivity.
  - intros pairs name. apply sv_find_move.
Qed.

(** ** The state machine *)

Section Properties.

Variable to_string : Value -> string.

Local Abbreviation process := (process to_string).
Local Abbreviation step := (step to_string).
Local Abbreviation run := (run to_string).
Local Abbreviation run_log := (run_log to_string).
Local Abbreviation run_allowed := (run_allowed to_string).
Local Abbreviation render := (render to_string).
Local Abbreviation run_queries := (run_queries to_string).
Local Abbreviation run_pushes := (run_pushes to_string).
Local Abbreviation straight := (straight to_string).
Local Abbreviation fallback_fires := (fallback_fires to_string).
Local Abbreviation fallbacks := (fallbacks to_string).
Local Abbreviation at_every_fallback := (at_every_fallback to_string).
Local Abbreviation set_vars_stmt := (set_vars_stmt to_string).
Local Abbreviation set_session_var := (set_session_var to_string).
Local Abbreviation assignment_text := (assignment_text to_string).
Local Abbreviation more_assignments_text := (more_assignments_text to_string).
Local Abbreviation statement_text := (statement_text to_string).

(** Splits [process] by stage and opens the stage functions. *)
Ltac by_stage s :=
  unfold process;
  destruct (stage (lc s)) eqn:?;
  unfold connect, connected, do_authenticated, fetch_user_attrs,
    fetch_user_attrs_done, send_auth_ok, set_schema, set_schema_done,
    set_server_option, set_server_option_done, set_vars, set_vars_done,
    fetch_sys_vars, fetch_sys_vars_done, set_trx_characteristics,
    set_trx_characteristics_done, wait_gtid_executed,
    wait_gtid_executed_done, pool_or_close, fallback_to_write, done,
      reset_seq_id, again.

(** Follows every branch of the code in the goal. *)
Ltac branches :=
  repeat match goal with
    | |- context [if ?b then _ else _] => destruct b eqn:?
    | |- context [match ?x with _ => _ end] => destruct x eqn:?
    end.

Lemma process_in_handshake o s :
  in_handshake_ (lc (next (process o s))) = in_handshake_ (lc s).
Proof. by_stage s; branches; reflexivity. Qed.

Lemma process_on_error_field o s :
  on_error_ (lc (next (process o s))) = on_error_ (lc s).
Proof. by_stage s; branches; simpl; congruence. Qed.

Lemma callback_lc_frame cb co err s :
  let s' := fst (invoke_error_callback cb co err s) in
  stage (lc s') = stage (lc s)
  /\ already_fallback_ (lc s') = already_fallback_ (lc s)
  /\ trx_stmt_ (lc s') = trx_stmt_ (lc s)
  /\ in_handshake_ (lc s') = in_handshake_ (lc s)
  /\ on_error_ (lc s') = on_error_ (lc s)
  /\ failed (lc s') = failed (lc s)
  /\ conn s' = conn s.
Proof.
  unfold invoke_error_callback. destruct cb; branches; simpl; auto 10.
Qed.

Lemma step_in_handshake s m :
  allowed s m -> in_handshake_ (lc (fst (step s m))) = in_handshake_ (lc s).
Proof.
  destruct m as [o|cb co err|s']; simpl; intros H.
  - apply process_in_handshake.
  - apply (callback_lc_frame cb co err s).
  - apply H.
Qed.

(** [process] sends to the client from [SendAuthOk] alone, and only in
    a handshake. *)
Lemma process_sends_in_handshake o s flags :
  In (SendOk flags) (effects (process o s)) ->
  stage (lc s) = SendAuthOk /\ in_handshake_ (lc s) = true.
Proof.
  by_stage s; branches; simpl; intros H;
    repeat (destruct H as [H|H]; try discriminate H); try contradiction;
    split; try reflexivity;
    match goal with
    | E : negb (in_handshake_ _) = false |- _ =>
        apply negb_false_iff in E; exact E
    end.
Qed.

Lemma callback_never_sends cb co err s flags :
  ~ In (SendOk flags) (snd (invoke_error_callback cb co err s)).
Proof.
  unfold invoke_error_callback, call_on_error.
  destruct cb; branches; simpl; intros H;
    repeat (destruct H as [H|H]; try discriminate H); contradiction.
Qed.

Lemma run_never_sends ms : forall s,
  in_handshake_ (lc s) = false ->
  run_allowed s ms ->
  forall st flags, ~ In (st, SendOk flags) (run_log s ms).
Proof.
  induction ms as [|m ms IH]; intros s Hh Hok st flags; simpl.
  - intros [].
  - destruct Hok as [Hm Hok]. intros H. apply in_app_or in H.
    destruct H as [H|H].
    + apply in_map_iff in H. destruct H as [e [He Hin]].
      inversion He; subst e.
      destruct m as [o|cb co err|s']; simpl in Hin.
      * apply process_sends_in_handshake in Hin. destruct Hin as [_ Hin].
        congruence.
      * exact (callback_never_sends cb co err s flags Hin).
      * contradiction.
    + apply (IH (fst (step s m))) in H; [exact H| |exact Hok].
      rewrite step_in_handshake by exact Hm. exact Hh.
Qed.

(** C9.  In [Connected], with the server connection open and greeted,
    outside a handshake, and the client's user name and sent
    attributes equal to the server's, [process] pushes a reset
    connection and nothing else, marks the connection authenticated
    and moves to [Authenticated], whatever the two schemas are.  From
    then on no run of the machine sends anything to the client:
    [send_auth_ok] sends its OK only inside a handshake. *)
Theorem reuse_only_resets (o : Oracle) (s : State) :
  stage (lc s) = Connected ->
  server_conn_is_open (conn s) = true ->
  s_server_greeting (server_protocol (conn s)) = true ->
  in_handshake_ (lc s) = false ->
  c_username (client_protocol (conn s)) = s_username (server_protocol (conn s)) ->
  c_sent_attributes (client_protocol (conn s))
  = s_sent_attributes (server_protocol (conn s)) ->
  effects (process o s) = [PushProcessor ResetConnectionSender]
  /\ authenticated (conn (next (process o s))) = true
  /\ stage (lc (next (process o s))) = Authenticated
  /\ (forall ms, run_allowed s ms ->
        forall st flags, ~ In (st, SendOk flags) (run_log s ms))
  /\ (forall o' s',
        stage (lc s') = SendAuthOk ->
        (in_handshake_ (lc s') = false ->
           effects (process o' s') = []
           /\ result (process o' s') = inl Again
           /\ stage (lc (next (process o' s'))) = Done)
        /\ (in_handshake_ (lc s') = true ->
              effects (process o' s')
              = [SendOk (c_status_flags (client_protocol (conn s')))])).
Proof.
  intros Hst Hopen Hgreet Hh Hu Ha.
  refine (conj _ (conj _ (conj _ (conj _ _)))).
  - unfold process. rewrite Hst. unfold connected.
    rewrite Hopen. simpl negb. cbv iota.
    destruct (trx_characteristics (conn s)); simpl;
      rewrite Hgreet, Hh, Hu, Ha, !String.eqb_refl; reflexivity.
  - unfold process. rewrite Hst. unfold connected.
    rewrite Hopen. simpl negb. cbv iota.
    destruct (trx_characteristics (conn s)); simpl;
      rewrite Hgreet, Hh, Hu, Ha, !String.eqb_refl; reflexivity.
  - unfold process. rewrite Hst. unfold connected.
    rewrite Hopen. simpl negb. cbv iota.
    destruct (trx_characteristics (conn s)); simpl;
      rewrite Hgreet, Hh, Hu, Ha, !String.eqb_refl; reflexivity.
  - intros ms Hok. apply run_never_sends; assumption.
  - intros o' s' Hs'. unfold process. rewrite Hs'. unfold send_auth_ok.
    split; intros Hin; rewrite Hin; simpl.
    + auto.
    + destruct (send_res o'); reflexivity.
Qed.

(** *** The fallback to the primary *)

Lemma process_keeps_fallback_flag o s :
  already_fallback_ (lc s) = true ->
  already_fallback_ (lc (next (process o s))) = true.
Proof. intros H. by_stage s; branches; simpl; congruence. Qed.

Lemma step_keeps_fallback_flag s m :
  allowed s m ->
  already_fallback_ (lc s) = true ->
  already_fallback_ (lc (fst (step s m))) = true.
Proof.
  destruct m as [o|cb co err|s']; simpl; intros Hm H.
  - apply process_keeps_fallback_flag; exact H.
  - destruct (callback_lc_frame cb co err s) as (_ & Hf & _). congruence.
  - destruct Hm as (_ & Hf & _). congruence.
Qed.

Lemma ServerMode_eqb_eq a b : ServerMode_eqb a b = true <-> a = b.
Proof. destruct a, b; simpl; split; congruence. Qed.

(** [fallback_to_write] restarts exactly when no fallback happened yet
    and the expected mode is not already read-write. *)
Lemma fallback_to_write_restarts o s :
  stage (lc s) = FallbackToWrite ->
  (stage (lc (next (process o s))) = Connect
   <-> already_fallback_ (lc s) = false
       /\ expected_server_mode (conn s) <> ReadWrite).
Proof.
  intros Hst. unfold process. rewrite Hst. unfold fallback_to_write.
  destruct (already_fallback_ (lc s)); simpl.
  - split; [discriminate | intros [H _]; discriminate].
  - destruct (expected_server_mode (conn s)); simpl; split;
      try discriminate; try (intros [_ H]; congruence);
      intros _; split; congruence.
Qed.

Lemma fallback_to_write_restart o s :
  stage (lc s) = FallbackToWrite ->
  stage (lc (next (process o s))) = Connect ->
  failed (lc (next (process o s))) = None
  /\ expected_server_mode (conn (next (process o s))) = ReadWrite
  /\ already_fallback_ (lc (next (process o s))) = true.
Proof.
  intros Hst. unfold process. rewrite Hst. unfold fallback_to_write.
  destruct (already_fallback_ (lc s)
            || ServerMode_eqb (expected_server_mode (conn s)) ReadWrite);
    simpl; [discriminate | auto].
Qed.

Lemma fallback_fires_Process s m :
  fallback_fires s m = true ->
  exists o, m = Process o
            /\ stage (lc s) = FallbackToWrite
            /\ stage (lc (next (process o s))) = Connect.
Proof.
  destruct m as [o| |]; simpl; try discriminate.
  intros H. apply andb_true_iff in H. destruct H as [H1 H2].
  unfold Stage_eqb in *.
  destruct (Stage_eq_dec (stage (lc s)) FallbackToWrite); [|discriminate].
  destruct (Stage_eq_dec (stage (lc (next (process o s)))) Connect);
    [|discriminate].
  exists o. auto.
Qed.

Lemma process_keeps_waiting_on_read_only o s :
  waiting_on_read_only s -> waiting_on_read_only (next (process o s)).
Proof.
  unfold waiting_on_read_only. intros Hinv.
  by_stage s; branches; simpl; intros Hst;
    try (destruct Hst as [Hst|[Hst|Hst]]; discriminate Hst);
    try (apply Hinv; auto; fail);
    try (destruct Hst as [Hst|[Hst|Hst]]; congruence).
  match goal with
  | H : _ && ServerMode_eqb _ ReadOnly = true |- _ =>
      apply andb_true_iff in H; destruct H as [_ H];
      apply ServerMode_eqb_eq in H; exact H
  end.
Qed.

Lemma step_keeps_waiting_on_read_only s m :
  allowed s m ->
  waiting_on_read_only s -> waiting_on_read_only (fst (step s m)).
Proof.
  destruct m as [o|cb co err|s']; simpl; intros Hm Hinv.
  - apply process_keeps_waiting_on_read_only; exact Hinv.
  - destruct (callback_lc_frame cb co err s) as (Hs & _ & _ & _ & _ & _ & Hc).
    unfold waiting_on_read_only in *. rewrite Hs, Hc. exact Hinv.
  - destruct Hm as (Hs & _ & _ & _ & _ & Hmode).
    unfold waiting_on_read_only in *. rewrite Hs, Hmode. exact Hinv.
Qed.

Lemma run_fallbacks_bound ms : forall s,
  run_allowed s ms ->
  fallbacks s ms <= (if already_fallback_ (lc s) then 0 else 1).
Proof.
  induction ms as [|m ms IH]; intros s Hok; simpl.
  - destruct (already_fallback_ (lc s)); lia.
  - destruct Hok as [Hm Hok]. specialize (IH _ Hok).
    destruct (fallback_fires s m) eqn:Hf.
    + apply fallback_fires_Process in Hf.
      destruct Hf as (o & -> & Hst & Hc).
      pose proof (proj1 (fallback_to_write_restarts o s Hst) Hc) as [Hfresh _].
      destruct (fallback_to_write_restart o s Hst Hc) as (_ & _ & Hflag).
      simpl in IH. rewrite Hflag in IH. rewrite Hfresh. simpl. lia.
    + destruct (already_fallback_ (lc s)) eqn:Hflag.
      * rewrite (step_keeps_fallback_flag s m Hm Hflag) in IH. lia.
      * destruct (already_fallback_ (lc (fst (step s m)))); lia.
Qed.

Lemma run_fallbacks_restart ms : forall s,
  waiting_on_read_only s ->
  run_allowed s ms ->
  at_every_fallback fallback_restart s ms.
Proof.
  induction ms as [|m ms IH]; intros s Hinv Hok; simpl.
  - exact I.
  - destruct Hok as [Hm Hok]. split.
    + intros Hf. apply fallback_fires_Process in Hf.
      destruct Hf as (o & -> & Hst & Hc). simpl.
      pose proof (proj1 (fallback_to_write_restarts o s Hst) Hc) as [Hfresh _].
      destruct (fallback_to_write_restart o s Hst Hc) as (Hfail & Hmode & Hflag).
      unfold fallback_restart. repeat split; try assumption.
      apply Hinv. auto.
    + apply IH; [|exact Hok].
      apply step_keeps_waiting_on_read_only; assumption.
Qed.

(** C1.  In a run of the machine that starts in [Connect], the
    fallback fires at most once.  [fallback_to_write] moves to
    [Connect] exactly when no fallback has happened yet and the
    expected mode is not read-write; in the run that mode is
    read-only at every firing, and the firing clears the failure,
    switches the expected mode to read-write, sets the flag and leaves
    the stage at [Connect].  Once the flag is set the fallback never
    fires again: a failure found in [WaitGtidExecutedDone] then leads
    through [PoolOrClose] and [FallbackToWrite] to [Done]. *)
Theorem fallback_at_most_once (s : State) (ms : list Move) :
  stage (lc s) = Connect ->
  run_allowed s ms ->
  fallbacks s ms <= 1
  /\ at_every_fallback fallback_restart s ms
  /\ (forall o a,
        stage (lc a) = FallbackToWrite ->
        (stage (lc (next (process o a))) = Connect
         <-> already_fallback_ (lc a) = false
             /\ expected_server_mode (conn a) <> ReadWrite))
  /\ (forall a ms',
        already_fallback_ (lc a) = true ->
        run_allowed a ms' -> fallbacks a ms' = 0)
  /\ (forall o1 o2 o3 a b c,
        already_fallback_ (lc a) = true ->
        stage (lc a) = WaitGtidExecutedDone ->
        failed (lc a) <> None ->
        sub_processor_frame (next (process o1 a)) b ->
        sub_processor_frame (next (process o2 b)) c ->
        stage (lc (next (process o1 a))) = PoolOrClose
        /\ stage (lc (next (process o2 b))) = FallbackToWrite
        /\ stage (lc (next (process o3 c))) = Done).
Proof.
  intros Hst Hok.
  refine (conj _ (conj _ (conj _ (conj _ _)))).
  - pose proof (run_fallbacks_bound ms s Hok) as H.
    destruct (already_fallback_ (lc s)); lia.
  - apply run_fallbacks_restart; [|exact Hok].
    unfold waiting_on_read_only. rewrite Hst.
    intros [H|[H|H]]; discriminate H.
  - intros o a. apply fallback_to_write_restarts.
  - intros a ms' Hflag Hok'.
    pose proof (run_fallbacks_bound ms' a Hok') as H.
    rewrite Hflag in H. lia.
  - intros o1 o2 o3 a b c Hflag Hsa Hfail (Hsb & Hfb & _) (Hsc & Hfc & _).
    assert (H1 : stage (lc (next (process o1 a))) = PoolOrClose).
    { unfold process. rewrite Hsa. unfold wait_gtid_executed_done.
      destruct (failed (lc a)); [reflexivity | congruence]. }
    assert (H2 : stage (lc (next (process o2 b))) = FallbackToWrite).
    { unfold process. rewrite Hsb, H1. unfold pool_or_close.
      destruct (pool_res o2) as [ec|[|]]; reflexivity. }
    refine (conj H1 (conj H2 _)).
    assert (Hflagc : already_fallback_ (lc c) = true).
    { rewrite Hfc. apply process_keeps_fallback_flag.
      rewrite Hfb. apply process_keeps_fallback_flag. exact Hflag. }
    unfold process. rewrite Hsc, H2. unfold fallback_to_write.
    rewrite Hflagc. reflexivity.
Qed.

(** *** Reporting the failure *)

Lemma process_reports_in_Done_only o s :
  stage (lc s) <> Done -> on_error_calls (effects (process o s)) = [].
Proof. intros H. by_stage s; branches; simpl; congruence. Qed.

(** C2, as amended.  The machine's own stage functions call the error
    callback in [Done] alone: there, when the failure state is set
    and a callback is installed, it is called once with the stored
    failure, and the authenticated flag is cleared whenever the
    failure state is set.  A failure of the connect, change-user or
    greeting sub-processor is not stored in the failure state: [Connect]
    and [Connected] hand those sub-processors a callback that forwards
    their error to the error callback at once, before [Done] is
    reached (the greeting's callback asks for a retry instead when the
    error is transient, the password or the missing greeting allows it,
    and the retry deadline has not passed). *)
Theorem failure_report (o : Oracle) (s : State) :
  (stage (lc s) <> Done -> on_error_calls (effects (process o s)) = [])
  /\ (stage (lc s) = Done ->
        on_error_calls (effects (process o s))
        = match failed (lc s) with
          | Some err => if on_error_ (lc s) then [err] else []
          | None => []
          end
        /\ authenticated (conn (next (process o s)))
           = match failed (lc s) with
             | Some _ => false
             | None => authenticated (conn s)
             end
        /\ stage (lc (next (process o s))) = Done
        /\ result (process o s) = inl ResultDone)
  /\ (stage (lc s) = Connect -> server_conn_is_open (conn s) = false ->
        effects (process o s) = [PushProcessor (ConnectProcessor ForwardOnError)])
  /\ (forall p, stage (lc s) = Connected ->
        In (PushProcessor p) (effects (process o s)) ->
        p = ResetConnectionSender
        \/ p = ChangeUserSender (in_handshake_ (lc s)) ForwardOnError
        \/ p = ServerGreetor (in_handshake_ (lc s)) GreetorOnError)
  /\ (forall co err,
        on_error_ (lc s) = true ->
        invoke_error_callback ForwardOnError co err s = (s, [CallOnError err]))
  /\ (forall co err,
        on_error_ (lc s) = true ->
        invoke_error_callback GreetorOnError co err s
        = if connect_error_is_transient co
             && (negb (is_null (c_password (client_protocol (conn s))))
                 || negb (s_server_greeting (server_protocol (conn s))))
             && before_connect_retry_deadline co
          then (with_lc (set_retry_connect true) s, [])
          else (s, [CallOnError err])).
Proof.
  refine (conj _ (conj _ (conj _ (conj _ (conj _ _))))).
  - apply process_reports_in_Done_only.
  - intros Hst. unfold process. rewrite Hst. unfold done, reset_seq_id.
    destruct (failed (lc s)); simpl;
      destruct (server_protocol_present (conn s)); simpl; auto;
      destruct (on_error_ (lc s)); auto.
  - intros Hst Hopen. unfold process. rewrite Hst. unfold connect.
    rewrite Hopen. reflexivity.
  - intros p Hst. unfold process. rewrite Hst. unfold connected, again.
    branches; simpl; intros H; try contradiction;
      destruct H as [H|H]; try contradiction; inversion H; auto.
  - intros co err Hcb. unfold invoke_error_callback, call_on_error.
    rewrite Hcb. reflexivity.
  - intros co err Hcb. unfold invoke_error_callback, call_on_error.
    rewrite Hcb. destruct (c_password (client_protocol (conn s))); reflexivity.
Qed.

(** *** Waiting for the GTID *)

(** C7.  In [WaitGtidExecuted] a query is pushed exactly when
    [wait_for_my_writes] is set, the expected mode is read-only and
    the GTID set is not empty, and the stage is then
    [WaitGtidExecutedDone]; otherwise nothing is pushed and the stage
    is [SetTrxCharacteristics].  The query is SELECT GTID_SUBSET for a
    lag of zero and SELECT NOT WAIT_FOR_EXECUTED_GTID_SET with the lag
    otherwise, and its handler is an [IsTrueHandler] whose error is
    wait_for_my_writes timed out.  A single row with a value other
    than 1 makes that handler store this error, and
    [WaitGtidExecutedDone] with a failure stored moves to
    [PoolOrClose]. *)
Theorem gtid_wait (o : Oracle) (s : State) :
  stage (lc s) = WaitGtidExecuted ->
  let gtid := gtid_at_least_executed (conn s) in
  let lag := wait_for_my_writes_timeout (conn s) in
  let wait :=
    wait_for_my_writes (conn s)
    && ServerMode_eqb (expected_server_mode (conn s)) ReadOnly
    && negb (empty gtid) in
  (wait = true ->
     effects (process o s)
     = [PushProcessor
          (QuerySender
             (if (lag =? 0)%Z
              then ("SELECT GTID_SUBSET(" ++ quoted dquote gtid
                      ++ ", @@GLOBAL.gtid_executed)")%string
              else ("SELECT NOT WAIT_FOR_EXECUTED_GTID_SET("
                      ++ quoted dquote gtid ++ ", " ++ to_string_Z lag
                      ++ ")")%string)
             (IsTrueHandler
                (mkError 0 "wait_for_my_writes timed out" "HY000")))]
     /\ stage (lc (next (process o s))) = WaitGtidExecutedDone)
  /\ (wait = false ->
        effects (process o s) = []
        /\ stage (lc (next (process o s))) = SetTrxCharacteristics)
  /\ (forall e v rest l,
        v <> "1"%string ->
        failed (snd (IsTrue_run (resultset 1 [Some v :: rest]) (IsTrue_new e) l))
        = Some e)
  /\ (forall o' s' e,
        stage (lc s') = WaitGtidExecutedDone ->
        failed (lc s') = Some e ->
        stage (lc (next (process o' s'))) = PoolOrClose
        /\ effects (process o' s') = []
        /\ failed (lc (next (process o' s'))) = Some e)
  /\ (forall o' s',
        stage (lc s') = WaitGtidExecutedDone ->
        failed (lc s') = None ->
        stage (lc (next (process o' s'))) = SetTrxCharacteristics).
Proof.
  intros Hst gtid lag wait.
  refine (conj _ (conj _ (conj _ (conj _ _)))).
  - intros Hw. subst wait gtid lag.
    apply andb_true_iff in Hw. destruct Hw as [Hw Hg].
    unfold process. rewrite Hst. unfold wait_gtid_executed. simpl.
    rewrite Hw, Hg. simpl. split; reflexivity.
  - intros Hw. subst wait gtid lag.
    unfold process. rewrite Hst. unfold wait_gtid_executed. simpl.
    destruct (wait_for_my_writes (conn s)
              && ServerMode_eqb (expected_server_mode (conn s)) ReadOnly);
      simpl in *; [rewrite Hw|]; simpl; split; reflexivity.
  - intros e v rest l Hv.
    rewrite IsTrue_resultset_failed by (vm_compute; reflexivity).
    unfold IsTrue_verdict, IsTrue_row_error.
    apply String.eqb_neq in Hv. rewrite Hv. reflexivity.
  - intros o' s' e Hs' Hf. unfold process. rewrite Hs'.
    unfold wait_gtid_executed_done. rewrite Hf. simpl. auto.
  - intros o' s' Hs' Hf. unfold process. rewrite Hs'.
    unfold wait_gtid_executed_done. rewrite Hf. reflexivity.
Qed.

(** *** Replaying the transaction characteristics *)

Lemma empty_iff t : empty t = true <-> t = EmptyString.
Proof. destruct t; simpl; split; congruence. Qed.

Lemma find_lt c t p : find c t = Some p -> p < String.length t.
Proof.
  revert p. induction t as [|a t IH]; simpl; intros p H; [discriminate|].
  destruct (Ascii.eqb a c).
  - inversion H. lia.
  - destruct (find c t) as [i|]; [|discriminate].
    inversion H. specialize (IH i eq_refl). lia.
Qed.

Lemma length_erase n t : String.length (erase n t) = String.length t - n.
Proof.
  revert t. induction n as [|n IH]; intros t; simpl.
  - lia.
  - destruct t as [|a t]; simpl; [reflexivity | apply IH].
Qed.

Lemma length_skip_space t : String.length (skip_space t) <= String.length t.
Proof.
  unfold skip_space. destruct (front_is space t); [|lia].
  rewrite length_erase. lia.
Qed.

Lemma trx_rest_shorter t :
  t <> EmptyString -> String.length (trx_rest t) < String.length t.
Proof.
  intros Ht. unfold trx_rest.
  destruct (find semicolon t) as [p|] eqn:E.
  - apply find_lt in E.
    pose proof (length_skip_space (erase (p + 1) t)) as H.
    rewrite length_erase in H. lia.
  - destruct t; [congruence | simpl; lia].
Qed.

(** [set_trx_characteristics] on a non-empty text, in terms of
    [trx_first] and [trx_rest]. *)
Lemma set_trx_characteristics_sends s :
  trx_stmt_ (lc s) <> EmptyString ->
  set_trx_characteristics s
  = again (with_lc (set_trx_stmt (trx_rest (trx_stmt_ (lc s))))
             (with_lc (set_stage SetTrxCharacteristicsDone) s))
          [PushProcessor
             (QuerySender (trx_first (trx_stmt_ (lc s)))
                (FailedQueryHandler (trx_first (trx_stmt_ (lc s)))))].
Proof.
  intros Ht. unfold set_trx_characteristics, trx_first, trx_rest, skip_space.
  destruct (empty (trx_stmt_ (lc s))) eqn:E.
  - apply empty_iff in E. congruence.
  - simpl. destruct (find semicolon (trx_stmt_ (lc s))) as [p|]; [|reflexivity].
    destruct (erase (p + 1) (trx_stmt_ (lc s))) as [|a r]; reflexivity.
Qed.

Lemma trx_pieces_upto_stable fuel : forall fuel' t,
  String.length t <= fuel -> String.length t <= fuel' ->
  trx_pieces_upto fuel t = trx_pieces_upto fuel' t.
Proof.
  induction fuel as [|fuel IH]; intros fuel' t Hlen Hlen'.
  - destruct t; [destruct fuel'; reflexivity | simpl in Hlen; lia].
  - destruct t as [|a t]; [destruct fuel'; reflexivity|].
    destruct fuel' as [|fuel']; [simpl in Hlen'; lia|].
    cbn [trx_pieces_upto empty].
    assert (Hr : String.length (trx_rest (String a t)) < String.length (String a t))
      by (apply trx_rest_shorter; discriminate).
    simpl String.length in *.
    rewrite (IH fuel' (trx_rest (String a t))) by lia.
    reflexivity.
Qed.

Lemma trx_pieces_upto_enough fuel t :
  String.length t <= fuel -> trx_pieces_upto fuel t = trx_pieces t.
Proof. intros H. apply trx_pieces_upto_stable; [exact H | lia]. Qed.

Lemma trx_pieces_empty : trx_pieces EmptyString = [].
Proof. reflexivity. Qed.

Lemma trx_pieces_cons t :
  t <> EmptyString -> trx_pieces t = trx_first t :: trx_pieces (trx_rest t).
Proof.
  intros Ht. destruct t as [|a t]; [congruence|].
  unfold trx_pieces at 1. cbn [String.length trx_pieces_upto empty].
  rewrite trx_pieces_upto_enough; [reflexivity|].
  pose proof (trx_rest_shorter (String a t) Ht) as H. simpl in H. lia.
Qed.

Lemma length_trx_pieces_upto fuel t : length (trx_pieces_upto fuel t) <= fuel.
Proof.
  revert t. induction fuel as [|fuel IH]; intros t; simpl; [lia|].
  destruct (empty t); simpl; [lia|]. specialize (IH (trx_rest t)). lia.
Qed.

Lemma length_trx_pieces t : length (trx_pieces t) <= String.length t.
Proof. apply length_trx_pieces_upto. Qed.

Lemma queries_sent_app a b :
  queries_sent (a ++ b) = queries_sent a ++ queries_sent b.
Proof.
  induction a as [|e a IH]; simpl; [reflexivity|].
  destruct e as [| |p| | | |]; try exact IH.
  destruct p; try exact IH. simpl. rewrite IH. reflexivity.
Qed.

Lemma run_queries_cons s m ms :
  run_queries s (m :: ms)
  = queries_sent (snd (step s m)) ++ run_queries (fst (step s m)) ms.
Proof.
  unfold run_queries. cbn [run_log].
  rewrite map_app, queries_sent_app, map_map. cbn [snd].
  rewrite map_id. reflexivity.
Qed.

Lemma callback_sends_no_query cb co err s :
  queries_sent (snd (invoke_error_callback cb co err s)) = [].
Proof.
  unfold invoke_error_callback, call_on_error.
  destruct cb; branches; reflexivity.
Qed.

Lemma process_trx_progress t0 o s sent :
  trx_progress t0 s sent ->
  trx_progress t0 (next (process o s))
    (sent ++ queries_sent (effects (process o s))).
Proof.
  unfold trx_progress, process.
  destruct (stage (lc s)) eqn:Hst; intros H; try contradiction.
  - (* FetchUserAttrs *)
    unfold fetch_user_attrs.
    destruct (negb (router_require_enforce (context (conn s))));
      simpl; rewrite app_nil_r; exact H.
  - (* FetchUserAttrsDone *)
    unfold fetch_user_attrs_done.
    destruct (negb (required_connection_attributes_fetcher_result_ (lc s)));
      [|destruct (negb (enforce_res o))];
      simpl; rewrite app_nil_r; exact H.
  - (* SendAuthOk *)
    unfold send_auth_ok.
    destruct (negb (in_handshake_ (lc s))); [|destruct (send_res o)];
      simpl; try rewrite Hst; rewrite app_nil_r; exact H.
  - (* SetTrxCharacteristics *)
    destruct (trx_stmt_ (lc s)) as [|a t] eqn:Et.
    + unfold set_trx_characteristics. rewrite Et. simpl.
      rewrite app_nil_r. rewrite trx_pieces_empty, app_nil_r in H. exact H.
    + rewrite set_trx_characteristics_sends by (rewrite Et; discriminate).
      rewrite Et. simpl.
      rewrite trx_pieces_cons in H by discriminate.
      rewrite <- app_assoc. exact H.
  - (* SetTrxCharacteristicsDone *)
    unfold set_trx_characteristics_done.
    destruct (trx_stmt_ (lc s)) as [|a t] eqn:Et; simpl;
      rewrite app_nil_r.
    + rewrite trx_pieces_empty, app_nil_r in H. exact H.
    + rewrite Et. exact H.
  - (* Done *)
    unfold done, reset_seq_id.
    destruct (failed (lc s)); [destruct (on_error_ (lc s))|];
      simpl; destruct (server_protocol_present (conn s));
      simpl; rewrite Hst, app_nil_r; exact H.
Qed.

Lemma step_trx_progress t0 s m sent :
  allowed s m ->
  trx_progress t0 s sent ->
  trx_progress t0 (fst (step s m)) (sent ++ queries_sent (snd (step s m))).
Proof.
  destruct m as [o|cb co err|s']; simpl; intros Hm H.
  - apply process_trx_progress; exact H.
  - rewrite callback_sends_no_query, app_nil_r.
    destruct (callback_lc_frame cb co err s) as (Hs & _ & Ht & _).
    unfold trx_progress in *. rewrite Hs, Ht. exact H.
  - rewrite app_nil_r. destruct Hm as (Hs & _ & Ht & _).
    unfold trx_progress in *. rewrite Hs, Ht. exact H.
Qed.

Lemma run_trx_progress t0 ms : forall s sent,
  run_allowed s ms ->
  trx_progress t0 s sent ->
  trx_progress t0 (run s ms) (sent ++ run_queries s ms).
Proof.
  induction ms as [|m ms IH]; intros s sent Hok H.
  - unfold run_queries. simpl. rewrite app_nil_r. exact H.
  - destruct Hok as [Hm Hok]. rewrite run_queries_cons. cbn [run].
    rewrite app_assoc. apply IH; [exact Hok|].
    apply step_trx_progress; assumption.
Qed.

Lemma find_none_self_first t : find semicolon t = None -> trx_first t = t.
Proof. unfold trx_first. intros ->. reflexivity. Qed.

Lemma find_app_semicolon a b :
  find semicolon a = None ->
  find semicolon (a ++ String semicolon b)%string = Some (String.length a).
Proof.
  induction a as [|c a IH]; simpl; intros H.
  - reflexivity.
  - destruct (Ascii.eqb c semicolon); [discriminate|].
    destruct (find semicolon a); [discriminate|].
    rewrite IH by reflexivity. reflexivity.
Qed.

Lemma resize_app a b : resize (String.length a) (a ++ b)%string = a.
Proof. induction a as [|c a IH]; simpl; [reflexivity | rewrite IH; reflexivity]. Qed.

Lemma erase_app a b :
  erase (String.length a + 1) (a ++ String semicolon b)%string = b.
Proof. induction a as [|c a IH]; simpl; [reflexivity | exact IH]. Qed.

Lemma trx_pieces_single t :
  t <> EmptyString -> find semicolon t = None -> trx_pieces t = [t].
Proof.
  intros Ht Hf. rewrite trx_pieces_cons by exact Ht.
  rewrite find_none_self_first by exact Hf.
  unfold trx_rest. rewrite Hf. reflexivity.
Qed.

Lemma trx_pieces_split a b :
  find semicolon a = None ->
  trx_pieces (a ++ String semicolon b)%string = a :: trx_pieces (skip_space b).
Proof.
  intros Ha.
  rewrite trx_pieces_cons by (destruct a; discriminate).
  unfold trx_first, trx_rest. rewrite find_app_semicolon by exact Ha.
  rewrite resize_app, erase_app. reflexivity.
Qed.

(** C6, as amended.  Once the replay of a remembered statement has
    reached [FetchUserAttrs], the queries sent are its pieces in
    order: the text before the first semicolon, then the pieces of
    what follows that semicolon and one space.  A non-empty statement
    without a semicolon is sent as one query.  A statement with a
    semicolon whose remainder, one leading space removed, has no
    further semicolon is sent as two queries when that remainder is
    not empty, and as one when the semicolon ends the statement.  The
    run may contain any failure reported by a query in between: the
    step out of [SetTrxCharacteristicsDone] looks at the remembered
    text alone. *)
Theorem trx_replay (s : State) (ms : list Move) :
  stage (lc s) = SetTrxCharacteristics ->
  run_allowed s ms ->
  stage (lc (run s ms)) = FetchUserAttrs ->
  let t := trx_stmt_ (lc s) in
  run_queries s ms = trx_pieces t
  /\ (t <> EmptyString -> find semicolon t = None -> run_queries s ms = [t])
  /\ (forall a b,
        t = (a ++ String semicolon b)%string ->
        find semicolon a = None ->
        find semicolon (skip_space b) = None ->
        run_queries s ms
        = if empty (skip_space b) then [a] else [a; skip_space b])
  /\ (forall o s',
        stage (lc s') = SetTrxCharacteristicsDone ->
        stage (lc (next (process o s')))
        = (if empty (trx_stmt_ (lc s'))
           then FetchUserAttrs else SetTrxCharacteristics)
        /\ failed (lc (next (process o s'))) = failed (lc s')).
Proof.
  intros Hst Hok Hend t.
  assert (H : run_queries s ms = trx_pieces t).
  { pose proof (run_trx_progress t ms s [] Hok) as H.
    unfold trx_progress in H. rewrite Hst, Hend in H. simpl in H.
    apply H. reflexivity. }
  refine (conj H (conj _ (conj _ _))).
  - intros Ht Hf. rewrite H. apply trx_pieces_single; assumption.
  - intros a b Hab Ha Hb. rewrite H, Hab, trx_pieces_split by exact Ha.
    destruct (skip_space b) as [|c r] eqn:E.
    + reflexivity.
    + rewrite trx_pieces_single; [reflexivity | discriminate | exact Hb].
  - intros o s' Hs'. unfold process. rewrite Hs'.
    unfold set_trx_characteristics_done. simpl. auto.
Qed.

(** *** Termination of the replay *)

Lemma process_trx_measure o s :
  stage (lc s) = SetTrxCharacteristics
  \/ stage (lc s) = SetTrxCharacteristicsDone ->
  stage (lc (next (process o s))) = FetchUserAttrs
  \/ ((stage (lc (next (process o s))) = SetTrxCharacteristics
       \/ stage (lc (next (process o s))) = SetTrxCharacteristicsDone)
      /\ trx_measure (next (process o s)) < trx_measure s).
Proof.
  unfold trx_measure, process. intros [Hst|Hst]; rewrite Hst.
  - destruct (trx_stmt_ (lc s)) as [|a t] eqn:Et.
    + left. unfold set_trx_characteristics. rewrite Et. reflexivity.
    + right. rewrite set_trx_characteristics_sends by (rewrite Et; discriminate).
      simpl. split; [auto|].
      pose proof (trx_rest_shorter (trx_stmt_ (lc s))) as H.
      rewrite Et in *. specialize (H ltac:(discriminate)).
      simpl String.length in *. lia.
  - unfold set_trx_characteristics_done.
    destruct (trx_stmt_ (lc s)) as [|a t] eqn:Et; simpl.
    + left. reflexivity.
    + right. split; [auto|]. rewrite Et. simpl. lia.
Qed.

Lemma run_reaches_FetchUserAttrs ms : forall s,
  stage (lc s) = SetTrxCharacteristics
  \/ stage (lc s) = SetTrxCharacteristicsDone ->
  run_allowed s ms ->
  trx_measure s <= process_calls ms ->
  exists ms1 ms2,
    ms = ms1 ++ ms2
    /\ process_calls ms1 <= trx_measure s
    /\ stage (lc (run s ms1)) = FetchUserAttrs.
Proof.
  induction ms as [|m ms IH]; intros s Hst Hok Hn.
  - exfalso. unfold trx_measure in Hn. simpl in Hn.
    destruct Hst as [Hst|Hst]; rewrite Hst in Hn; lia.
  - destruct Hok as [Hm Hok].
    assert (Hsame : forall s',
              stage (lc s') = stage (lc s) ->
              trx_stmt_ (lc s') = trx_stmt_ (lc s) ->
              fst (step s m) = s' ->
              process_calls (m :: ms) = process_calls ms ->
              exists ms1 ms2,
                m :: ms = ms1 ++ ms2
                /\ process_calls ms1 <= trx_measure s
                /\ stage (lc (run s ms1)) = FetchUserAttrs).
    { intros s' Hs Ht Hstep Hcalls.
      assert (Hmu : trx_measure s' = trx_measure s)
        by (unfold trx_measure; rewrite Hs, Ht; reflexivity).
      destruct (IH s') as (ms1 & ms2 & -> & Hc & Hend).
      - rewrite Hs. exact Hst.
      - rewrite <- Hstep. exact Hok.
      - rewrite Hmu, <- Hcalls. exact Hn.
      - exists (m :: ms1), ms2. split; [reflexivity|]. split.
        + change (process_calls (m :: ms1) <= trx_measure s).
          assert (process_calls (m :: ms1) = process_calls ms1).
          { destruct m; simpl in *; [lia|reflexivity|reflexivity]. }
          lia.
        + cbn [run]. rewrite Hstep. exact Hend. }
    destruct m as [o|cb co err|s'].
    + clear Hsame. simpl in Hn.
      destruct (process_trx_measure o s Hst) as [Hend|[Hst' Hlt]].
      * exists [Process o], ms. split; [reflexivity|]. split.
        -- simpl. unfold trx_measure.
           destruct Hst as [Hst|Hst]; rewrite Hst; lia.
        -- exact Hend.
      * destruct (IH (next (process o s)) Hst' Hok ltac:(lia))
          as (ms1 & ms2 & -> & Hc & Hend).
        exists (Process o :: ms1), ms2. split; [reflexivity|]. split.
        -- simpl. lia.
        -- exact Hend.
    + destruct (callback_lc_frame cb co err s) as (Hs & _ & Ht & _).
      apply (Hsame _ Hs Ht eq_refl). reflexivity.
    + destruct Hm as (Hs & _ & Ht & _).
      apply (Hsame _ Hs Ht eq_refl). reflexivity.
Qed.

(** C10.  A call of [set_trx_characteristics] with a non-empty
    remembered statement replaces it by a strictly shorter one: the
    empty text, or what follows the first semicolon (and one
    space).  So a run from [SetTrxCharacteristics] with a statement
    of length [n] sends at most [n] queries, and any run with
    [2 * n + 1] calls of [process] has reached [FetchUserAttrs]
    within those calls. *)
Theorem trx_replay_terminates (o : Oracle) (s : State) (ms : list Move) :
  stage (lc s) = SetTrxCharacteristics ->
  run_allowed s ms ->
  let t := trx_stmt_ (lc s) in
  let n := String.length t in
  (t <> EmptyString ->
     trx_stmt_ (lc (next (process o s)))
     = match find semicolon t with
       | None => EmptyString
       | Some semi_pos => skip_space (erase (semi_pos + 1) t)
       end
     /\ String.length (trx_stmt_ (lc (next (process o s)))) < n)
  /\ length (run_queries s ms) <= n
  /\ (2 * n + 1 <= process_calls ms ->
        exists ms1 ms2,
          ms = ms1 ++ ms2
          /\ process_calls ms1 <= 2 * n + 1
          /\ stage (lc (run s ms1)) = FetchUserAttrs).
Proof.
  intros Hst Hok t n.
  refine (conj _ (conj _ _)).
  - intros Ht. unfold process. rewrite Hst.
    rewrite set_trx_characteristics_sends by exact Ht. simpl.
    split; [reflexivity|]. apply trx_rest_shorter. exact Ht.
  - pose proof (run_trx_progress t ms s [] Hok) as H.
    unfold trx_progress in H. rewrite Hst in H. simpl in H.
    specialize (H eq_refl).
    pose proof (length_trx_pieces t) as Hlen.
    destruct (stage (lc (run s ms))); try contradiction;
      try (rewrite H; exact Hlen);
      apply (f_equal (@length string)) in H;
      rewrite length_app in H; fold n in Hlen; lia.
  - intros Hn.
    assert (Hmu : trx_measure s = 2 * n + 1)
      by (unfold trx_measure; rewrite Hst; reflexivity).
    destruct (run_reaches_FetchUserAttrs ms s (or_introl Hst) Hok)
      as (ms1 & ms2 & Hms & Hc & Hend); [lia|].
    exists ms1, ms2. rewrite <- Hmu. auto.
Qed.

Lemma append_assoc (a b c : string) :
  ((a ++ b) ++ c)%string = (a ++ (b ++ c))%string.
Proof. induction a as [|x a IH]; simpl; congruence. Qed.

Lemma append_nil_r (a : string) : (a ++ EmptyString)%string = a.
Proof. induction a as [|x a IH]; simpl; congruence. Qed.

(** *** The SET statement *)

Lemma render_app l1 l2 :
  render (l1 ++ l2)
  = fold_left (fun q a => set_session_var q (fst a) (snd a)) l2 (render l1).
Proof. unfold render. apply fold_left_app. Qed.

Lemma fold_set_vars_each vars : forall q,
  fold_left (set_vars_each to_string) vars q
  = fold_left (fun q a => set_session_var q (fst a) (snd a)) (replayed vars) q.
Proof.
  induction vars as [|[k v] vars IH]; intros q; simpl.
  - reflexivity.
  - unfold set_vars_each at 2. unfold sstv, statement_id. simpl fst. simpl snd.
    destruct (String.eqb k "session_track_system_variables"); simpl.
    + apply IH.
    + destruct (String.eqb k "statement_id"); simpl; apply IH.
Qed.

Lemma set_vars_stmt_render vars need :
  set_vars_stmt vars need = render (set_vars_assignments vars need).
Proof.
  unfold set_vars_assignments. rewrite render_app, fold_left_app.
  unfold set_vars_stmt. cbv zeta.
  rewrite fold_set_vars_each.
  assert (Hlead :
    (if need
     then set_session_var_or_value to_string EmptyString vars sstv (Some "*"%string)
     else if negb (is_null (sv_get sstv vars))
          then set_session_var EmptyString sstv (sv_get sstv vars)
          else EmptyString)
    = render (leading_assignment vars need)).
  { unfold leading_assignment, set_session_var_or_value, sstv.
    destruct need; destruct (is_null (sv_get _ vars)); reflexivity. }
  rewrite Hlead.
  set (q := fold_left _ (replayed vars) _).
  unfold injected, set_session_var_if_not_set, tracker_defaults.
  destruct need; [|reflexivity].
  simpl filter.
  destruct (is_null (sv_get "session_track_gtids" vars));
    destruct (is_null (sv_get "session_track_transaction_info" vars));
    destruct (is_null (sv_get "session_track_state_change" vars));
    reflexivity.
Qed.

Lemma sv_find_absent name (vars : SystemVariables) :
  ~ In name (map fst vars) -> sv_find name vars = None.
Proof.
  induction vars as [|[k v] vars IH]; simpl; intros H; [reflexivity|].
  destruct (String.eqb k name) eqn:E.
  - apply String.eqb_eq in E. tauto.
  - apply IH. tauto.
Qed.

Lemma sv_find_In name v (vars : SystemVariables) :
  NoDup (map fst vars) -> In (name, v) vars -> sv_find name vars = Some v.
Proof.
  induction vars as [|[k w] vars IH]; simpl; intros Hnd Hin; [contradiction|].
  inversion Hnd as [|? ? Hk Hnd']; subst.
  destruct Hin as [Hin|Hin].
  - inversion Hin; subst. rewrite String.eqb_refl. reflexivity.
  - destruct (String.eqb k name) eqn:E.
    + apply String.eqb_eq in E. subst k. exfalso. apply Hk.
      apply (in_map fst) in Hin. exact Hin.
    + apply IH; assumption.
Qed.

Lemma assignments_to_app name l1 l2 :
  assignments_to name (l1 ++ l2)
  = assignments_to name l1 ++ assignments_to name l2.
Proof. apply filter_app. Qed.

Lemma assignments_to_absent name (l : list (string * Value)) :
  ~ In name (map fst l) -> assignments_to name l = [].
Proof.
  induction l as [|[k v] l IH]; simpl; intros H; [reflexivity|].
  destruct (String.eqb k name) eqn:E.
  - apply String.eqb_eq in E. tauto.
  - apply IH. tauto.
Qed.

Lemma replayed_keys name vars :
  In name (map fst (replayed vars)) -> In name (map fst vars).
Proof.
  intros H. apply in_map_iff in H. destruct H as [a [Ha Hin]].
  apply filter_In in Hin. apply in_map_iff. exists a. tauto.
Qed.

Lemma assignments_to_replayed name v vars :
  NoDup (map fst vars) ->
  In (name, v) vars ->
  name <> "session_track_system_variables"%string ->
  name <> "statement_id"%string ->
  assignments_to name (replayed vars) = [(name, v)].
Proof.
  intros Hnd Hin Hs Hi.
  induction vars as [|[k w] vars IH]; [contradiction|].
  inversion Hnd as [|? ? Hk Hnd']; subst.
  destruct Hin as [Hin|Hin].
  - inversion Hin; subst. unfold replayed. simpl.
    apply String.eqb_neq in Hs, Hi. rewrite Hs, Hi. simpl.
    rewrite String.eqb_refl. f_equal.
    apply assignments_to_absent. intros H. apply Hk.
    apply replayed_keys. exact H.
  - assert (Hne : k <> name).
    { intros ->. apply Hk. apply (in_map fst) in Hin. exact Hin. }
    unfold replayed. simpl.
    destruct (negb (String.eqb k "session_track_system_variables")
              && negb (String.eqb k "statement_id")); simpl.
    + apply String.eqb_neq in Hne. rewrite Hne. apply IH; assumption.
    + apply IH; assumption.
Qed.

Lemma assignments_to_replayed_skipped name vars :
  name = "session_track_system_variables"%string
  \/ name = "statement_id"%string ->
  assignments_to name (replayed vars) = [].
Proof.
  intros Hname. apply assignments_to_absent. intros H.
  apply in_map_iff in H. destruct H as [[k v] [Hk Hin]].
  simpl in Hk. subst k. apply filter_In in Hin. destruct Hin as [_ Hin].
  simpl in Hin. destruct Hname as [-> | ->]; simpl in Hin; discriminate.
Qed.

Lemma assignments_to_leading name vars need :
  name <> "session_track_system_variables"%string ->
  assignments_to name (leading_assignment vars need) = [].
Proof.
  intros Hn. apply String.eqb_neq in Hn. rewrite String.eqb_sym in Hn.
  unfold leading_assignment.
  unfold assignments_to.
  destruct need; [|destruct (is_null _)]; cbn [filter fst];
    try rewrite Hn; reflexivity.
Qed.

Lemma assignments_to_injected_other name vars need :
  ~ In name (map fst tracker_defaults) ->
  assignments_to name (injected vars need) = [].
Proof.
  intros Hn. apply assignments_to_absent. intros H. apply Hn.
  unfold injected in H. destruct need; [|contradiction].
  apply in_map_iff in H. destruct H as [a [Ha Hin]].
  apply filter_In in Hin. apply in_map_iff. exists a. tauto.
Qed.

Lemma render_empty l : empty (render l) = true <-> l = [].
Proof.
  split; [|intros ->; reflexivity].
  destruct l as [|[k v] l]; [reflexivity|]. intros H. exfalso.
  unfold render in H. simpl in H.
  assert (Hgrow : forall l q, empty q = false ->
            empty (fold_left (fun q a => set_session_var q (fst a) (snd a)) l q)
            = false).
  { clear. induction l as [|a l IH]; intros q Hq; simpl; [exact Hq|].
    apply IH. unfold set_session_var. rewrite Hq.
    destruct q; [discriminate | reflexivity]. }
  rewrite Hgrow in H; [discriminate | reflexivity].
Qed.

Lemma tracker_names_not name :
  name = "session_track_system_variables"%string
  \/ name = "statement_id"%string ->
  ~ In name (map fst tracker_defaults).
Proof.
  intros [-> | ->]; simpl; intros [H|[H|[H|[]]]]; discriminate H.
Qed.

Lemma assignments_to_leading_self vars need :
  assignments_to "session_track_system_variables" (leading_assignment vars need)
  = leading_assignment vars need.
Proof.
  unfold leading_assignment, assignments_to.
  destruct need; [|destruct (is_null _)]; reflexivity.
Qed.

Lemma more_assignments_text_app l1 l2 :
  more_assignments_text (l1 ++ l2)
  = (more_assignments_text l1 ++ more_assignments_text l2)%string.
Proof.
  induction l1 as [|a l1 IH]; [reflexivity|].
  cbn [app more_assignments_text]. rewrite IH, !append_assoc. reflexivity.
Qed.

Lemma fold_set_session_var_text l : forall q,
  q <> EmptyString ->
  fold_left (fun q a => set_session_var q (fst a) (snd a)) l q
  = (q ++ more_assignments_text l)%string.
Proof.
  induction l as [|a l IH]; intros q Hq; cbn [fold_left more_assignments_text].
  - rewrite append_nil_r. reflexivity.
  - rewrite IH.
    + unfold set_session_var, assignment_text, comma_break, nl.
      destruct q as [|c q]; [congruence|]. cbn [empty].
      rewrite !append_assoc. reflexivity.
    + unfold set_session_var. destruct q; [congruence | discriminate].
Qed.

(** The statement a sequence of [set_session_var] calls builds is the
    text written out by [statement_text]. *)
Lemma render_statement_text l : render l = statement_text l.
Proof.
  destruct l as [|a l]; [reflexivity|].
  unfold render. cbn [fold_left statement_text].
  rewrite fold_set_session_var_text by discriminate.
  unfold set_session_var, assignment_text. cbn [empty].
  rewrite !append_assoc. reflexivity.
Qed.

Lemma assignments_to_injected name default vars :
  In (name, default) tracker_defaults ->
  assignments_to name (injected vars true)
  = if is_null (sv_get name vars) then [(name, default)] else [].
Proof.
  intros Hin. unfold injected, tracker_defaults, assignments_to.
  simpl in Hin. destruct Hin as [H|[H|[H|[]]]]; inversion H; subst;
    cbn [filter fst];
    destruct (is_null (sv_get "session_track_gtids" vars));
    destruct (is_null (sv_get "session_track_transaction_info" vars));
    destruct (is_null (sv_get "session_track_state_change" vars));
    reflexivity.
Qed.

Lemma assignments_to_filter name f (l : list (string * Value)) :
  assignments_to name (filter f l) = filter f (assignments_to name l).
Proof.
  unfold assignments_to. induction l as [|a l IH]; [reflexivity|].
  cbn [filter].
  destruct (f a) eqn:Ef; destruct (String.eqb (fst a) name) eqn:En;
    cbn [filter]; rewrite ?Ef, ?En, IH; reflexivity.
Qed.

Lemma filter_const {A : Type} (f : A -> bool) (b : bool) (l : list A) :
  (forall x, In x l -> f x = b) -> filter f l = if b then l else [].
Proof.
  induction l as [|a l IH]; intros H; [destruct b; reflexivity|].
  cbn [filter]. rewrite (H a (or_introl eq_refl)), IH.
  - destruct b; reflexivity.
  - intros x Hx. apply H. right. exact Hx.
Qed.

Lemma assignments_to_fst name (l : list (string * Value)) d :
  In d (assignments_to name l) -> fst d = name.
Proof.
  unfold assignments_to. rewrite filter_In. intros [_ H].
  apply String.eqb_eq. exact H.
Qed.

(** The defaults injected for a name are all its defaults or none, by
    whether the store gives it no value. *)
Lemma assignments_to_injected_by_value name vars :
  assignments_to name (injected vars true)
  = if is_null (sv_get name vars) then assignments_to name tracker_defaults
    else [].
Proof.
  unfold injected. rewrite assignments_to_filter.
  apply filter_const. intros d Hd.
  rewrite (assignments_to_fst name _ d Hd). reflexivity.
Qed.

Lemma assignments_to_injected_set name vars need :
  is_null (sv_get name vars) = false ->
  assignments_to name (injected vars need) = [].
Proof.
  intros Hv. destruct need; [|reflexivity].
  rewrite assignments_to_injected_by_value, Hv. reflexivity.
Qed.

(** C4, as amended.  The statement [set_vars] builds is, character for
    character, SET followed by the assignments of a list, each
    written @@SESSION.name = value and separated by a comma, a line
    feed and four spaces.  The list is: the leading
    session_track_system_variables assignment, one assignment per
    entry of the store other than session_track_system_variables and
    statement_id, in store order, and the injected tracker defaults.
    With distinct names in the store, an entry other than those two
    is assigned its own value exactly once, followed only by a
    default injected for the same name, which happens only with
    session trackers, for one of the three tracker names, when the
    entry is NULL; statement_id is never assigned; a
    session_track_system_variables entry is assigned once, except
    that without session trackers a NULL one is not assigned at all
    (with trackers a NULL one is assigned the router's default); with
    no such entry the router's default is assigned exactly when
    trackers are needed; and a name that is not in the store is
    assigned only as a tracker default.  The statement is empty
    exactly when there is no assignment, and then [SetVars] pushes
    nothing and moves to [SetServerOption]; otherwise it pushes the
    one query and moves to [SetVarsDone]. *)
Theorem set_vars_statement (o : Oracle) (s : State) :
  stage (lc s) = SetVars ->
  NoDup (map fst (system_variables (conn s))) ->
  let vars := system_variables (conn s) in
  let need :=
    connection_sharing (context (conn s)) && greeting_from_router (conn s) in
  let stmt := set_vars_stmt vars need in
  let all := set_vars_assignments vars need in
  stmt = statement_text all
  /\ all = leading_assignment vars need ++ replayed vars ++ injected vars need
  /\ (forall name v,
        In (name, v) vars ->
        name <> "statement_id"%string ->
        name <> "session_track_system_variables"%string ->
        assignments_to name all
        = (name, v) :: assignments_to name (injected vars need)
        /\ (need = false \/ v <> None
            \/ ~ In name (map fst tracker_defaults) ->
            assignments_to name all = [(name, v)]))
  /\ assignments_to "statement_id" all = []
  /\ (forall v,
        In ("session_track_system_variables"%string, v) vars ->
        assignments_to "session_track_system_variables" all
        = if need
          then [("session_track_system_variables"%string,
                 if is_null v then Some "*"%string else v)]
          else if is_null v then []
               else [("session_track_system_variables"%string, v)])
  /\ (~ In "session_track_system_variables"%string (map fst vars) ->
        assignments_to "session_track_system_variables" all
        = if need
          then [("session_track_system_variables"%string, Some "*"%string)]
          else [])
  /\ (forall name,
        ~ In name (map fst vars) ->
        name <> "session_track_system_variables"%string ->
        assignments_to name all
        = if need then assignments_to name tracker_defaults else [])
  /\ (empty stmt = true <-> all = [])
  /\ (empty stmt = true ->
        effects (process o s) = []
        /\ stage (lc (next (process o s))) = SetServerOption)
  /\ (empty stmt = false ->
        effects (process o s)
        = [PushProcessor (QuerySender stmt (FailedQueryHandler stmt))]
        /\ stage (lc (next (process o s))) = SetVarsDone).
Proof.
  intros Hst Hnd vars need stmt all.
  assert (Hr : stmt = render all) by apply set_vars_stmt_render.
  assert (Ht : stmt = statement_text all)
    by (rewrite Hr; apply render_statement_text).
  refine (conj Ht (conj eq_refl (conj _ (conj _ (conj _
            (conj _ (conj _ (conj _ (conj _ _))))))))).
  - intros name v Hin Hi Hs.
    assert (Hone : assignments_to name all
                   = (name, v) :: assignments_to name (injected vars need)).
    { subst all. unfold set_vars_assignments.
      rewrite !assignments_to_app.
      rewrite assignments_to_leading by exact Hs.
      rewrite (assignments_to_replayed name v) by assumption.
      reflexivity. }
    split; [exact Hone|].
    intros Hcase. rewrite Hone. f_equal.
    destruct Hcase as [Hn|[Hv|Hd]].
    + rewrite Hn. reflexivity.
    + apply assignments_to_injected_set. unfold sv_get.
      fold vars in Hnd. rewrite (sv_find_In _ v vars Hnd Hin).
      destruct v; [reflexivity | congruence].
    + apply assignments_to_injected_other. exact Hd.
  - subst all. unfold set_vars_assignments.
    rewrite !assignments_to_app.
    rewrite assignments_to_leading by discriminate.
    rewrite assignments_to_replayed_skipped by auto.
    rewrite assignments_to_injected_other by (apply tracker_names_not; auto).
    reflexivity.
  - intros v Hin. subst all. unfold set_vars_assignments.
    rewrite !assignments_to_app.
    rewrite assignments_to_leading_self.
    rewrite assignments_to_replayed_skipped by auto.
    rewrite assignments_to_injected_other by (apply tracker_names_not; auto).
    rewrite !app_nil_r. unfold leading_assignment, sv_get.
    fold vars. rewrite (sv_find_In _ v vars Hnd Hin). reflexivity.
  - intros Hout. subst all. unfold set_vars_assignments.
    rewrite !assignments_to_app.
    rewrite assignments_to_leading_self.
    rewrite assignments_to_replayed_skipped by auto.
    rewrite assignments_to_injected_other by (apply tracker_names_not; auto).
    rewrite !app_nil_r. unfold leading_assignment, sv_get.
    rewrite (sv_find_absent _ vars Hout). reflexivity.
  - intros name Hout Hs. subst all. unfold set_vars_assignments.
    rewrite !assignments_to_app.
    rewrite assignments_to_leading by exact Hs.
    rewrite (assignments_to_absent name (replayed vars)).
    + cbn [app]. destruct need; [|reflexivity].
      rewrite assignments_to_injected_by_value. unfold sv_get.
      rewrite (sv_find_absent _ vars Hout). reflexivity.
    + intros H. apply Hout. apply in_map_iff in H.
      destruct H as (a & Ha & Hin). apply filter_In in Hin.
      apply in_map_iff. exists a. tauto.
  - rewrite Hr. apply render_empty.
  - intros He. unfold process. rewrite Hst. unfold set_vars.
    fold vars. fold need. fold stmt. rewrite He. simpl. auto.
  - intros He. unfold process. rewrite Hst. unfold set_vars.
    fold vars. fold need. fold stmt. rewrite He. simpl. auto.
Qed.

(** C5, as amended.  When session trackers are needed (sharing is
    enabled and the greeting came from the router), [SetVars] always
    sends a query, and its text starts with the assignment to
    session_track_system_variables: the store's value for it, or the
    router's star when the store has none or a NULL one.  The replayed
    entries follow, and after them the tracker defaults, in their
    fixed order, each exactly when the store has no entry or a NULL
    entry for its name.  So for each of the three tracker names, with
    distinct names in the store: with no entry the default is the one
    assignment to it; a value the client set is assigned once,
    unchanged, and no default follows; and a NULL entry is assigned
    NULL and then, later in the same statement, the default. *)
Theorem session_trackers_first (o : Oracle) (s : State) :
  stage (lc s) = SetVars ->
  NoDup (map fst (system_variables (conn s))) ->
  connection_sharing (context (conn s)) && greeting_from_router (conn s) = true ->
  let vars := system_variables (conn s) in
  let first :=
    ("session_track_system_variables"%string,
     if is_null (sv_get "session_track_system_variables" vars)
     then Some "*"%string
     else sv_get "session_track_system_variables" vars) in
  let defaults :=
    filter (fun d => is_null (sv_get (fst d) vars)) tracker_defaults in
  let all := first :: replayed vars ++ defaults in
  let stmt := statement_text all in
  effects (process o s)
  = [PushProcessor (QuerySender stmt (FailedQueryHandler stmt))]
  /\ stage (lc (next (process o s))) = SetVarsDone
  /\ stmt
     = ("SET @@SESSION.session_track_system_variables = "
          ++ to_string (snd first)
          ++ more_assignments_text (replayed vars)
          ++ more_assignments_text defaults)%string
  /\ (forall name default,
        In (name, default) tracker_defaults ->
        (In (name, default) defaults <-> is_null (sv_get name vars) = true)
        /\ (~ In name (map fst vars) ->
              assignments_to name all = [(name, default)])
        /\ (forall v,
              In (name, Some v) vars ->
              assignments_to name all = [(name, Some v)])
        /\ (In (name, None) vars ->
              assignments_to name all = [(name, None); (name, default)])).
Proof.
  intros Hst Hnd Hneed vars first defaults all stmt.
  assert (Hall : set_vars_assignments vars true = all) by reflexivity.
  assert (Ht : set_vars_stmt vars true = stmt).
  { rewrite set_vars_stmt_render, render_statement_text, Hall. reflexivity. }
  assert (Hne : empty stmt = false) by reflexivity.
  assert (Hp : process o s
               = again (with_lc (set_stage SetVarsDone) s)
                   [PushProcessor (QuerySender stmt (FailedQueryHandler stmt))]).
  { unfold process. rewrite Hst. unfold set_vars. rewrite Hneed.
    fold vars. rewrite Ht, Hne. reflexivity. }
  refine (conj _ (conj _ (conj _ _))).
  - rewrite Hp. reflexivity.
  - rewrite Hp. reflexivity.
  - subst stmt all. cbn [statement_text]. unfold assignment_text.
    cbn [fst snd]. rewrite more_assignments_text_app, !append_assoc.
    reflexivity.
  - intros name default Hin.
    assert (Hname : name <> "session_track_system_variables"%string).
    { simpl in Hin. destruct Hin as [H|[H|[H|[]]]]; inversion H; discriminate. }
    assert (Hsid : name <> "statement_id"%string).
    { simpl in Hin. destruct Hin as [H|[H|[H|[]]]]; inversion H; discriminate. }
    assert (Hinj : assignments_to name defaults
                   = if is_null (sv_get name vars) then [(name, default)] else [])
      by (apply (assignments_to_injected name default vars Hin)).
    assert (Hfirst : assignments_to name [first] = []).
    { unfold assignments_to. cbn [filter fst first].
      apply String.eqb_neq in Hname. rewrite String.eqb_sym in Hname.
      rewrite Hname. reflexivity. }
    assert (Hsplit : assignments_to name all
                     = assignments_to name (replayed vars)
                         ++ assignments_to name defaults).
    { subst all.
      change (first :: replayed vars ++ defaults)
        with ([first] ++ replayed vars ++ defaults).
      rewrite !assignments_to_app, Hfirst. reflexivity. }
    refine (conj _ (conj _ (conj _ _))).
    + subst defaults. rewrite filter_In. cbn [fst]. tauto.
    + intros Hout. rewrite Hsplit, Hinj.
      rewrite (assignments_to_absent name (replayed vars)).
      * unfold sv_get. rewrite (sv_find_absent _ vars Hout). reflexivity.
      * intros H. apply Hout. apply in_map_iff in H.
        destruct H as (a & Ha & Hina). apply filter_In in Hina.
        apply in_map_iff. exists a. tauto.
    + intros v Hv. rewrite Hsplit, Hinj.
      rewrite (assignments_to_replayed name (Some v)) by assumption.
      unfold sv_get. rewrite (sv_find_In name _ vars Hnd Hv). reflexivity.
    + intros Hv. rewrite Hsplit, Hinj.
      rewrite (assignments_to_replayed name None) by assumption.
      unfold sv_get. rewrite (sv_find_In name _ vars Hnd Hv). reflexivity.
Qed.

(** *** The stage graph and what a call returns *)

(** X1.  One call of [process] leads from a stage to one of the stages
    listed for it in [next_stages]: the next step of the sequence, a
    documented skip, the way out to [Done] or to the pool, or one of
    the two ways back to [Connect]. *)
Theorem process_follows_table (o : Oracle) (s : State) :
  In (stage (lc (next (process o s)))) (next_stages (stage (lc s))).
Proof.
  by_stage s; branches; simpl;
    repeat match goal with
      | H : stage (lc s) = _ |- _ => rewrite H; clear H
      end;
    tauto.
Qed.

(** X2.  What one call of [process] returns.  It suspends exactly in
    [Authenticated], when the connection is not authenticated or not
    open and a retry was requested.  It is done exactly in [Done].  It
    asks to send to the client exactly in [SendAuthOk] inside a
    handshake whose send succeeded.  It returns an error code exactly
    when the pool fails in [PoolOrClose] or that send fails; every
    other call asks to be called again. *)
Theorem process_result (o : Oracle) (s : State) :
  (result (process o s) = inl Suspend
   <-> stage (lc s) = Authenticated
       /\ (authenticated (conn s) = false \/ server_conn_is_open (conn s) = false)
       /\ retry_connect_ (lc s) = true)
  /\ (result (process o s) = inl ResultDone <-> stage (lc s) = Done)
  /\ (result (process o s) = inl SendToClient
      <-> stage (lc s) = SendAuthOk
          /\ in_handshake_ (lc s) = true
          /\ send_res o = None)
  /\ (forall ec,
        result (process o s) = inr ec
        <-> (stage (lc s) = PoolOrClose /\ pool_res o = inl ec)
            \/ (stage (lc s) = SendAuthOk
                /\ in_handshake_ (lc s) = true
                /\ send_res o = Some ec)).
Proof.
  unfold process.
  destruct (stage (lc s)) eqn:Hst;
    unfold connect, connected, do_authenticated, fetch_user_attrs,
      fetch_user_attrs_done, send_auth_ok, set_schema, set_schema_done,
      set_server_option, set_server_option_done, set_vars, set_vars_done,
      fetch_sys_vars, fetch_sys_vars_done, set_trx_characteristics,
      set_trx_characteristics_done, wait_gtid_executed,
      wait_gtid_executed_done, pool_or_close, fallback_to_write, done,
      reset_seq_id, again;
    destruct (authenticated (conn s)); destruct (server_conn_is_open (conn s));
    destruct (retry_connect_ (lc s)); destruct (in_handshake_ (lc s));
    destruct (send_res o); destruct (pool_res o) as [?|[|]];
    branches; simpl;
    (split; [|split; [|split; [|intros ec]]]); split;
    try discriminate; try reflexivity;
    intuition (try discriminate; try congruence).
Qed.

(** X3.  [Done] is terminal.  There a call of [process] returns done,
    pushes nothing, and sets the server's sequence id to 0xff when the
    connection has a server protocol state, leaving it as it was when it
    has none; and whatever else happens the stage stays [Done] and
    nothing more is pushed. *)
Theorem Done_is_terminal (s : State) (ms : list Move) :
  stage (lc s) = Done ->
  run_allowed s ms ->
  stage (lc (run s ms)) = Done
  /\ run_pushes s ms = []
  /\ (forall o,
        result (process o s) = inl ResultDone
        /\ effects (process o s) =
           match failed (lc s) with
           | Some err => if on_error_ (lc s) then [CallOnError err] else []
           | None => []
           end
        /\ s_seq_id (server_protocol (conn (next (process o s)))) =
           if server_protocol_present (conn s) then 255%N
           else s_seq_id (server_protocol (conn s))).
Proof.
  intros Hst Hok. refine (conj _ (conj _ _)).
  - revert s Hst Hok. induction ms as [|m ms IH]; intros s Hst Hok; [exact Hst|].
    destruct Hok as [Hm Hok]. cbn [run]. apply IH; [|exact Hok].
    destruct m as [o|cb co err|s']; simpl.
    + unfold process. rewrite Hst. unfold done.
      destruct (failed (lc s)); cbn [next]; rewrite reset_seq_id_lc; exact Hst.
    + destruct (callback_lc_frame cb co err s) as (Hs & _). congruence.
    + destruct Hm as (Hs & _). congruence.
  - unfold run_pushes.
    revert s Hst Hok. induction ms as [|m ms IH]; intros s Hst Hok; [reflexivity|].
    destruct Hok as [Hm Hok]. cbn [run_log].
    rewrite map_app, map_map. cbn [snd]. rewrite map_id.
    assert (Hp : forall a b, pushes (a ++ b) = pushes a ++ pushes b).
    { clear. induction a as [|e a IHa]; intros b; simpl; [reflexivity|].
      destruct e; simpl; rewrite ?IHa; reflexivity. }
    rewrite Hp. rewrite IH; [|clear IH|exact Hok].
    + rewrite app_nil_r.
      destruct m as [o|cb co err|s']; simpl.
      * unfold process. rewrite Hst. unfold done.
        destruct (failed (lc s)); [destruct (on_error_ (lc s))|]; reflexivity.
      * unfold invoke_error_callback, call_on_error.
        destruct cb; branches; reflexivity.
      * reflexivity.
    + destruct m as [o|cb co err|s']; simpl.
      * unfold process. rewrite Hst. unfold done.
        destruct (failed (lc s)); cbn [next]; rewrite reset_seq_id_lc;
          exact Hst.
      * destruct (callback_lc_frame cb co err s) as (Hs & _). congruence.
      * destruct Hm as (Hs & _). congruence.
  - intros o. unfold process. rewrite Hst. unfold done.
    destruct (failed (lc s)); cbn [next effects result];
      rewrite reset_seq_id_seq_id; repeat split; reflexivity.
Qed.

(** Turns the boolean tests met along a branch into facts. *)
Ltac facts :=
  repeat match goal with
    | H : negb _ = true |- _ => apply negb_true_iff in H
    | H : negb _ = false |- _ => apply negb_false_iff in H
    | H : _ && _ = true |- _ => apply andb_true_iff in H; destruct H
    | H : _ || _ = false |- _ => apply orb_false_iff in H; destruct H
    | H : String.eqb _ _ = true |- _ => apply String.eqb_eq in H
    | H : String.eqb _ _ = false |- _ => apply String.eqb_neq in H
    | H : Bool.eqb _ _ = false |- _ => apply Bool.eqb_false_iff in H
    | H : empty _ = true |- _ => apply empty_iff in H
    | H : ServerMode_eqb _ _ = true |- _ => apply ServerMode_eqb_eq in H
    end.

Lemma empty_false t : empty t = false <-> t <> EmptyString.
Proof. destruct t; simpl; split; congruence. Qed.

(** X4.  A call of [process] pushes at most one sub-processor, and each
    kind is pushed from one place under one condition: the connect
    from [Connect] when the server side is closed; reset-connection,
    change-user or the server greeting from [Connected], by whether a
    greeting is known and the identities agree outside a handshake;
    set-option from [SetServerOption] with the client's setting when
    the two sides differ; init-schema from [SetSchema] with the
    client's non-empty, different schema; quit from [PoolOrClose] when
    the pool did not keep the connection; the attribute fetcher from
    [FetchUserAttrs] when enforcement is on; and a query from
    [SetVars], [FetchSysVars], [WaitGtidExecuted] or
    [SetTrxCharacteristics], each with its own handler. *)
Theorem pushes_by_stage (o : Oracle) (s : State) :
  length (pushes (effects (process o s))) <= 1
  /\ forall p,
       In p (pushes (effects (process o s))) ->
       match p with
       | ConnectProcessor cb =>
           stage (lc s) = Connect /\ cb = ForwardOnError
           /\ server_conn_is_open (conn s) = false
       | ResetConnectionSender =>
           stage (lc s) = Connected
           /\ s_server_greeting (server_protocol (conn s)) = true
           /\ in_handshake_ (lc s) = false
           /\ c_username (client_protocol (conn s))
              = s_username (server_protocol (conn s))
           /\ c_sent_attributes (client_protocol (conn s))
              = s_sent_attributes (server_protocol (conn s))
       | ChangeUserSender h cb =>
           stage (lc s) = Connected /\ h = in_handshake_ (lc s)
           /\ cb = ForwardOnError
           /\ s_server_greeting (server_protocol (conn s)) = true
       | ServerGreetor h cb =>
           stage (lc s) = Connected /\ h = in_handshake_ (lc s)
           /\ cb = GreetorOnError
           /\ s_server_greeting (server_protocol (conn s)) = false
       | QuerySender stmt h =>
           (stage (lc s) = SetVars /\ h = FailedQueryHandler stmt)
           \/ (stage (lc s) = FetchSysVars /\ h = SelectSessionVariablesHandler)
           \/ (stage (lc s) = WaitGtidExecuted /\ h = IsTrueHandler wait_timed_out)
           \/ (stage (lc s) = SetTrxCharacteristics /\ h = FailedQueryHandler stmt)
       | SetOptionSender opt =>
           stage (lc s) = SetServerOption
           /\ c_multi_statements (client_protocol (conn s))
              <> s_multi_statements (server_protocol (conn s))
           /\ opt = (if c_multi_statements (client_protocol (conn s))
                     then MYSQL_OPTION_MULTI_STATEMENTS_ON
                     else MYSQL_OPTION_MULTI_STATEMENTS_OFF)
       | InitSchemaSender schema =>
           stage (lc s) = SetSchema
           /\ schema = c_schema (client_protocol (conn s))
           /\ schema <> EmptyString
           /\ schema <> s_schema (server_protocol (conn s))
       | QuitSender =>
           stage (lc s) = PoolOrClose /\ pool_res o = inr false
       | RouterRequireFetcher =>
           stage (lc s) = FetchUserAttrs
           /\ router_require_enforce (context (conn s)) = true
       end.
Proof.
  split.
  - by_stage s; branches; simpl; lia.
  - intros p. unfold process.
    destruct (stage (lc s)) eqn:Hst;
      unfold connect, connected, do_authenticated, fetch_user_attrs,
        fetch_user_attrs_done, send_auth_ok, set_schema, set_schema_done,
        set_server_option, set_server_option_done, set_vars, set_vars_done,
        fetch_sys_vars, fetch_sys_vars_done, set_trx_characteristics,
        set_trx_characteristics_done, wait_gtid_executed,
        wait_gtid_executed_done, pool_or_close, fallback_to_write, done,
      reset_seq_id, again;
      destruct (trx_characteristics (conn s)); cbn [lc conn with_lc with_conn];
      destruct (c_multi_statements (client_protocol (conn s)));
      destruct (s_multi_statements (server_protocol (conn s)));
      intros H; revert H; branches; simpl; intros H;
      repeat (destruct H as [H|H]; [try discriminate H; inversion H; subst|]);
      try contradiction;
      simpl in *; facts;
      repeat match goal with
        | H : empty _ = false |- _ => apply empty_false in H
        end;
      repeat split; auto; try congruence;
      try (left; split; reflexivity);
      try (right; left; split; reflexivity);
      try (right; right; left; split; reflexivity);
      try (right; right; right; split; reflexivity).
Qed.

(** *** What a call touches *)

(** X5.  What a call of [process] writes.  In every stage but
    [PoolOrClose], where [pool_server_connection()] takes over the
    server side, the store of system variables, the sharing flag, the
    open state of the server side and the presence of its protocol
    state stay as they are; the expected server mode changes only in
    [FallbackToWrite] (to read-write); the authenticated flag only in
    [Connected] (set) and in [Done] with a failure stored (cleared);
    and the server's sequence id only in [Done] on a connection that
    has a server protocol state (to 0xff).  In every stage, the
    remembered transaction statement changes only in [Connected] and
    [SetTrxCharacteristics]. *)
Theorem process_footprint (o : Oracle) (s : State) :
  (stage (lc s) = PoolOrClose
   \/ (system_variables (conn (next (process o s))) = system_variables (conn s)
       /\ some_state_changed (conn (next (process o s)))
          = some_state_changed (conn s)
       /\ server_conn_is_open (conn (next (process o s)))
          = server_conn_is_open (conn s)
       /\ server_protocol_present (conn (next (process o s)))
          = server_protocol_present (conn s)
       /\ (expected_server_mode (conn (next (process o s)))
           <> expected_server_mode (conn s) ->
           stage (lc s) = FallbackToWrite
           /\ expected_server_mode (conn (next (process o s))) = ReadWrite)
       /\ (authenticated (conn (next (process o s))) <> authenticated (conn s) ->
           (stage (lc s) = Connected
            /\ authenticated (conn (next (process o s))) = true)
           \/ (stage (lc s) = Done /\ failed (lc s) <> None
               /\ authenticated (conn (next (process o s))) = false))
       /\ (s_seq_id (server_protocol (conn (next (process o s))))
           <> s_seq_id (server_protocol (conn s)) ->
           stage (lc s) = Done
           /\ server_protocol_present (conn s) = true
           /\ s_seq_id (server_protocol (conn (next (process o s)))) = 255%N)))
  /\ (trx_stmt_ (lc (next (process o s))) <> trx_stmt_ (lc s) ->
      stage (lc s) = Connected \/ stage (lc s) = SetTrxCharacteristics).
Proof.
  split.
  - destruct (Stage_eq_dec (stage (lc s)) PoolOrClose) as [Hp|Hp];
      [left; exact Hp | right].
    revert Hp. by_stage s; intros Hp; try (exfalso; apply Hp; reflexivity);
      clear Hp; branches; simpl;
      repeat match goal with |- _ /\ _ => split end;
      try reflexivity; try (simpl in *; congruence); intros Hd;
      try (exfalso; apply Hd; reflexivity);
      auto; try (left; split; reflexivity);
      try (right; split; [reflexivity | split; [discriminate | reflexivity]]);
      simpl in *; congruence.
  - by_stage s; branches; simpl; intros Hd;
      try (exfalso; apply Hd; reflexivity); auto.
Qed.

(** X6.  The failure state after a call of [process] is the one before
    it, unless the call is [fetch_user_attrs_done] denying access or
    the fallback firing, which clears it.  The error callbacks leave it
    alone, and no sequence of result events makes [IsTrueHandler] or
    [SelectSessionVariablesHandler] clear a failure that is stored. *)
Theorem failure_is_kept (o : Oracle) (s : State) :
  (failed (lc (next (process o s))) = failed (lc s)
   \/ (stage (lc s) = FetchUserAttrsDone
       /\ failed (lc (next (process o s))) = Some access_denied)
   \/ (fallback_fires s (Process o) = true
       /\ failed (lc (next (process o s))) = None))
  /\ (forall cb co err,
        failed (lc (fst (invoke_error_callback cb co err s))) = failed (lc s))
  /\ (forall evs h,
        failed (lc s) <> None ->
        failed (snd (IsTrue_run evs h (lc s))) <> None)
  /\ (forall evs h h' s',
        SSV_run evs h s = Some (h', s') -> failed (lc s') = failed (lc s)).
Proof.
  refine (conj _ (conj _ (conj _ _))).
  - unfold fallback_fires, Stage_eqb.
    by_stage s; branches; simpl; auto;
      try (right; left; split; reflexivity);
      try (right; right; split; reflexivity);
      try discriminate;
      try (exfalso; congruence).
  - intros cb co err. apply (callback_lc_frame cb co err s).
  - intros evs h. generalize (lc s). clear s.
    revert h. induction evs as [|ev evs IH]; intros h l Hl; simpl; [exact Hl|].
    destruct (IsTrue_handle ev h l) as [h' l'] eqn:E. apply IH.
    destruct ev; simpl in E;
      unfold IsTrue_on_column_count, IsTrue_on_row, IsTrue_on_row_end,
        IsTrue_on_error in E;
      repeat match type of E with
        | context [if ?b then _ else _] => destruct b
        | context [match ?x with _ => _ end] => destruct x
        end;
      inversion E; subst; try exact Hl; discriminate.
  - intros evs h h' s' H. apply SSV_run_lc in H. rewrite H. reflexivity.
Qed.

(** X7.  Where a stored failure is looked at.  Outside
    [SetServerOptionDone], [SetSchemaDone] and [WaitGtidExecutedDone]
    the stage a call of [process] leads to and the sub-processors it
    pushes are the same whatever the failure state holds; so a failed
    SET statement does not stop [SetVarsDone] from going on to
    [SetServerOption], and a failed transaction statement does not end
    the replay. *)
Theorem failure_checked_at (o : Oracle) (s : State) (f : option Error) :
  stage (lc s) <> SetServerOptionDone ->
  stage (lc s) <> SetSchemaDone ->
  stage (lc s) <> WaitGtidExecutedDone ->
  stage (lc (next (process o (with_lc (set_failed f) s))))
  = stage (lc (next (process o s)))
  /\ pushes (effects (process o (with_lc (set_failed f) s)))
     = pushes (effects (process o s)).
Proof.
  intros H1 H2 H3. unfold process. cbn [with_lc set_failed lc stage].
  destruct (stage (lc s)) eqn:Hst; try congruence; clear H1 H2 H3;
    unfold connect, connected, do_authenticated, fetch_user_attrs,
      fetch_user_attrs_done, send_auth_ok, set_schema, set_schema_done,
      set_server_option, set_server_option_done, set_vars, set_vars_done,
      fetch_sys_vars, fetch_sys_vars_done, set_trx_characteristics,
      set_trx_characteristics_done, wait_gtid_executed,
      wait_gtid_executed_done, pool_or_close, fallback_to_write, done,
      reset_seq_id, again,
      fetch_sys_vars_query;
    cbn [with_lc with_conn set_failed set_stage set_trx_stmt lc conn stage
         failed already_fallback_ retry_connect_ trx_stmt_ in_handshake_
         on_error_ required_connection_attributes_fetcher_result_];
    destruct (trx_characteristics (conn s));
    cbn [with_lc with_conn set_failed set_stage set_trx_stmt lc conn stage
         failed already_fallback_ retry_connect_ trx_stmt_ in_handshake_
         on_error_ required_connection_attributes_fetcher_result_];
    branches; simpl; auto.
Qed.

(** X8.  A connect retry is taken only on request.  [process] never
    sets the retry flag; the call that suspends for the retry is the
    only one that arms the connect timer, and it clears the flag and
    goes back to [Connect].  Of the error callbacks only the one given
    to the server greeting sets the flag, and only for a transient
    error, with the password known or no greeting received, before the
    retry deadline; it then reports nothing to the error callback. *)
Theorem connect_retry_on_request (o : Oracle) (s : State) :
  (retry_connect_ (lc (next (process o s))) = true ->
   retry_connect_ (lc s) = true)
  /\ (In ConnectTimerStart (effects (process o s)) <->
      result (process o s) = inl Suspend)
  /\ (result (process o s) = inl Suspend ->
      retry_connect_ (lc (next (process o s))) = false
      /\ stage (lc (next (process o s))) = Connect
      /\ effects (process o s) = [ConnectTimerStart])
  /\ (forall cb co err,
        retry_connect_ (lc (fst (invoke_error_callback cb co err s))) = true ->
        retry_connect_ (lc s) = true
        \/ (cb = GreetorOnError
            /\ connect_error_is_transient co = true
            /\ before_connect_retry_deadline co = true
            /\ (c_password (client_protocol (conn s)) <> None
                \/ s_server_greeting (server_protocol (conn s)) = false)
            /\ snd (invoke_error_callback cb co err s) = [])).
Proof.
  refine (conj _ (conj _ (conj _ _))).
  - by_stage s; branches; simpl; auto; congruence.
  - by_stage s; branches; simpl; split; intros H;
      try discriminate H; try contradiction; auto;
      repeat (destruct H as [H|H]; try discriminate H); try contradiction.
  - by_stage s; branches; simpl; intros H; try discriminate H; auto.
  - intros cb co err. unfold invoke_error_callback.
    destruct cb; [auto|].
    destruct (connect_error_is_transient co); simpl; auto.
    destruct (c_password (client_protocol (conn s))) eqn:Ep; simpl.
    + destruct (before_connect_retry_deadline co); simpl; auto.
      intros _. right. repeat split. left. discriminate.
    + destruct (s_server_greeting (server_protocol (conn s))); simpl; auto.
      destruct (before_connect_retry_deadline co); simpl; auto.
      intros _. right. repeat split. right. reflexivity.
Qed.

(** *** Required connection attributes *)

(** X9.  In [FetchUserAttrsDone], when the fetcher left no attributes
    or the enforcement fails, the failure becomes Access denied (1045,
    28000), replacing whatever was stored, and the stage is [Done]; the
    following call reports that error to the callback, if one is
    installed, and clears the authenticated flag.  The enforcement runs
    only when the fetcher left attributes.  When both succeed the stage
    is [SendAuthOk] and the failure state is untouched. *)
Theorem access_denied_path (o1 o2 : Oracle) (s : State) :
  stage (lc s) = FetchUserAttrsDone ->
  let fetched := required_connection_attributes_fetcher_result_ (lc s) in
  let s1 := next (process o1 s) in
  (In RouterRequireEnforce (effects (process o1 s)) <-> fetched = true)
  /\ (fetched = false \/ enforce_res o1 = false ->
        stage (lc s1) = Done
        /\ failed (lc s1) = Some (mkError 1045 "Access denied" "28000")
        /\ on_error_calls (effects (process o2 s1))
           = (if on_error_ (lc s)
              then [mkError 1045 "Access denied" "28000"] else [])
        /\ authenticated (conn (next (process o2 s1))) = false
        /\ result (process o2 s1) = inl ResultDone)
  /\ (fetched = true -> enforce_res o1 = true ->
        stage (lc s1) = SendAuthOk /\ failed (lc s1) = failed (lc s)).
Proof.
  intros Hst fetched s1.
  assert (H1 : process o1 s = fetch_user_attrs_done o1 s)
    by (unfold process; rewrite Hst; reflexivity).
  subst fetched s1. rewrite H1. clear H1. unfold fetch_user_attrs_done.
  destruct (required_connection_attributes_fetcher_result_ (lc s)) eqn:Ef;
    destruct (enforce_res o1) eqn:Ee; cbn [negb again next effects].
  - split; [split; [reflexivity | intros _; left; reflexivity]|].
    split; [intros [H|H]; discriminate H|].
    intros _ _. split; reflexivity.
  - split; [split; [reflexivity | intros _; left; reflexivity]|].
    split; [|intros _ H; discriminate H].
    intros _. unfold process, done, reset_seq_id. simpl.
    destruct (server_protocol_present (conn s));
      destruct (on_error_ (lc s)); repeat split; reflexivity.
  - split; [split; [intros [] | intros H; discriminate H]|].
    split; [|intros H; discriminate H].
    intros _. unfold process, done, reset_seq_id. simpl.
    destruct (server_protocol_present (conn s));
      destruct (on_error_ (lc s)); repeat split; reflexivity.
  - split; [split; [intros [] | intros H; discriminate H]|].
    split; [|intros H; discriminate H].
    intros _. unfold process, done, reset_seq_id. simpl.
    destruct (server_protocol_present (conn s));
      destruct (on_error_ (lc s)); repeat split; reflexivity.
Qed.

(** *** Fetching the system variables *)

Lemma fetch_sys_vars_query_shape (s : State) :
  fetch_sys_vars_query s
  = if connection_sharing_possible (conn s)
    then union_of (map select_sys_var (missing_sys_vars (system_variables (conn s))))
    else EmptyString.
Proof.
  unfold fetch_sys_vars_query, missing_sys_vars, expected_sys_vars.
  destruct (connection_sharing_possible (conn s)); [|reflexivity].
  cbn [fold_left filter]. unfold fetch_sys_vars_each.
  destruct (sv_find "collation_connection" (system_variables (conn s)));
    destruct (sv_find "character_set_client" (system_variables (conn s)));
    destruct (sv_find "sql_mode" (system_variables (conn s)));
    reflexivity.
Qed.

Lemma union_of_empty l : union_of (map select_sys_var l) = EmptyString <-> l = [].
Proof.
  split; [|intros ->; reflexivity].
  destruct l as [|a [|b l]]; [reflexivity| |]; simpl; discriminate.
Qed.

Lemma last_binding_In name (pairs : list (string * Value)) :
  In name (map fst pairs) -> last_binding name pairs <> None.
Proof.
  induction pairs as [|[k v] pairs IH]; simpl; [tauto|].
  intros [H|H].
  - subst k. destruct (last_binding name pairs); [discriminate|].
    rewrite String.eqb_refl. discriminate.
  - destruct (last_binding name pairs); [discriminate|]. tauto.
Qed.

Lemma SSV_run_clean extra pairs s :
  SSV_run (resultset 2 (map (pair_row extra) pairs)) SelectSessionVariables_new s
  = Some ({| col_count_ := 2; something_failed_ := false; session_variables_ := [] |},
          with_conn (set_system_variables
                       (move_session_variables pairs (system_variables (conn s)))) s).
Proof.
  unfold resultset. cbn [SSV_run SSV_handle].
  rewrite SSV_run_app, SSV_run_columns, SSV_run_app.
  rewrite SSV_run_rows_captured by reflexivity.
  reflexivity.
Qed.

(** X10.  [fetch_sys_vars] asks for what is missing and for nothing
    else.  Its query is the UNION of one SELECT per variable among
    collation_connection, character_set_client and sql_mode that the
    store does not hold, in that order; it pushes no query, and moves
    to [SetSchema], exactly when sharing is not possible or none of the
    three is missing.  Once [SelectSessionVariablesHandler] has stored
    a clean answer for the missing names, none of the three is missing
    any more, so the same stage would push no second query. *)
Theorem fetch_sys_vars_asks_for_missing (o : Oracle) (s : State) :
  stage (lc s) = FetchSysVars ->
  let vars := system_variables (conn s) in
  let query := union_of (map select_sys_var (missing_sys_vars vars)) in
  (connection_sharing_possible (conn s) = false \/ missing_sys_vars vars = [] ->
     effects (process o s) = []
     /\ stage (lc (next (process o s))) = SetSchema)
  /\ (connection_sharing_possible (conn s) = true ->
      missing_sys_vars vars <> [] ->
        effects (process o s)
        = [PushProcessor (QuerySender query SelectSessionVariablesHandler)]
        /\ stage (lc (next (process o s))) = FetchSysVarsDone)
  /\ (forall extra (value : string -> Value) h' s',
        SSV_run (resultset 2
                   (map (pair_row extra)
                      (map (fun name => (name, value name)) (missing_sys_vars vars))))
                SelectSessionVariables_new
                (next (process o s))
        = Some (h', s') ->
        missing_sys_vars (system_variables (conn s')) = []
        /\ effects (process o (with_lc (set_stage FetchSysVars) s')) = []).
Proof.
  intros Hst vars query.
  assert (Hq : fetch_sys_vars_query s
               = if connection_sharing_possible (conn s) then query
                 else EmptyString) by apply fetch_sys_vars_query_shape.
  refine (conj _ (conj _ _)).
  - intros H. unfold process. rewrite Hst. unfold fetch_sys_vars. rewrite Hq.
    destruct H as [H|H].
    + rewrite H. split; reflexivity.
    + subst query. fold vars. rewrite H.
      destruct (connection_sharing_possible (conn s)); split; reflexivity.
  - intros Hs Hm. unfold process. rewrite Hst. unfold fetch_sys_vars.
    rewrite Hq, Hs.
    destruct (empty query) eqn:E.
    + apply empty_iff in E. apply union_of_empty in E. contradiction.
    + split; reflexivity.
  - intros extra value h' s' Hrun. rewrite SSV_run_clean in Hrun.
    inversion Hrun as [[Hh Hs']]. clear Hrun Hh. subst s'.
    set (pairs := map (fun name => (name, value name)) (missing_sys_vars vars)).
    assert (Hvars : system_variables (conn (next (process o s))) = vars).
    { unfold process. rewrite Hst. unfold fetch_sys_vars.
      destruct (negb (empty (fetch_sys_vars_query s))); reflexivity. }
    assert (Hnone : missing_sys_vars
                      (move_session_variables pairs vars) = []).
    { unfold missing_sys_vars at 1.
      assert (Hall : forall name, In name expected_sys_vars ->
                sv_find name (move_session_variables pairs vars) <> None).
      { intros name Hin. rewrite sv_find_move.
        destruct (last_binding name pairs) eqn:El; [discriminate|].
        destruct (sv_find name vars) eqn:Ef; [discriminate|].
        exfalso. apply (last_binding_In name pairs); [|exact El].
        subst pairs. rewrite map_map. cbn [fst]. rewrite map_id.
        unfold missing_sys_vars. apply filter_In. rewrite Ef. auto. }
      induction expected_sys_vars as [|name l IH]; [reflexivity|].
      cbn [filter].
      destruct (sv_find name (move_session_variables pairs vars)) eqn:E.
      - apply IH. intros n Hn. apply Hall. right. exact Hn.
      - exfalso. apply (Hall name); [left; reflexivity | exact E]. }
    set (s1 := next (process o s)) in *.
    cbn [with_conn conn system_variables set_system_variables].
    rewrite Hvars. split; [exact Hnone|].
    unfold process. cbn [with_lc lc set_stage stage]. unfold fetch_sys_vars.
    rewrite fetch_sys_vars_query_shape.
    cbn [with_lc with_conn conn system_variables set_system_variables
         connection_sharing_possible].
    rewrite Hnone.
    destruct (connection_sharing_possible (conn s1)); reflexivity.
Qed.

(** *** Reading rows within bounds *)

Lemma SSV_on_row_out_of_range row h :
  SSV_on_row row h = None
  <-> something_failed_ h = false /\ (row = [] \/ exists key, row = [Some key]).
Proof.
  unfold SSV_on_row. destruct (something_failed_ h).
  - split; [discriminate | intros [H _]; discriminate].
  - destruct row as [|[key|] [|val row]]; split; intros H;
      try discriminate H; auto;
      try (split; [reflexivity | right; exists key; reflexivity]);
      destruct H as [_ [H|[k H]]]; discriminate H.
Qed.

Lemma SSV_run_rows_in_bounds rows : forall h s,
  (something_failed_ h = true \/ rows_match 2 rows) ->
  exists h', SSV_run (map OnRow rows) h s = Some (h', s).
Proof.
  induction rows as [|row rows IH]; intros h s H; simpl.
  - eexists; reflexivity.
  - destruct (SSV_on_row row h) as [h1|] eqn:E.
    + apply IH. destruct H as [H|H].
      * left. unfold SSV_on_row in E. rewrite H in E. inversion E; subst. exact H.
      * right. inversion H; assumption.
    + exfalso. apply SSV_on_row_out_of_range in E.
      destruct E as [Hf E]. destruct H as [H|H]; [congruence|].
      inversion H as [|? ? Hlen _]; subst.
      destruct E as [->|[k ->]]; simpl in Hlen; discriminate Hlen.
Qed.

(** X11.  [SelectSessionVariablesHandler] reads the first two fields of
    a row without a bounds check, and exactly the rows that are empty
    or hold a single non-NULL field are read out of range, and only
    while nothing has failed yet.  So on every resultset whose rows
    have as many fields as its column count announces, whatever that
    count is, the handler runs to the end within bounds. *)
Theorem SelectSessionVariablesHandler_in_bounds (count : N) (rows : list Row)
    (s : State) :
  rows_match count rows ->
  (exists h' s',
     SSV_run (resultset count rows) SelectSessionVariables_new s = Some (h', s'))
  /\ (forall row h,
        SSV_on_row row h = None
        <-> something_failed_ h = false
            /\ (row = [] \/ exists key, row = [Some key])).
Proof.
  intros Hrows. split; [|apply SSV_on_row_out_of_range].
  unfold resultset. cbn [SSV_run SSV_handle].
  rewrite SSV_run_app, SSV_run_columns, SSV_run_app.
  destruct (SSV_run_rows_in_bounds rows
              (SSV_on_column_count count SelectSessionVariables_new) s)
    as [h1 H1].
  - unfold SSV_on_column_count. cbn [something_failed_ SelectSessionVariables_new].
    destruct (count =? 2)%N eqn:E.
    + right. apply N.eqb_eq in E. subst count. exact Hrows.
    + left. reflexivity.
  - rewrite H1. cbn [SSV_run SSV_handle].
    destruct (SSV_on_row_end h1 (conn s)). eexists. eexists. reflexivity.
Qed.

(** *** The replayed statements *)

Lemma find_resize c t p : find c t = Some p -> find c (resize p t) = None.
Proof.
  revert p. induction t as [|a t IH]; simpl; intros p H; [discriminate|].
  destruct (Ascii.eqb a c) eqn:E.
  - inversion H. reflexivity.
  - destruct (find c t) as [i|]; [|discriminate].
    inversion H. simpl. rewrite E, (IH i eq_refl). reflexivity.
Qed.

Lemma trx_first_no_semicolon t : find semicolon (trx_first t) = None.
Proof.
  unfold trx_first. destruct (find semicolon t) as [p|] eqn:E.
  - apply find_resize. exact E.
  - exact E.
Qed.

Lemma trx_pieces_no_semicolon t :
  Forall (fun q => find semicolon q = None) (trx_pieces t).
Proof.
  unfold trx_pieces. generalize (String.length t) as fuel.
  intros fuel. revert t. induction fuel as [|fuel IH]; intros t; simpl.
  - constructor.
  - destruct (empty t); constructor; [apply trx_first_no_semicolon | apply IH].
Qed.

(** X12.  No query of the replay contains a semicolon: in any run from
    [SetTrxCharacteristics], every statement handed to the query sender
    is semicolon-free, so the replay never relies on the server's
    multi-statement option. *)
Theorem replay_queries_have_no_semicolon (s : State) (ms : list Move) :
  stage (lc s) = SetTrxCharacteristics ->
  run_allowed s ms ->
  Forall (fun q => find semicolon q = None) (run_queries s ms).
Proof.
  intros Hst Hok.
  pose proof (run_trx_progress (trx_stmt_ (lc s)) ms s [] Hok) as H.
  unfold trx_progress in H. rewrite Hst in H. simpl in H.
  specialize (H eq_refl).
  pose proof (trx_pieces_no_semicolon (trx_stmt_ (lc s))) as Hall.
  destruct (stage (lc (run s ms))); try contradiction;
    try (rewrite H; exact Hall);
    rewrite <- H in Hall; apply Forall_app in Hall; apply Hall.
Qed.

(** *** Reusing a pooled connection end to end *)

Lemma run_cons s m ms : run s (m :: ms) = run (fst (step s m)) ms.
Proof. reflexivity. Qed.

Lemma run_log_cons s m ms :
  map snd (run_log s (m :: ms))
  = snd (step s m) ++ map snd (run_log (fst (step s m)) ms).
Proof.
  cbn [run_log]. rewrite map_app, map_map. cbn [snd]. rewrite map_id.
  reflexivity.
Qed.

(** One call of [process] on a state whose stage is known. *)
Ltac one_call :=
  rewrite run_cons, run_log_cons; cbn [step fst snd];
  unfold process;
  cbn [next effects result lc conn with_lc with_conn set_stage set_authenticated
       set_client_greeting_sent set_seq_id set_trx_stmt stage failed
       already_fallback_ retry_connect_ trx_stmt_ in_handshake_ on_error_
       required_connection_attributes_fetcher_result_
       context client_protocol server_protocol server_conn_is_open
       authenticated client_greeting_sent greeting_from_router
       connection_sharing_possible expected_server_mode wait_for_my_writes
       wait_for_my_writes_timeout gtid_at_least_executed trx_characteristics
       system_variables some_state_changed
       s_server_greeting s_username s_sent_attributes s_schema
       s_multi_statements s_seq_id];
  unfold connected, do_authenticated, fetch_user_attrs, send_auth_ok,
    set_schema, set_schema_done, set_server_option, set_vars,
    fetch_sys_vars, fetch_sys_vars_query, set_trx_characteristics,
    wait_gtid_executed, done, reset_seq_id, again;
  cbn [next effects result lc conn with_lc with_conn set_stage set_authenticated
       set_client_greeting_sent set_seq_id set_trx_stmt stage failed
       already_fallback_ retry_connect_ trx_stmt_ in_handshake_ on_error_
       required_connection_attributes_fetcher_result_
       context client_protocol server_protocol server_conn_is_open
       authenticated client_greeting_sent greeting_from_router
       connection_sharing_possible expected_server_mode wait_for_my_writes
       wait_for_my_writes_timeout gtid_at_least_executed trx_characteristics
       system_variables some_state_changed
       s_server_greeting s_username s_sent_attributes s_schema
       s_multi_statements s_seq_id].

(** X13.  The quiet reuse.  From [Connected] on a greeted, open
    connection whose user name and attributes are the client's and on
    which nothing needs replaying, eleven calls of [process] (the
    pushed sub-processors leaving the state as it is) reach [Done]
    with no failure and the connection authenticated.  All they do is
    push the reset-connection and, when the client's schema is not
    empty and differs from the server's, one init-schema with the
    client's schema: no query, no reply to the client, no call of the
    error callback. *)
Theorem quiet_reuse (o : Oracle) (s : State) :
  stage (lc s) = Connected ->
  s_server_greeting (server_protocol (conn s)) = true ->
  c_username (client_protocol (conn s)) = s_username (server_protocol (conn s)) ->
  c_sent_attributes (client_protocol (conn s))
  = s_sent_attributes (server_protocol (conn s)) ->
  nothing_to_replay to_string s ->
  let ms := repeat (Process o) 11 in
  let client_schema := c_schema (client_protocol (conn s)) in
  map snd (run_log s ms)
  = PushProcessor ResetConnectionSender
      :: (if negb (empty client_schema)
             && negb (String.eqb client_schema (s_schema (server_protocol (conn s))))
          then [PushProcessor (InitSchemaSender client_schema)]
          else [])
  /\ stage (lc (run s ms)) = Done
  /\ failed (lc (run s ms)) = None
  /\ authenticated (conn (run s ms)) = true.
Proof.
  intros Hst Hg Hu Ha
    (Hopen & Hfail & Hh & Hset & Hmulti & Hfetch & Hwait & Htc & Htrx & Henf)
    ms client_schema.
  subst ms client_schema. cbn [repeat].
  unfold fetch_sys_vars_query in Hfetch.
  assert (Hw : (if wait_for_my_writes (conn s)
                   && ServerMode_eqb (expected_server_mode (conn s)) ReadOnly
                then negb (empty (gtid_at_least_executed (conn s)))
                else false) = false).
  { destruct (wait_for_my_writes (conn s)
              && ServerMode_eqb (expected_server_mode (conn s)) ReadOnly);
      [exact Hwait | reflexivity]. }
  (* Connected, Authenticated, SetVars, SetServerOption, FetchSysVars *)
  one_call. rewrite Hst; cbn iota. rewrite Hopen, Htc, Hg, Hh, Hu, Ha, !String.eqb_refl.
  cbn [negb andb app].
  one_call. rewrite Hopen. cbn [negb orb app].
  one_call. rewrite Hset. cbn [negb app].
  one_call. rewrite Hmulti, Bool.eqb_reflx. cbn [app].
  one_call. rewrite Hfetch. cbn [negb app].
  (* SetSchema, with or without a switch *)
  one_call.
  destruct (negb (empty (c_schema (client_protocol (conn s))))
            && negb (String.eqb (c_schema (client_protocol (conn s)))
                                (s_schema (server_protocol (conn s))))).
  - cbn [app]. one_call. rewrite Hfail. cbn [app].
    one_call.
    destruct (wait_for_my_writes (conn s)
              && ServerMode_eqb (expected_server_mode (conn s)) ReadOnly);
      [rewrite Hw|]; cbn [app];
      one_call; rewrite Htrx; cbn [empty app];
      one_call; rewrite Henf; cbn [negb app];
      one_call; rewrite Hh; cbn [negb app];
      cbn [run run_log map app next effects lc conn with_lc with_conn
           set_stage set_authenticated set_client_greeting_sent set_seq_id
           stage failed authenticated];
      rewrite ?Hfail; repeat split; reflexivity.
  - cbn [app]. one_call.
    destruct (wait_for_my_writes (conn s)
              && ServerMode_eqb (expected_server_mode (conn s)) ReadOnly);
      [rewrite Hw|]; cbn [app];
      one_call; rewrite Htrx; cbn [empty app];
      one_call; rewrite Henf; cbn [negb app];
      one_call; rewrite Hh; cbn [negb app];
      one_call; rewrite Hfail; cbn [app];
      cbn [run run_log map app next effects lc conn with_lc with_conn
           set_stage set_authenticated set_client_greeting_sent set_seq_id
           stage failed authenticated server_protocol_present];
      destruct (server_protocol_present (conn s));
      cbn [lc conn with_lc with_conn set_stage set_authenticated
           set_client_greeting_sent set_seq_id stage failed authenticated];
      rewrite ?Hfail; repeat split; reflexivity.
Qed.

(** *** Termination *)

Lemma calls_to_Done_zero s :
  stage (lc s) <> Connect -> stage (lc s) <> Connected ->
  calls_to_Done s = 0 -> stage (lc s) = Done.
Proof.
  unfold calls_to_Done. destruct (stage (lc s)); intros H1 H2 H;
    try congruence; lia.
Qed.

Lemma process_nears_Done o s :
  stage (lc s) <> Connect -> stage (lc s) <> Connected ->
  stage (lc s) <> Done ->
  goes_on (result (process o s)) = true ->
  fallback_fires s (Process o) = false ->
  stage (lc (next (process o s))) <> Connect
  /\ stage (lc (next (process o s))) <> Connected
  /\ calls_to_Done (next (process o s)) < calls_to_Done s.
Proof.
  intros H1 H2 H3.
  destruct (Stage_eq_dec (stage (lc s)) SetTrxCharacteristics) as [Ht|Ht].
  - intros _ _. unfold process, calls_to_Done. rewrite Ht.
    destruct (trx_stmt_ (lc s)) as [|a t] eqn:Et.
    + unfold set_trx_characteristics. rewrite Et. simpl.
      repeat split; try discriminate. lia.
    + rewrite set_trx_characteristics_sends by (rewrite Et; discriminate).
      simpl. repeat split; try discriminate.
      pose proof (trx_rest_shorter (trx_stmt_ (lc s))) as H.
      rewrite Et in *. specialize (H ltac:(discriminate)).
      simpl String.length in *. lia.
  - revert H1 H2 H3 Ht. unfold fallback_fires, Stage_eqb, calls_to_Done.
    by_stage s; intros H1 H2 H3 Ht; try congruence; clear H1 H2 H3 Ht;
      branches; simpl;
      repeat match goal with
        | H : stage (lc s) = _ |- _ => rewrite H; clear H
        end;
      simpl; intros Hgo Hfire;
      try discriminate Hgo; try discriminate Hfire;
      repeat split; try discriminate; try lia;
      repeat match goal with
        | H : empty ?t = true |- _ =>
            apply empty_iff in H; rewrite ?H in *; simpl; lia
        | H : empty ?t = false |- _ =>
            destruct t; [discriminate H | simpl; lia]
        end.
Qed.

(** X14.  The machine terminates.  From any stage past [Connected], a
    run in which no call of [process] suspends for a connect retry,
    fires the fallback or returns an error is in [Done] once it has
    made [calls_to_Done] calls: one per stage still ahead and two per
    character of the remembered transaction statement.  Callback calls
    and sub-processor steps in between do not count and do not delay
    it. *)
Theorem machine_terminates (s : State) (ms : list Move) :
  stage (lc s) <> Connect ->
  stage (lc s) <> Connected ->
  run_allowed s ms ->
  straight s ms ->
  calls_to_Done s <= process_calls ms ->
  stage (lc (run s ms)) = Done.
Proof.
  revert s. induction ms as [|m ms IH]; intros s H1 H2 Hok Hstr Hn.
  - simpl in *. apply calls_to_Done_zero; [assumption..|lia].
  - destruct Hok as [Hm Hok]. destruct Hstr as [Hs Hstr]. cbn [run].
    assert (Hsame : stage (lc (fst (step s m))) = stage (lc s) ->
                    trx_stmt_ (lc (fst (step s m))) = trx_stmt_ (lc s) ->
                    process_calls (m :: ms) = process_calls ms ->
                    stage (lc (run (fst (step s m)) ms)) = Done).
    { intros Hst Ht Hc. apply IH; try assumption; try congruence.
      unfold calls_to_Done in *. rewrite Hst, Ht. lia. }
    destruct m as [o|cb co err|s'].
    + clear Hsame. destruct Hs as [Hgo Hfire]. simpl in Hn.
      destruct (Stage_eq_dec (stage (lc s)) Done) as [Hd|Hd].
      * apply IH; try assumption.
        -- simpl. unfold process. rewrite Hd. unfold done.
           destruct (failed (lc s)); cbn [next]; rewrite reset_seq_id_lc;
             simpl; rewrite Hd; discriminate.
        -- simpl. unfold process. rewrite Hd. unfold done.
           destruct (failed (lc s)); cbn [next]; rewrite reset_seq_id_lc;
             simpl; rewrite Hd; discriminate.
        -- assert (Hz : calls_to_Done (fst (step s (Process o))) = 0).
           { simpl. unfold process, calls_to_Done. rewrite Hd. unfold done.
             destruct (failed (lc s)); cbn [next]; rewrite reset_seq_id_lc;
               simpl; rewrite Hd; reflexivity. }
           lia.
      * destruct (process_nears_Done o s H1 H2 Hd Hgo Hfire) as (N1 & N2 & Hlt).
        apply IH; try assumption. simpl. lia.
    + destruct (callback_lc_frame cb co err s) as (Hst & _ & Ht & _).
      apply Hsame; [exact Hst | exact Ht | reflexivity].
    + destruct Hm as (Hst & _ & Ht & _).
      apply Hsame; [exact Hst | exact Ht | reflexivity].
Qed.

(** *** Nothing to do *)

(** X15.  Started on a connection whose server side is already open,
    the machine has nothing to do: [Connect] goes straight to [Done]
    without pushing a connect, and with no failure stored the second
    call returns done having changed nothing but the stage and, when
    the connection has a server protocol state, the server's sequence
    id, which is reset to 0xff; with no server protocol state only the
    stage has changed. *)
Theorem open_connection_is_left_alone (o1 o2 : Oracle) (s : State) :
  stage (lc s) = Connect ->
  server_conn_is_open (conn s) = true ->
  failed (lc s) = None ->
  let s1 := next (process o1 s) in
  effects (process o1 s) = []
  /\ result (process o1 s) = inl Again
  /\ effects (process o2 s1) = []
  /\ result (process o2 s1) = inl ResultDone
  /\ next (process o2 s1)
     = (if server_protocol_present (conn s)
        then with_conn (set_seq_id 255) (with_lc (set_stage Done) s)
        else with_lc (set_stage Done) s).
Proof.
  intros Hst Hopen Hfail s1.
  assert (H1 : process o1 s = again (with_lc (set_stage Done) s) []).
  { unfold process. rewrite Hst. unfold connect. rewrite Hopen. reflexivity. }
  subst s1. rewrite H1. cbn [again next effects result].
  unfold process. cbn [with_lc lc set_stage stage]. unfold done, reset_seq_id.
  cbn [with_lc lc conn set_stage failed]. rewrite Hfail.
  repeat split.
Qed.

End Properties.

(** * The theorems at work *)

(** C3: one column and one row holding 1 leaves the processor
    unfailed. *)
Lemma IsTrueHandler_resultset_witness :
  failed (snd (IsTrue_run (resultset 1 [[Some "1"%string]])
                 (IsTrue_new wait_timed_out) sample_lc)) = None.
Proof.
  assert (Hlt : (N.of_nat (length [[Some "1"%string]]) < 2 ^ 64)%N)
    by (vm_compute; reflexivity).
  destruct (IsTrueHandler_resultset wait_timed_out 1 [[Some "1"%string]]
              sample_lc Hlt eq_refl) as [H _].
  apply H. split; [reflexivity | exists []; reflexivity].
Defined.

(** C3, against the claim as first stated: no rows and two rows are
    two causes with one and the same error. *)
Lemma IsTrueHandler_zero_and_many_rows_same_error :
  failed (snd (IsTrue_run (resultset 1 [])
                 (IsTrue_new wait_timed_out) sample_lc))
  = Some (HY000 "Too many rows")
  /\ failed (snd (IsTrue_run (resultset 1 [[Some "1"%string]; [Some "1"%string]])
                    (IsTrue_new wait_timed_out) sample_lc))
     = Some (HY000 "Too many rows").
Proof. split; reflexivity. Qed.

(** C1: the run fires the fallback once, on a read-only target, and
    ends at [Connect] with a read-write target. *)
Lemma fallback_at_most_once_witness :
  fallbacks sample_to_string fallback_start fallback_run = 1
  /\ stage (lc (run sample_to_string fallback_start fallback_run)) = Connect
  /\ expected_server_mode (conn (run sample_to_string fallback_start fallback_run))
     = ReadWrite
  /\ fallbacks sample_to_string fallback_start fallback_run <= 1
  /\ at_every_fallback sample_to_string fallback_restart fallback_start fallback_run.
Proof.
  assert (Hok : run_allowed sample_to_string fallback_start fallback_run)
    by (cbv; repeat split).
  destruct (fallback_at_most_once sample_to_string fallback_start fallback_run
              eq_refl Hok) as (H1 & H2 & _).
  refine (conj _ (conj _ (conj _ (conj H1 H2)))); vm_compute; reflexivity.
Defined.

(** C2, against the claim as first stated: when the connect fails, the
    error callback is called while the stage is [Connected]; [Done]
    finds no failure stored, calls nothing and leaves the authenticated
    flag set. *)
Lemma connect_error_reported_before_Done :
  run_log sample_to_string fallback_start connect_fails_run
  = [(Connect, PushProcessor (ConnectProcessor ForwardOnError));
     (Connected, CallOnError connect_refused)]
  /\ run_allowed sample_to_string fallback_start connect_fails_run
  /\ stage (lc (run sample_to_string fallback_start connect_fails_run)) = Done
  /\ failed (lc (run sample_to_string fallback_start connect_fails_run)) = None
  /\ authenticated (conn (run sample_to_string fallback_start connect_fails_run))
     = true.
Proof. cbv. repeat split. Qed.

(** C6: both statements are sent, in order, though the first one
    failed. *)
Lemma trx_replay_witness :
  run_queries sample_to_string (replay_start isolation_then_start) replay_run
  = ["SET TRANSACTION ISOLATION LEVEL SERIALIZABLE";
     "START TRANSACTION READ ONLY"]%string.
Proof.
  assert (Hok : run_allowed sample_to_string
                  (replay_start isolation_then_start) replay_run)
    by (cbv; repeat split).
  destruct (trx_replay sample_to_string (replay_start isolation_then_start)
              replay_run eq_refl Hok eq_refl) as [H _].
  rewrite H. vm_compute. reflexivity.
Defined.

(** C6, against the claim as first stated: a statement that ends in its
    only semicolon is one round-trip, and one with two inner semicolons
    is three. *)
Lemma semicolon_does_not_mean_two_round_trips :
  find semicolon "XA BEGIN;" = Some 8
  /\ run_queries sample_to_string (replay_start "XA BEGIN;")
       [Process sample_oracle; Process sample_oracle]
     = ["XA BEGIN"%string]
  /\ stage (lc (run sample_to_string (replay_start "XA BEGIN;")
                  [Process sample_oracle; Process sample_oracle]))
     = FetchUserAttrs
  /\ run_queries sample_to_string (replay_start "a; b; c")
       (repeat (Process sample_oracle) 6)
     = ["a"; "b"; "c"]%string
  /\ stage (lc (run sample_to_string (replay_start "a; b; c")
                  (repeat (Process sample_oracle) 6)))
     = FetchUserAttrs.
Proof. cbv. repeat split. Qed.

(** C10: nineteen calls of [process] are enough for a statement of
    nine characters. *)
Lemma trx_replay_terminates_witness :
  length (run_queries sample_to_string (replay_start "XA BEGIN;")
            (repeat (Process sample_oracle) 19)) <= 9
  /\ exists ms1 ms2,
       repeat (Process sample_oracle) 19 = ms1 ++ ms2
       /\ process_calls ms1 <= 19
       /\ stage (lc (run sample_to_string (replay_start "XA BEGIN;") ms1))
          = FetchUserAttrs.
Proof.
  assert (Hok : run_allowed sample_to_string (replay_start "XA BEGIN;")
                  (repeat (Process sample_oracle) 19))
    by (cbv; repeat split).
  destruct (trx_replay_terminates sample_to_string sample_oracle
              (replay_start "XA BEGIN;") (repeat (Process sample_oracle) 19)
              eq_refl Hok) as (_ & H2 & H3).
  split; [exact H2|]. apply H3. vm_compute. repeat constructor.
Defined.

(** C7: the sample connection waits with GTID_SUBSET. *)
Lemma gtid_wait_witness :
  effects (process sample_to_string sample_oracle
             {| lc := lc_in WaitGtidExecuted; conn := sample_conn |})
  = [PushProcessor
       (QuerySender
          ("SELECT GTID_SUBSET("
             ++ quoted dquote "3E11FA47-71CA-11E1-9E33-C80AA9429562:1-5"
             ++ ", @@GLOBAL.gtid_executed)")%string
          (IsTrueHandler wait_timed_out))]
  /\ stage (lc (next (process sample_to_string sample_oracle
                        {| lc := lc_in WaitGtidExecuted; conn := sample_conn |})))
     = WaitGtidExecutedDone.
Proof.
  destruct (gtid_wait sample_to_string sample_oracle
              {| lc := lc_in WaitGtidExecuted; conn := sample_conn |} eq_refl)
    as [H _].
  exact (H eq_refl).
Defined.

(** C9: same user and attributes, schemas shop and inventory. *)
Lemma reuse_only_resets_witness :
  c_schema sample_client <> s_schema sample_server
  /\ effects (process sample_to_string sample_oracle
                {| lc := lc_in Connected; conn := sample_conn |})
     = [PushProcessor ResetConnectionSender]
  /\ authenticated
       (conn (next (process sample_to_string sample_oracle
                      {| lc := lc_in Connected; conn := sample_conn |})))
     = true.
Proof.
  split; [discriminate|].
  destruct (reuse_only_resets sample_to_string sample_oracle
              {| lc := lc_in Connected; conn := sample_conn |}
              eq_refl eq_refl eq_refl eq_refl eq_refl eq_refl)
    as (H1 & H2 & _).
  exact (conj H1 H2).
Defined.

Lemma sample_vars_NoDup : NoDup (map fst sample_vars).
Proof.
  repeat constructor; simpl; intros H;
    repeat (destruct H as [H|H]; [discriminate H|]); exact H.
Defined.

(** C4: four entries, with trackers: the text sent, in which
    statement_id is left out and the client's session_track_gtids is
    assigned once. *)
Lemma set_vars_statement_witness :
  set_vars_stmt sample_to_string sample_vars true = sample_set_text
  /\ effects (process sample_to_string sample_oracle set_vars_state)
     = [PushProcessor (QuerySender sample_set_text (FailedQueryHandler sample_set_text))]
  /\ set_vars_assignments sample_vars true
     = [("session_track_system_variables", Some "*");
        ("autocommit", Some "1");
        ("session_track_gtids", Some "ALL_GTIDS");
        ("sql_mode", None);
        ("session_track_transaction_info", Some "CHARACTERISTICS");
        ("session_track_state_change", Some "ON")]%string
  /\ assignments_to "statement_id" (set_vars_assignments sample_vars true) = [].
Proof.
  destruct (set_vars_statement sample_to_string sample_oracle set_vars_state
              eq_refl sample_vars_NoDup)
    as (H1 & _ & _ & H4 & _ & _ & _ & _ & _ & H10).
  destruct (H10 eq_refl) as [H _].
  refine (conj _ (conj _ (conj eq_refl H4))).
  - etransitivity; [exact H1 | reflexivity].
  - etransitivity; [exact H | reflexivity].
Defined.

(** C4, against the claim as first stated: without session trackers a
    NULL session_track_system_variables entry, which is not
    statement_id, gets no assignment; the statement is empty and no
    query is sent. *)
Lemma null_tracking_entry_not_assigned :
  system_variables (conn null_tracking_state)
  = [("session_track_system_variables"%string, None)]
  /\ set_vars_stmt sample_to_string
       (system_variables (conn null_tracking_state)) false = EmptyString
  /\ set_vars_assignments (system_variables (conn null_tracking_state)) false = []
  /\ effects (process sample_to_string sample_oracle null_tracking_state) = []
  /\ stage (lc (next (process sample_to_string sample_oracle null_tracking_state)))
     = SetServerOption.
Proof. cbv. repeat split. Qed.

(** C5: the star comes first, the client's ALL_GTIDS stays as the one
    assignment to its name, and the other two defaults close the
    statement. *)
Lemma session_trackers_first_witness :
  effects (process sample_to_string sample_oracle set_vars_state)
  = [PushProcessor (QuerySender sample_set_text (FailedQueryHandler sample_set_text))]
  /\ stage (lc (next (process sample_to_string sample_oracle set_vars_state)))
     = SetVarsDone
  /\ assignments_to "session_track_gtids" (set_vars_assignments sample_vars true)
     = [("session_track_gtids"%string, Some "ALL_GTIDS"%string)]
  /\ assignments_to "session_track_state_change"
       (set_vars_assignments sample_vars true)
     = [("session_track_state_change"%string, Some "ON"%string)].
Proof.
  destruct (session_trackers_first sample_to_string sample_oracle set_vars_state
              eq_refl sample_vars_NoDup eq_refl)
    as (H1 & H2 & _ & H4).
  refine (conj _ (conj H2 (conj _ _))).
  - etransitivity; [exact H1 | reflexivity].
  - destruct (H4 "session_track_gtids"%string (Some "OWN_GTID"%string)
                (or_introl eq_refl)) as (_ & _ & H & _).
    apply H. simpl. auto.
  - destruct (H4 "session_track_state_change"%string (Some "ON"%string)
                (or_intror (or_intror (or_introl eq_refl)))) as (_ & H & _).
    apply H. simpl. intros Hin.
    repeat (destruct Hin as [Hin|Hin]; [discriminate Hin|]). exact Hin.
Defined.

(** C5, against the claim as first stated: the store holds an entry
    for session_track_gtids, a NULL one.  The statement assigns it
    its NULL and then, further on, the router's default, which is the
    assignment that takes effect. *)
Lemma null_tracker_entry_is_overridden :
  system_variables (conn null_gtids_state)
  = [("session_track_gtids"%string, None)]
  /\ connection_sharing (context (conn null_gtids_state))
     && greeting_from_router (conn null_gtids_state) = true
  /\ effects (process sample_to_string sample_oracle null_gtids_state)
     = [PushProcessor (QuerySender null_gtids_set_text (FailedQueryHandler null_gtids_set_text))]
  /\ assignments_to "session_track_gtids"
       (set_vars_assignments (system_variables (conn null_gtids_state)) true)
     = [("session_track_gtids"%string, None);
        ("session_track_gtids"%string, Some "OWN_GTID"%string)].
Proof. cbv. repeat split. Qed.

(** X3: called again in [Done], the machine stays there and pushes
    nothing. *)
Lemma Done_is_terminal_witness :
  stage (lc (run sample_to_string {| lc := lc_in Done; conn := sample_conn |}
               after_Done_run)) = Done
  /\ run_pushes sample_to_string {| lc := lc_in Done; conn := sample_conn |}
       after_Done_run = [].
Proof.
  assert (Hok : run_allowed sample_to_string
                  {| lc := lc_in Done; conn := sample_conn |} after_Done_run)
    by (cbv; repeat split).
  destruct (Done_is_terminal sample_to_string
              {| lc := lc_in Done; conn := sample_conn |} after_Done_run
              eq_refl Hok) as (H1 & H2 & _).
  exact (conj H1 H2).
Defined.

(** X7: a failure stored by the SET statement does not keep
    [SetVarsDone] from going on. *)
Lemma failure_checked_at_witness :
  stage (lc (next (process sample_to_string sample_oracle
                     (with_lc (set_failed (Some access_denied))
                        {| lc := lc_in SetVarsDone; conn := sample_conn |}))))
  = SetServerOption.
Proof.
  assert (H1 : SetVarsDone <> SetServerOptionDone) by discriminate.
  assert (H2 : SetVarsDone <> SetSchemaDone) by discriminate.
  assert (H3 : SetVarsDone <> WaitGtidExecutedDone) by discriminate.
  destruct (failure_checked_at sample_to_string sample_oracle
              {| lc := lc_in SetVarsDone; conn := sample_conn |}
              (Some access_denied) H1 H2 H3) as [H _].
  rewrite H. reflexivity.
Defined.

(** X9: the enforcement fails, and the next call reports Access
    denied. *)
Lemma access_denied_path_witness :
  on_error_calls
    (effects
       (process sample_to_string sample_oracle
          (next (process sample_to_string denying_oracle
                   {| lc := lc_in FetchUserAttrsDone; conn := sample_conn |}))))
  = [mkError 1045 "Access denied" "28000"].
Proof.
  destruct (access_denied_path sample_to_string denying_oracle sample_oracle
              {| lc := lc_in FetchUserAttrsDone; conn := sample_conn |} eq_refl)
    as (_ & H & _).
  destruct (H (or_intror eq_refl)) as (_ & _ & Hcalls & _).
  exact Hcalls.
Defined.

(** X10: with an empty store all three variables are asked for. *)
Lemma fetch_sys_vars_asks_for_missing_witness :
  effects (process sample_to_string sample_oracle
             {| lc := lc_in FetchSysVars; conn := sample_conn |})
  = [PushProcessor
       (QuerySender (union_of (map select_sys_var expected_sys_vars))
          SelectSessionVariablesHandler)].
Proof.
  destruct (fetch_sys_vars_asks_for_missing sample_to_string sample_oracle
              {| lc := lc_in FetchSysVars; conn := sample_conn |} eq_refl)
    as (_ & H & _).
  destruct (H eq_refl) as [He _]; [discriminate|].
  exact He.
Defined.

Lemma two_field_rows_match : rows_match 2 two_field_rows.
Proof. repeat constructor. Defined.

(** X11: two rows of two fields are read within bounds. *)
Lemma SelectSessionVariablesHandler_in_bounds_witness :
  exists h' s',
    SSV_run (resultset 2 two_field_rows) SelectSessionVariables_new sample_state
    = Some (h', s').
Proof.
  exact (proj1 (SelectSessionVariablesHandler_in_bounds 2 two_field_rows
                  sample_state two_field_rows_match)).
Defined.

(** X12: the two replayed statements have no semicolon. *)
Lemma replay_queries_have_no_semicolon_witness :
  Forall (fun q => find semicolon q = None)
    (run_queries sample_to_string (replay_start isolation_then_start) replay_run).
Proof.
  assert (Hok : run_allowed sample_to_string
                  (replay_start isolation_then_start) replay_run)
    by (cbv; repeat split).
  exact (replay_queries_have_no_semicolon sample_to_string
           (replay_start isolation_then_start) replay_run eq_refl Hok).
Defined.

Lemma quiet_state_nothing_to_replay : nothing_to_replay sample_to_string quiet_state.
Proof. cbv. repeat split. Defined.

(** X13: the client's schema shop differs from the server's inventory,
    so the reuse pushes the reset and one init-schema. *)
Lemma quiet_reuse_witness :
  map snd (run_log sample_to_string quiet_state (repeat (Process sample_oracle) 11))
  = [PushProcessor ResetConnectionSender;
     PushProcessor (InitSchemaSender "shop")]
  /\ stage (lc (run sample_to_string quiet_state
                  (repeat (Process sample_oracle) 11))) = Done.
Proof.
  destruct (quiet_reuse sample_to_string sample_oracle quiet_state
              eq_refl eq_refl eq_refl eq_refl quiet_state_nothing_to_replay)
    as (H1 & H2 & _).
  exact (conj H1 H2).
Defined.

(** X14: from [Authenticated] the fifteen calls the bound allows reach
    [Done]. *)
Lemma machine_terminates_witness :
  calls_to_Done {| lc := lc_in Authenticated; conn := conn null_tracking_state |}
  = 15
  /\ stage (lc (run sample_to_string
                  {| lc := lc_in Authenticated; conn := conn null_tracking_state |}
                  (repeat (Process sample_oracle) 15))) = Done.
Proof.
  split; [reflexivity|].
  assert (H1 : Authenticated <> Connect) by discriminate.
  assert (H2 : Authenticated <> Connected) by discriminate.
  apply (machine_terminates sample_to_string
           {| lc := lc_in Authenticated; conn := conn null_tracking_state |}
           (repeat (Process sample_oracle) 15) H1 H2).
  - cbv. repeat split.
  - cbv. repeat split.
  - cbv. repeat constructor.
Defined.

(** X15: the sample connection is open, so two calls end the
    reconciliation with nothing pushed. *)
Lemma open_connection_is_left_alone_witness :
  effects (process sample_to_string sample_oracle sample_state) = []
  /\ result (process sample_to_string sample_oracle
               (next (process sample_to_string sample_oracle sample_state)))
     = inl ResultDone.
Proof.
  destruct (open_connection_is_left_alone sample_to_string sample_oracle
              sample_oracle sample_state eq_refl eq_refl eq_refl)
    as (H1 & _ & _ & H4 & _).
  exact (conj H1 H4).
Defined.
